(** * AI Coach route: a shallow embedding of [POST /api/ai/coach]

    The development follows the route handler with database query
    capabilities (Clerk authentication, Gemini generation, raw SQL through
    [runSupabaseQuery], in-memory response cache) and the query utility
    [runSupabaseQuery].

    The handler is a computation in a monad of exceptions and logged
    calls; what its collaborators answer is a parameter, the [World].  The
    body of the readable stream is run in sequence with the handler, so the
    log lists the calls in the order they are made.

    Text is modelled as [string]: the bytes of the UTF-8 encoding of the
    JavaScript string.  Every pattern the handler searches for is ASCII, and
    an ASCII byte never occurs inside a multi-byte UTF-8 sequence, so the
    searches and rewrites below agree with the ones on UTF-16 code units. *)

From Stdlib Require Import String Ascii List Bool Arith ZArith Lia.
Import ListNotations.
Local Open Scope list_scope.
Local Open Scope string_scope.
Local Open Scope nat_scope.
Set Warnings "-register-all".

(** ** JavaScript string operations used by the handler *)

Module JsString.

(** The double quote and the backslash. *)
Abbreviation dquote := (Ascii false true false false false true false false).
Abbreviation backslash := (Ascii false false true true true false true false).

Definition chr (n : nat) : string := String (ascii_of_nat n) EmptyString.

Fixpoint drop (n : nat) (s : string) : string :=
  match n, s with
  | S n', String _ s' => drop n' s'
  | _, _ => s
  end.

Fixpoint rev_acc (s acc : string) : string :=
  match s with
  | EmptyString => acc
  | String c s' => rev_acc s' (String c acc)
  end.

Definition rev (s : string) : string := rev_acc s EmptyString.

Fixpoint map_chars (f : ascii -> ascii) (s : string) : string :=
  match s with
  | EmptyString => EmptyString
  | String c s' => String (f c) (map_chars f s')
  end.

Definition is_upper (c : ascii) : bool :=
  let n := nat_of_ascii c in (65 <=? n) && (n <=? 90).

Definition lower_char (c : ascii) : ascii :=
  if is_upper c then ascii_of_nat (nat_of_ascii c + 32) else c.

(** [String.prototype.toLowerCase] on the ASCII letters; a character
    outside ASCII keeps its bytes.  On an ASCII text this is the function
    itself.  On other texts the searches for [user_id], [where],
    [select], [insert], [update] and [delete] and the page switch still
    agree with it: the two characters outside ASCII whose lower case holds
    an ASCII letter (U+212A gives [k], U+0130 gives [i] followed by
    U+0307) complete none of these words.  The search for the predicate
    on the user may differ when the identifier or the statement holds a
    letter outside ASCII, and is exact when both are ASCII. *)
Definition toLowerCase (s : string) : string := map_chars lower_char s.

(** [String.prototype.includes]. *)
Fixpoint includes (s pat : string) : bool :=
  prefix pat s ||
  match s with
  | EmptyString => false
  | String _ s' => includes s' pat
  end.

(** Leftmost position at which [here] succeeds: the text before it and
    what [here] returned.  The empty suffix is tried last, as a regular
    expression search does. *)
Fixpoint search {A : Type} (here : string -> option A) (s : string)
  : option (string * A) :=
  match here s with
  | Some a => Some (EmptyString, a)
  | None =>
      match s with
      | EmptyString => None
      | String c s' =>
          match search here s' with
          | Some (pre, a) => Some (String c pre, a)
          | None => None
          end
      end
  end.

Definition strip_prefix (p s : string) : option string :=
  if prefix p s then Some (drop (String.length p) s) else None.

(** Case-insensitive literal, as the [i] flag matches an ASCII word. *)
Definition strip_prefix_ci (p s : string) : option string :=
  if prefix (toLowerCase p) (toLowerCase s)
  then Some (drop (String.length p) s) else None.

(** The characters of [\s] and of [trim]: WhiteSpace and LineTerminator,
    each in its UTF-8 encoding. *)
Definition utf8_3 (a b c : nat) : string :=
  String (ascii_of_nat a) (String (ascii_of_nat b) (chr c)).

Definition white_space : list string :=
  [ chr 9; chr 10; chr 11; chr 12; chr 13; chr 32;
    String (ascii_of_nat 194) (chr 160);            (* U+00A0 *)
    utf8_3 225 154 128;                              (* U+1680 *)
    utf8_3 226 128 128; utf8_3 226 128 129; utf8_3 226 128 130;
    utf8_3 226 128 131; utf8_3 226 128 132; utf8_3 226 128 133;
    utf8_3 226 128 134; utf8_3 226 128 135; utf8_3 226 128 136;
    utf8_3 226 128 137; utf8_3 226 128 138;          (* U+2000..U+200A *)
    utf8_3 226 128 168; utf8_3 226 128 169;          (* U+2028, U+2029 *)
    utf8_3 226 128 175;                              (* U+202F *)
    utf8_3 226 129 159;                              (* U+205F *)
    utf8_3 227 128 128;                              (* U+3000 *)
    utf8_3 239 187 191 ].                            (* U+FEFF *)

Fixpoint strip_any (toks : list string) (s : string) : option string :=
  match toks with
  | [] => None
  | t :: toks' =>
      match strip_prefix t s with
      | Some r => Some r
      | None => strip_any toks' s
      end
  end.

Fixpoint skip_many (toks : list string) (fuel : nat) (s : string) : string :=
  match fuel with
  | O => s
  | S fuel' =>
      match strip_any toks s with
      | Some r => skip_many toks fuel' r
      | None => s
      end
  end.

(** [\s*], greedy: one byte at least is consumed per round, so the length
    of the text is fuel enough. *)
Definition skip_ws (s : string) : string :=
  skip_many white_space (String.length s) s.

(** [\s+], greedy. *)
Definition skip_ws1 (s : string) : option string :=
  match strip_any white_space s with
  | Some r => Some (skip_ws r)
  | None => None
  end.

Definition trimStart (s : string) : string := skip_ws s.

Definition trimEnd (s : string) : string :=
  rev (skip_many (map rev white_space) (String.length s) (rev s)).

(** [String.prototype.trim]. *)
Definition trim (s : string) : string := trimEnd (trimStart s).

(** Longest prefix whose characters satisfy [p], and the rest. *)
Fixpoint span (p : ascii -> bool) (s : string) : string * string :=
  match s with
  | EmptyString => (EmptyString, EmptyString)
  | String c s' =>
      if p c then let '(a, b) := span p s' in (String c a, b)
      else (EmptyString, s)
  end.

Definition is_digit (c : ascii) : bool :=
  let n := nat_of_ascii c in (48 <=? n) && (n <=? 57).

(** [\w] without the [u] flag: ASCII letters, digits and underscore. *)
Definition is_word (c : ascii) : bool :=
  let n := nat_of_ascii c in
  is_digit c || ((65 <=? n) && (n <=? 90)) || ((97 <=? n) && (n <=? 122))
  || (n =? 95).

(** [s.replace(/lit opt?/g, '')] for a literal [lit] followed by an
    optional literal [opt]. *)
Fixpoint remove_all_fuel (fuel : nat) (lit opt s : string) : string :=
  match fuel with
  | O => s
  | S fuel' =>
      match strip_prefix lit s with
      | Some r =>
          match strip_prefix opt r with
          | Some r' => remove_all_fuel fuel' lit opt r'
          | None => remove_all_fuel fuel' lit opt r
          end
      | None =>
          match s with
          | EmptyString => EmptyString
          | String c s' => String c (remove_all_fuel fuel' lit opt s')
          end
      end
  end.

Definition remove_all (lit opt s : string) : string :=
  remove_all_fuel (S (String.length s)) lit opt s.

(** [s.replace(/lit/g, by)] for a non-empty literal [lit] and a
    replacement without [$]. *)
Fixpoint replace_all_fuel (fuel : nat) (lit by_ s : string) : string :=
  match fuel with
  | O => s
  | S fuel' =>
      match strip_prefix lit s with
      | Some r => by_ ++ replace_all_fuel fuel' lit by_ r
      | None =>
          match s with
          | EmptyString => EmptyString
          | String c s' => String c (replace_all_fuel fuel' lit by_ s')
          end
      end
  end.

Definition replace_all (lit by_ s : string) : string :=
  replace_all_fuel (S (String.length s)) lit by_ s.

(** [s.replace(lit, '')] with a string pattern: the first occurrence. *)
Definition remove_first (lit s : string) : string :=
  match search (strip_prefix lit) s with
  | Some (pre, post) => pre ++ post
  | None => s
  end.

Definition digit_val (c : ascii) : nat := nat_of_ascii c - 48.

(** GetSubstitution (ECMA-262) for a pattern without named groups:
    [$$], [$&], [$`], [$'], [$n] and [$nn]; any other [$] is literal. *)
Fixpoint expand (tmpl matched before after : string) (caps : list string)
  : string :=
  let m := List.length caps in
  let cap i := nth (i - 1) caps EmptyString in
  match tmpl with
  | EmptyString => EmptyString
  | String "$" (String "$" t) => "$" ++ expand t matched before after caps
  | String "$" (String "&" t) => matched ++ expand t matched before after caps
  | String "$" (String "`" t) => before ++ expand t matched before after caps
  | String "$" (String "'" t) => after ++ expand t matched before after caps
  | String "$" (String d1 t1 as t0) =>
      if is_digit d1 then
        let one :=
          let i := digit_val d1 in
          if (1 <=? i) && (i <=? m)
          then cap i ++ expand t1 matched before after caps
          else String "$" (String d1 (expand t1 matched before after caps)) in
        match t1 with
        | String d2 t2 =>
            if is_digit d2 then
              let i := digit_val d1 * 10 + digit_val d2 in
              if i <=? m then
                if 1 <=? i
                then cap i ++ expand t2 matched before after caps
                else String "$" (String d1 (String d2
                       (expand t2 matched before after caps)))
              else one
            else one
        | EmptyString => one
        end
      else String "$" (expand t0 matched before after caps)
  | String c t => String c (expand t matched before after caps)
  end.

End JsString.

(** ** JavaScript values *)

(** The values [JSON.parse] and [request.json()] produce, and [undefined].
    A number keeps its decimal literal: [JNum m e] is [m * 10^e]. *)
Inductive JsValue : Type :=
| JUndefined
| JNull
| JBool (b : bool)
| JNum (mantissa exponent : Z)
| JStr (s : string)
| JArr (items : list JsValue)
| JObj (fields : list (string * JsValue)).

(** An [Error] object: the runtime and the libraries of this route throw
    nothing else. *)
Record Exn : Type := mkExn {
  exn_name : string;
  exn_message : string
}.

Definition TypeError (msg : string) : Exn := mkExn "TypeError" msg.
Definition Error (msg : string) : Exn := mkExn "Error" msg.

(** Normal completion or a thrown exception. *)
Inductive Res (A : Type) : Type :=
| Ok (a : A)
| Throw (e : Exn).
Arguments Ok {A} a.
Arguments Throw {A} e.

Module Js.
Import JsString.

(** The literal is zero as a double: the mantissa is zero, or the value is
    at most [2^-1075], which rounds to zero (ties to even). *)
Definition num_is_zero (m e : Z) : bool :=
  ((m =? 0) || ((e <? 0) && (Z.abs m * 2 ^ 1075 <=? 10 ^ (- e))))%Z.

(** ToBoolean. *)
Definition truthy (v : JsValue) : bool :=
  match v with
  | JUndefined | JNull => false
  | JBool b => b
  | JNum m e => negb (num_is_zero m e)
  | JStr s => negb (s =? EmptyString)%string
  | JArr _ | JObj _ => true
  end.

(** [a || b]. *)
Definition or_else (a b : JsValue) : JsValue := if truthy a then a else b.

(** The last binding of a key: a later duplicate overwrites the earlier
    one when [JSON.parse] builds the object. *)
Fixpoint lookup (k : string) (fs : list (string * JsValue)) : option JsValue :=
  match fs with
  | [] => None
  | (k', v) :: fs' =>
      match lookup k fs' with
      | Some w => Some w
      | None => if (k =? k')%string then Some v else None
      end
  end.

(** Reading a property of [null] or [undefined] throws. *)
Definition no_properties (v : JsValue) (k : string) : Exn :=
  TypeError ("Cannot read properties of "
               ++ match v with JNull => "null" | _ => "undefined" end
               ++ " (reading '" ++ k ++ "')").

(** Property read [v.k] for a key no prototype defines ([message],
    [stream], [sql_query], ...): [undefined] unless [v] is an object
    holding it; reading from [null] or [undefined] throws. *)
Definition get (v : JsValue) (k : string) : Res JsValue :=
  match v with
  | JUndefined | JNull => Throw (no_properties v k)
  | JObj fs => Ok (match lookup k fs with Some w => w | None => JUndefined end)
  | _ => Ok JUndefined
  end.

(** The pattern [const { message, ... } = body] throws on [null] and
    [undefined], before any property is read. *)
Definition destructure (name : string) (first : string) (v : JsValue)
  : Res unit :=
  match v with
  | JUndefined | JNull =>
      Throw (TypeError ("Cannot destructure property '" ++ first ++ "' of '"
                          ++ name ++ "' as it is "
                          ++ match v with JNull => "null" | _ => "undefined" end
                          ++ "."))
  | _ => Ok tt
  end.

(** A destructuring default: [{ k = d } = body]. *)
Definition default_to (v d : JsValue) : JsValue :=
  match v with JUndefined => d | _ => v end.

(** The receiver of a call [name.method()] of a String method: only a
    string has the method, and a parsed value holds no function. *)
Definition receiver (name : string) (v : JsValue) (method : string)
  : Res string :=
  match v with
  | JStr s => Ok s
  | JUndefined | JNull => Throw (no_properties v method)
  | _ => Throw (TypeError (name ++ "." ++ method ++ " is not a function"))
  end.

(** ToString completes on the value.  An object converts through
    [Object.prototype.toString], unless it holds a [toString] of its own:
    in a parsed value that is never a function, and [valueOf] then
    returns the object itself or is no function either.  An array
    converts through [join], which converts its elements ([null] and
    [undefined] give the empty text). *)
Fixpoint convertible (v : JsValue) : bool :=
  match v with
  | JObj fs =>
      match lookup "toString" fs with
      | Some _ => false
      | None => true
      end
  | JArr items => forallb convertible items
  | _ => true
  end.

(** ToString, as far as the handler depends on it: the text stays the
    value it renders, and a value that does not convert throws. *)
Definition ToString (v : JsValue) : Res JsValue :=
  if convertible v then Ok v
  else Throw (TypeError "Cannot convert object to primitive value").

(** [typeof v === "string"] and [typeof v === 'object']. *)
Definition is_string (v : JsValue) : bool :=
  match v with JStr _ => true | _ => false end.

Definition typeof_object (v : JsValue) : bool :=
  match v with JNull | JArr _ | JObj _ => true | _ => false end.

End Js.

(** ** [JSON.parse] *)

Module Json.
Import JsString.

Definition json_ws : list string := [chr 32; chr 9; chr 10; chr 13].

Definition skip_json_ws (s : string) : string :=
  skip_many json_ws (String.length s) s.

Definition hex_val (c : ascii) : option N :=
  let n := nat_of_ascii c in
  if is_digit c then Some (N.of_nat (n - 48))
  else if (65 <=? n) && (n <=? 70) then Some (N.of_nat (n - 55))
  else if (97 <=? n) && (n <=? 102) then Some (N.of_nat (n - 87))
  else None.

Definition hex4 (s : string) : option (N * string) :=
  match s with
  | String a (String b (String c (String d r))) =>
      match hex_val a, hex_val b, hex_val c, hex_val d with
      | Some x, Some y, Some z, Some w =>
          Some ((((x * 16 + y) * 16 + z) * 16 + w)%N, r)
      | _, _, _, _ => None
      end
  | _ => None
  end.

Definition byte (n : N) : ascii := ascii_of_N n.

(** UTF-8 bytes of a code point (a lone surrogate takes the three-byte
    form). *)
Definition utf8 (n : N) : string :=
  (if n <? 128 then String (byte n) EmptyString
   else if n <? 2048 then
     String (byte (192 + n / 64)) (String (byte (128 + n mod 64)) EmptyString)
   else if n <? 65536 then
     String (byte (224 + n / 4096))
       (String (byte (128 + (n / 64) mod 64))
          (String (byte (128 + n mod 64)) EmptyString))
   else
     String (byte (240 + n / 262144))
       (String (byte (128 + (n / 4096) mod 64))
          (String (byte (128 + (n / 64) mod 64))
             (String (byte (128 + n mod 64)) EmptyString))))%N.

(** A [\uXXXX] escape, joined with a following low surrogate escape when
    it is a high surrogate. *)
Definition unicode_escape (s : string) : option (string * string) :=
  match hex4 s with
  | None => None
  | Some (hi, r) =>
      if ((55296 <=? hi) && (hi <=? 56319))%N then
        match r with
        | String backslash (String "u" r') =>
            match hex4 r' with
            | Some (lo, r'') =>
                if ((56320 <=? lo) && (lo <=? 57343))%N
                then Some (utf8 (65536 + (hi - 55296) * 1024 + (lo - 56320))%N, r'')
                else Some (utf8 hi, r)
            | None => Some (utf8 hi, r)
            end
        | _ => Some (utf8 hi, r)
        end
      else Some (utf8 hi, r)
  end.

(** The characters of a string literal after its opening quote, and the
    text after its closing quote. *)
Fixpoint string_body (fuel : nat) (s : string) : option (string * string) :=
  match fuel with
  | O => None
  | S f =>
      match s with
      | EmptyString => None
      | String dquote r => Some (EmptyString, r)
      | String backslash (String e r) =>
          let lit c :=
            match string_body f r with
            | Some (t, r') => Some (String (ascii_of_nat c) t, r')
            | None => None
            end in
          match e with
          | dquote => lit 34 | backslash => lit 92 | "/"%char => lit 47
          | "b"%char => lit 8 | "f"%char => lit 12 | "n"%char => lit 10
          | "r"%char => lit 13 | "t"%char => lit 9
          | "u"%char =>
              match unicode_escape r with
              | Some (bytes, r') =>
                  match string_body f r' with
                  | Some (t, r'') => Some (bytes ++ t, r'')
                  | None => None
                  end
              | None => None
              end
          | _ => None
          end
      | String c r =>
          if nat_of_ascii c <? 32 then None
          else match string_body f r with
               | Some (t, r') => Some (String c t, r')
               | None => None
               end
      end
  end.

Definition string_lit (s : string) : option (string * string) :=
  string_body (S (String.length s)) s.

Fixpoint digits_val (acc : Z) (ds : string) : Z :=
  match ds with
  | EmptyString => acc
  | String d ds' => digits_val (acc * 10 + Z.of_nat (digit_val d))%Z ds'
  end.

(** A number literal: an optional minus, an integer part without leading
    zero, an optional fraction and an optional exponent, each with one
    digit at least. *)
Definition number (s : string) : option (JsValue * string) :=
  let '(neg, s1) := match s with String "-" r => (true, r) | _ => (false, s) end in
  let int_part :=
    match s1 with
    | String "0" r => Some ("0", r)
    | _ => match span is_digit s1 with
           | (EmptyString, _) => None
           | (ds, r) => Some (ds, r)
           end
    end in
  match int_part with
  | None => None
  | Some (ids, s2) =>
      let frac :=
        match s2 with
        | String "." r =>
            match span is_digit r with
            | (EmptyString, _) => None
            | (fs, r') => Some (fs, r')
            end
        | _ => Some (EmptyString, s2)
        end in
      match frac with
      | None => None
      | Some (fds, s3) =>
          let expo :=
            match s3 with
            | String c r =>
                if (c =? "e")%char || (c =? "E")%char then
                  let '(eneg, r1) :=
                    match r with
                    | String "-" r' => (true, r')
                    | String "+" r' => (false, r')
                    | _ => (false, r)
                    end in
                  match span is_digit r1 with
                  | (EmptyString, _) => None
                  | (es, r2) =>
                      let v := digits_val 0 es in
                      Some (if eneg then (- v)%Z else v, r2)
                  end
                else Some (0%Z, s3)
            | EmptyString => Some (0%Z, s3)
            end in
          match expo with
          | None => None
          | Some (ev, s4) =>
              let m := digits_val 0 (ids ++ fds) in
              Some (JNum (if neg then (- m)%Z else m)
                         (ev - Z.of_nat (String.length fds))%Z, s4)
          end
      end
  end.

Fixpoint value (fuel : nat) (s : string) {struct fuel}
  : option (JsValue * string) :=
  match fuel with
  | O => None
  | S f =>
      match skip_json_ws s with
      | String "{" r =>
          match skip_json_ws r with
          | String "}" r' => Some (JObj [], r')
          | r1 =>
              match members f r1 with
              | Some (fs, r') => Some (JObj fs, r')
              | None => None
              end
          end
      | String "[" r =>
          match skip_json_ws r with
          | String "]" r' => Some (JArr [], r')
          | r1 =>
              match elements f r1 with
              | Some (vs, r') => Some (JArr vs, r')
              | None => None
              end
          end
      | String dquote r =>
          match string_lit r with
          | Some (t, r') => Some (JStr t, r')
          | None => None
          end
      | s1 =>
          match strip_prefix "true" s1, strip_prefix "false" s1,
                strip_prefix "null" s1 with
          | Some r, _, _ => Some (JBool true, r)
          | _, Some r, _ => Some (JBool false, r)
          | _, _, Some r => Some (JNull, r)
          | _, _, _ => number s1
          end
      end
  end
with members (fuel : nat) (s : string) {struct fuel}
  : option (list (string * JsValue) * string) :=
  match fuel with
  | O => None
  | S f =>
      match skip_json_ws s with
      | String dquote r =>
          match string_lit r with
          | Some (k, r1) =>
              match skip_json_ws r1 with
              | String ":" r2 =>
                  match value f r2 with
                  | Some (v, r3) =>
                      match skip_json_ws r3 with
                      | String "," r4 =>
                          match members f r4 with
                          | Some (fs, r5) => Some ((k, v) :: fs, r5)
                          | None => None
                          end
                      | String "}" r4 => Some ([(k, v)], r4)
                      | _ => None
                      end
                  | None => None
                  end
              | _ => None
              end
          | None => None
          end
      | _ => None
      end
  end
with elements (fuel : nat) (s : string) {struct fuel}
  : option (list JsValue * string) :=
  match fuel with
  | O => None
  | S f =>
      match value f s with
      | Some (v, r) =>
          match skip_json_ws r with
          | String "," r1 =>
              match elements f r1 with
              | Some (vs, r2) => Some (v :: vs, r2)
              | None => None
              end
          | String "]" r1 => Some ([v], r1)
          | _ => None
          end
      | None => None
      end
  end.

(** [JSON.parse(s)]; [None] stands for the SyntaxError it throws.  Every
    nested call comes after one consumed character at least. *)
Definition parse (s : string) : option JsValue :=
  match value (2 * String.length s + 2) s with
  | Some (v, r) =>
      match skip_json_ws r with
      | EmptyString => Some v
      | _ => None
      end
  | None => None
  end.

End Json.

(** ** The regular expressions of the handler *)

Module Patterns.
Import JsString.

Definition quoted (s : string) : string :=
  String dquote (s ++ String dquote EmptyString).

(** Text before the last occurrence of a character. *)
Fixpoint before_last (c : ascii) (s : string) : option string :=
  match s with
  | EmptyString => None
  | String a r =>
      match before_last c r with
      | Some t => Some (String a t)
      | None => if (a =? c)%char then Some EmptyString else None
      end
  end.

(** [s.match(/\{[\s\S]* Qsql_queryQ [\s\S]*\}/)], group 0, where [Q] is
    the double quote.  Both stars are greedy and match any character, so a
    match starts at the first brace and ends at the last closing brace, and
    exists when the quoted key lies between the two. *)
Definition json_envelope (s : string) : option string :=
  match search (strip_prefix "{") s with
  | None => None
  | Some (_, rest) =>
      match before_last "}" rest with
      | None => None
      | Some inner =>
          if includes inner (quoted "sql_query")
          then Some (String "{" (inner ++ "}"))
          else None
      end
  end.

Definition not_dquote (c : ascii) : bool := negb (c =? dquote)%char.

(** [/Qsql_queryQ\s*:\s*Q([^Q]+)Q/] at one position, where [Q] is the
    double quote: group 1. *)
Definition sql_query_field_here (s : string) : option string :=
  match strip_prefix (quoted "sql_query") s with
  | None => None
  | Some r =>
      match skip_ws r with
      | String ":" r1 =>
          match skip_ws r1 with
          | String dquote r2 =>
              match span not_dquote r2 with
              | (EmptyString, _) => None
              | (g, String dquote _) => Some g
              | (_, _) => None
              end
          | _ => None
          end
      | _ => None
      end
  end.

(** The leftmost match of that expression in [s]: group 1. *)
Definition sql_query_field (s : string) : option string :=
  match search sql_query_field_here s with
  | Some (_, g) => Some g
  | None => None
  end.

(** The text a match took: [s] without its remainder [r]. *)
Definition taken (s r : string) : string :=
  substring 0 (String.length s - String.length r) s.

(** [/FROM\s+(\w+)/i] at one position: the match, group 1, the rest. *)
Definition from_here (s : string) : option (string * string * string) :=
  match strip_prefix_ci "FROM" s with
  | None => None
  | Some r =>
      match skip_ws1 r with
      | None => None
      | Some r1 =>
          match span is_word r1 with
          | (EmptyString, _) => None
          | (w, r2) => Some (taken s r2, w, r2)
          end
      end
  end.

(** [/WHERE\s+/i] at one position: the match and the rest. *)
Definition where_here (s : string) : option (string * string) :=
  match strip_prefix_ci "WHERE" s with
  | None => None
  | Some r =>
      match skip_ws1 r with
      | None => None
      | Some r1 => Some (taken s r1, r1)
      end
  end.

(** [s.replace(/FROM\s+(\w+)/i, tmpl)]: the first match only. *)
Definition replace_from (tmpl s : string) : string :=
  match search from_here s with
  | Some (pre, (m, g, post)) => pre ++ expand tmpl m pre post [g] ++ post
  | None => s
  end.

(** [s.replace(/WHERE\s+/i, tmpl)]: the first match only. *)
Definition replace_where (tmpl s : string) : string :=
  match search where_here s with
  | Some (pre, (m, post)) => pre ++ expand tmpl m pre post [] ++ post
  | None => s
  end.

End Patterns.

(** ** Data of a request *)

(** A result row: a mapping from column names to values. *)
Definition Row : Type := list (string * JsValue).

Record User : Type := mkUser { id : string }.

(** Modelled from the spec: the entry [getCachedResponse] returns, from the
    cache module [@/lib/ai-coach/cache]; the response text, and the SQL text
    and row count [setCachedResponse] was given. *)
Record CachedResponse : Type := mkCached {
  response : string;
  sqlQuery : JsValue;
  resultCount : nat
}.

(** The page context text by its parts: the page label, the guidance of
    the page switch, and the page data and the auxiliary rows when they
    are shown. *)
Record PageContextInfo : Type := mkPageInfo {
  page : option string;
  guidance : option string;
  pageDataShown : option JsValue;
  autoDataShown : option (list Row)
}.

(** The two framings of the data summary.  [sqls] is
    [[sqlQuery, autoQuerySQL].filter(Boolean)], joined when the template is
    rendered. *)
Inductive DataSummary : Type :=
| DataFound (rows : list Row) (sqls : list JsValue) (dbSchema : string)
| NoDataFound (sqls : list JsValue).

(** First line of each framing, as the template writes it. *)
Definition framing (d : DataSummary) : string :=
  match d with
  | DataFound _ _ _ => "Here's the data from the database:"
  | NoDataFound _ => "No specific data found in the database for this question. "
  end.

(** The three prompt templates.  A template is fixed text around the
    values it interpolates, so a prompt is kept as the template and those
    values. *)
Inductive Prompt : Type :=
| SqlGenerationPrompt (dbSchema message userId : string)
| AutoQueryPrompt (pageContext : JsValue) (dbSchema userId : string)
| AnalysisPrompt (systemPrompt message : string) (info : PageContextInfo)
    (summary : DataSummary).

(** A generation stream: the chunks with what [chunk.text()] gives for
    each, and the error the iteration ends with, if any. *)
Record StreamSource : Type := mkStream {
  chunks : list (Res string);
  failure : option Exn
}.

(** The answer of [fetch] to the model listing. *)
Record FetchResponse : Type := mkFetch {
  ok : bool;
  json : Res JsValue
}.

(** The two call sites of [runSupabaseQuery]: step 2 and the page-context
    step. *)
Inductive Site : Type := Primary | Auxiliary.

(** Calls the handler makes on its collaborators, in order.  [EvQuery] is
    a call of [runSupabaseQuery], [EvPoolQuery] the call of [pool.query]
    inside it, [EvEnqueue] and [EvClose] the calls on the stream
    controller. *)
Inductive Event : Type :=
| EvCurrentUser
| EvRequestJson
| EvCacheGet (userId message : string)
| EvCacheSet (userId message reply : string) (sql : JsValue) (count : nat)
| EvListModels
| EvGenerate (model : string) (p : Prompt)
| EvGenerateStream (model : string) (p : Prompt)
| EvQuery (site : Site) (sql : string)
| EvPoolQuery (sql : string)
| EvEnqueue (text : string)
| EvClose.

Record DataInfo : Type := mkDataInfo {
  info_sqlQuery : JsValue;
  info_resultCount : nat;
  hasData : bool;
  sampleData : option (list Row)
}.

(** The three JSON bodies: [{ error, details }],
    [{ reply, cached: true, debug }] and [{ reply, cached: false, dataInfo }]. *)
Inductive Body : Type :=
| ErrorBody (error : string) (details : option string)
| CachedBody (reply : string) (debug : option (JsValue * nat))
| ReplyBody (reply : string) (dataInfo : DataInfo).

Inductive Response : Type :=
| JsonResponse (status : nat) (body : Body)
| StreamResponse.

(** What the outside answers to the handler.
    - [currentUser], [request_json], [fetch_models],
      [generateContentStream]: Clerk, the body reader, the model listing
      and the stream opener, each asked once at most;
    - [generateContent c model prompt]: [model.generateContent(prompt)]
      with [response.text()], asked after [c] calls; the count lets the
      same call fail once and succeed later;
    - [pool_query c sql]: [pool.query(sql)] with the rows of its result,
      an array as [runSupabaseQuery] types it;
    - [getCachedResponse], [getDatabaseSchema], [AI_COACH_SYSTEM_PROMPT]:
      the cache, schema and system prompt modules, which are outside this
      development;
    - [error_stack]: what [error.stack] reads as.
    The stream controller and [setCachedResponse] always return. *)
Record World : Type := mkWorld {
  currentUser : Res (option User);
  GEMINI_API_KEY : option string;
  DATABASE_URL : option string;
  SUPABASE_DB_URL : option string;
  NODE_ENV : option string;
  request_json : Res JsValue;
  getCachedResponse : string -> string -> option CachedResponse;
  fetch_models : Res FetchResponse;
  generateContent : nat -> string -> Prompt -> Res string;
  generateContentStream : string -> Prompt -> Res StreamSource;
  pool_query : nat -> string -> Res (list Row);
  getDatabaseSchema : string;
  AI_COACH_SYSTEM_PROMPT : string;
  error_stack : Exn -> option string
}.

(** ** Effects: exceptions and the log of calls *)

(** A computation reads the number of calls made so far and returns its
    completion with the calls it made. *)
Definition M (A : Type) : Type := nat -> Res A * list Event.

Definition ret {A} (a : A) : M A := fun _ => (Ok a, []).

Definition throw {A} (e : Exn) : M A := fun _ => (Throw e, []).

Definition bind {A B} (m : M A) (f : A -> M B) : M B :=
  fun c =>
    match m c with
    | (Ok a, l1) =>
        let '(r, l2) := f a (c + List.length l1) in (r, (l1 ++ l2)%list)
    | (Throw e, l1) => (Throw e, l1)
    end.

(** [try { m } catch (e) { h e }] *)
Definition try_catch {A} (m : M A) (h : Exn -> M A) : M A :=
  fun c =>
    match m c with
    | (Ok a, l1) => (Ok a, l1)
    | (Throw e, l1) =>
        let '(r, l2) := h e (c + List.length l1) in (r, (l1 ++ l2)%list)
    end.

(** A call on a collaborator. *)
Definition call {A} (ev : Event) (answer : nat -> Res A) : M A :=
  fun c => (answer c, [ev]).

Definition emit (ev : Event) : M unit := fun _ => (Ok tt, [ev]).

Definition lift {A} (r : Res A) : M A := fun _ => (r, []).

Notation "x <- m ;; k" := (bind m (fun x => k))
  (at level 61, m at next level, right associativity).
Notation "' pat <- m ;; k" :=
  (bind m (fun x => match x with pat => k end))
  (at level 61, pat pattern, m at next level, right associativity).
Notation "m ;;; k" := (bind m (fun _ => k))
  (at level 61, right associativity).

(** ** [runSupabaseQuery] and the route handler *)

(** [process.env.A || process.env.B] and the truth of a variable: unset
    and empty are both falsy. *)
Definition env_or (a b : option string) : option string :=
  match a with
  | Some (String _ _) => a
  | _ => b
  end.

Definition env_set (a : option string) : bool :=
  match a with
  | Some (String _ _) => true
  | _ => false
  end.

(** [Error.prototype.toString]. *)
Definition String_of_error (e : Exn) : string :=
  match exn_name e, exn_message e with
  | EmptyString, msg => msg
  | name, EmptyString => name
  | name, msg => name ++ ": " ++ msg
  end.

(** [geminiError?.message || String(geminiError)] *)
Definition error_text (e : Exn) : string :=
  match exn_message e with
  | EmptyString => String_of_error e
  | msg => msg
  end.

Definition altModels : list string :=
  [ "models/gemini-pro"; "gemini-pro";
    "models/gemini-1.5-flash"; "gemini-1.5-flash";
    "models/gemini-1.5-pro"; "gemini-1.5-pro" ].

Definition newline : string := JsString.chr 10.

Section Handler.

Import JsString Js Patterns.

Variable w : World.

(** [runSupabaseQuery(sql)], called from [site]. *)
Definition runSupabaseQuery (site : Site) (sql : string) : M (list Row) :=
  emit (EvQuery site sql) ;;;
  let dbUrl := env_or (DATABASE_URL w) (SUPABASE_DB_URL w) in
  if negb (env_set dbUrl) then
    throw (Error
      ("DATABASE_URL or SUPABASE_DB_URL environment variable is required for raw SQL queries. "
       ++ "You can find this in your Supabase project settings under Database > Connection String. "
       ++ "Format: postgresql://postgres:[PASSWORD]@[HOST]:5432/postgres"))
  else
    try_catch
      (call (EvPoolQuery sql) (fun c => pool_query w c sql))
      (fun error =>
         throw (Error ("Failed to execute SQL query: " ++ exn_message error))).

(** [model.generateContent(prompt)] and [response.text()]. *)
Definition generate (model : string) (p : Prompt) : M string :=
  call (EvGenerate model p) (fun c => generateContent w c model p).

Definition setCachedResponse (userId message reply : string)
  (sql : JsValue) (count : nat) : M unit :=
  emit (EvCacheSet userId message reply (or_else sql JUndefined) count).

(** The model listing: the first model supporting generation, without its
    [models/] prefix. *)
Definition supports (m : JsValue) (method : string) : Res bool :=
  match get m "supportedGenerationMethods" with
  | Throw e => Throw e
  | Ok JUndefined | Ok JNull => Ok false
  | Ok (JArr items) =>
      Ok (existsb (fun v => match v with
                            | JStr s => (s =? method)%string
                            | _ => false
                            end) items)
  | Ok (JStr s) => Ok (includes s method)
  | Ok _ => Throw (TypeError "includes is not a function")
  end.

Fixpoint find_generateContent (models : list JsValue) : Res JsValue :=
  match models with
  | [] => Ok JUndefined
  | m :: rest =>
      match supports m "generateContent" with
      | Throw e => Throw e
      | Ok true => Ok m
      | Ok false =>
          match supports m "GENERATE_CONTENT" with
          | Throw e => Throw e
          | Ok true => Ok m
          | Ok false => find_generateContent rest
          end
      end
  end.

Definition model_of_listing (modelsData : JsValue) : Res (option string) :=
  match get modelsData "models" with
  | Throw e => Throw e
  | Ok ms =>
      match or_else ms (JArr []) with
      | JArr models =>
          match find_generateContent models with
          | Throw e => Throw e
          | Ok JUndefined => Ok None
          | Ok m =>
              match get m "name" with
              | Ok (JStr name) => Ok (Some (remove_first "models/" name))
              | Ok _ => Throw (TypeError "name.replace is not a function")
              | Throw e => Throw e
              end
          end
      | _ => Throw (TypeError "models.find is not a function")
      end
  end.

Definition availableModel : M (option string) :=
  try_catch
    (modelsResponse <- call EvListModels (fun _ => fetch_models w) ;;
     if ok modelsResponse then
       modelsData <- lift (json modelsResponse) ;;
       lift (model_of_listing modelsData)
     else ret None)
    (fun listError => ret None).

(** [availableModel || "gemini-pro"] *)
Definition modelName : M string :=
  m <- availableModel ;;
  ret (match m with
       | Some (String _ _ as name) => name
       | _ => "gemini-pro"
       end).

Definition not_found (errorMsg : string) : bool :=
  includes errorMsg "404" || includes errorMsg "not found".

(** The loop over [altModels]: the text of the first model that answers.
    [onSuccess] is what the loop body does after the text is read, inside
    the same [try]. *)
Fixpoint try_alternatives (p : Prompt) (onSuccess : string -> M unit)
  (models : list string) : M (option string) :=
  match models with
  | [] => ret None
  | altModelName :: rest =>
      try_catch
        (t <- generate altModelName p ;;
         onSuccess t ;;;
         ret (Some t))
        (fun altError => try_alternatives p onSuccess rest)
  end.

(** Step 1, generation: the primary model, then the alternatives when the
    error reads as a missing model. *)
Definition generate_sql (model : string) (p : Prompt) : M string :=
  try_catch (generate model p)
    (fun geminiError =>
       let errorMsg := error_text geminiError in
       if not_found errorMsg then
         r <- try_alternatives p (fun _ => ret tt) altModels ;;
         match r with
         | Some (String _ _ as sqlResponse) => ret sqlResponse
         | _ =>
             throw (Error
               ("All Gemini models failed. Please check your API key and available models. Original error: "
                ++ errorMsg))
         end
       else throw (Error ("Failed to generate SQL query: " ++ errorMsg))).

(** The text left when the fences are removed. *)
Definition strip_fences (s : string) : string :=
  trim (remove_all "```" newline
          (remove_all "```json" newline
             (remove_all "```sql" newline s))).

(** [parsed.sql_query || parsed.sql || text.trim()] on the parsed
    envelope; [None] when [JSON.parse] or a property read throws. *)
Definition envelope_sql (text : string) : option JsValue :=
  let jsonStr := match json_envelope text with
                 | Some j => j
                 | None => text
                 end in
  match Json.parse jsonStr with
  | None => None
  | Some parsed =>
      match get parsed "sql_query", get parsed "sql" with
      | Ok q, Ok q' => Some (or_else q (or_else q' (JStr (trim text))))
      | _, _ => None
      end
  end.

(** Step 1, parsing of the primary answer. *)
Definition extract_sql (sqlResponse : string) : JsValue :=
  match envelope_sql sqlResponse with
  | Some v => v
  | None =>
      let s := strip_fences sqlResponse in
      match sql_query_field s with
      | Some g => JStr (replace_all (String backslash "n") " " g)
      | None => JStr s
      end
  end.

Definition user_predicate (userId : string) : string :=
  "user_id = '" ++ userId ++ "'".

(** The user filter.  [sqlQuery.toLowerCase()] throws when the value is
    not a string. *)
Definition ensure_user_filter (userId : string) (sqlQuery : JsValue)
  : Res string :=
  match receiver "sqlQuery" sqlQuery "toLowerCase" with
  | Throw e => Throw e
  | Ok s =>
      let lower := toLowerCase s in
      if negb (includes lower "user_id") && negb (includes lower "where") then
        if includes lower "select"
        then Ok (replace_from ("FROM $1 WHERE " ++ user_predicate userId) s)
        else Ok s
      else if includes lower "where"
              && negb (includes lower (user_predicate userId))
      then Ok (replace_where ("WHERE " ++ user_predicate userId ++ " AND ") s)
      else Ok s
  end.

(** Steps 1 and 2: [sqlQuery] and [queryResults] as they stand after the
    outer [try].  [sqlQuery] keeps what was assigned before a throw. *)
Definition primary_query (model userId message : string)
  : M (JsValue * list Row) :=
  r <- try_catch
         (sqlResponse <- generate_sql model
            (SqlGenerationPrompt (getDatabaseSchema w) message userId) ;;
          ret (Some sqlResponse))
         (fun sqlGenError => ret None) ;;
  match r with
  | None => ret (JStr EmptyString, [])
  | Some sqlResponse =>
      let sqlQuery := extract_sql sqlResponse in
      match ensure_user_filter userId sqlQuery with
      | Throw sqlGenError => ret (sqlQuery, [])
      | Ok sql =>
          queryResults <- try_catch (runSupabaseQuery Primary sql)
                            (fun queryError => ret []) ;;
          ret (JStr sql, queryResults)
      end
  end.

(** Step 3, parsing of the auxiliary answer: no field extraction in the
    fallback. *)
Definition auxiliary_sql (autoQueryText : string) : JsValue :=
  match envelope_sql autoQueryText with
  | Some v => v
  | None => JStr (strip_fences autoQueryText)
  end.

(** The test before the auxiliary query runs, on the lower-cased text. *)
Definition reads_only (lower : string) : bool :=
  negb (includes lower "insert") && negb (includes lower "update")
  && negb (includes lower "delete").

(** Step 3: [autoQuerySQL] and [autoQueryResults].  The prompt is a
    template over the page context, built inside the [try]. *)
Definition context_query (model userId : string) (pageContext : JsValue)
  : M (JsValue * list Row) :=
  if truthy pageContext then
    r <- try_catch
           (page <- lift (ToString pageContext) ;;
            autoQueryText <- generate model
              (AutoQueryPrompt page (getDatabaseSchema w) userId) ;;
            ret (Some autoQueryText))
           (fun err => ret None) ;;
    match r with
    | None => ret (JStr EmptyString, [])
    | Some autoQueryText =>
        let autoQuerySQL := auxiliary_sql autoQueryText in
        if truthy autoQuerySQL then
          match receiver "autoQuerySQL" autoQuerySQL "toLowerCase" with
          | Throw err => ret (autoQuerySQL, [])
          | Ok sql =>
              if reads_only (toLowerCase sql) then
                autoQueryResults <- try_catch (runSupabaseQuery Auxiliary sql)
                                      (fun err => ret []) ;;
                ret (autoQuerySQL, autoQueryResults)
              else ret (autoQuerySQL, [])
          end
        else ret (autoQuerySQL, [])
    end
  else ret (JStr EmptyString, []).

(** Step 4, the page switch. *)
Definition page_guidance (lower : string) : option string :=
  if (lower =? "dashboard")%string then
    Some " Focus on overall portfolio health, top performers, and biggest opportunities across all their businesses."
  else if (lower =? "properties")%string || (lower =? "property")%string then
    Some " Focus on individual property performance, cash flow analysis, ROE calculations, and property-specific opportunities."
  else if (lower =? "agency")%string || (lower =? "agency management")%string then
    Some " Focus on client performance, marketing ROI, growth strategies, and agency metrics."
  else if (lower =? "business")%string || (lower =? "business hub")%string then
    Some " Focus on campaigns performance, revenue trends, business metrics, and marketing optimization."
  else if (lower =? "campaigns")%string then
    Some " Focus on campaign ROI, performance metrics, budget optimization, and marketing strategy."
  else None.

(** Step 4: the template over the page context throws when it does not
    convert, and [pageContext.toLowerCase()] throws when it is neither
    falsy nor a string. *)
Definition pageContextInfo (pageContext pageData : JsValue)
  (autoQueryResults : list Row) : Res PageContextInfo :=
  let rest p g :=
    Ok (mkPageInfo p g
          (if truthy pageData && typeof_object pageData
           then Some pageData else None)
          (match autoQueryResults with
           | [] => None
           | _ => Some autoQueryResults
           end)) in
  if truthy pageContext then
    match ToString pageContext with
    | Throw e => Throw e
    | Ok _ =>
        match receiver "pageContext" pageContext "toLowerCase" with
        | Throw e => Throw e
        | Ok s => rest (Some s) (page_guidance (toLowerCase s))
        end
    end
  else rest None None.

(** Steps 5 and 6: the primary rows when there are any, else the
    auxiliary ones; the framing follows [hasData]. *)
Definition allQueryResults (queryResults autoQueryResults : list Row)
  : list Row :=
  match queryResults with
  | [] => autoQueryResults
  | _ => queryResults
  end.

(** [[sqlQuery, autoQuerySQL].filter(Boolean).join('; ')]: the
    statements kept, in order.  [join] converts each of them, outside
    every inner [try]. *)
Definition allSQLQueries (sqlQuery autoQuerySQL : JsValue)
  : Res (list JsValue) :=
  let kept := filter truthy [sqlQuery; autoQuerySQL] in
  if forallb convertible kept then Ok kept
  else Throw (TypeError "Cannot convert object to primitive value").

Definition dataSummary (queryResults autoQueryResults : list Row)
  (allSQLQueries : list JsValue) : DataSummary :=
  match allQueryResults queryResults autoQueryResults with
  | [] => NoDataFound allSQLQueries
  | rows => DataFound rows allSQLQueries (getDatabaseSchema w)
  end.

(** Steps 4 to 6: the prompt of the synthesis, in the order the
    handler builds it. *)
Definition analysisPrompt (message : string) (pageContext pageData : JsValue)
  (queryResults autoQueryResults : list Row) (sqlQuery autoQuerySQL : JsValue)
  : Res Prompt :=
  match pageContextInfo pageContext pageData autoQueryResults with
  | Throw e => Throw e
  | Ok info =>
      match allSQLQueries sqlQuery autoQuerySQL with
      | Throw e => Throw e
      | Ok allSQLQueries =>
          Ok (AnalysisPrompt (AI_COACH_SYSTEM_PROMPT w) message info
                (dataSummary queryResults autoQueryResults allSQLQueries))
      end
  end.

(** The loop of [start(controller)]: every non-empty chunk text is
    forwarded at once and appended to [fullResponse]; a chunk whose text
    cannot be read is skipped. *)
Fixpoint forward (cs : list (Res string)) (fullResponse : string) : M string :=
  match cs with
  | [] => ret fullResponse
  | Ok (String _ _ as chunkText) :: rest =>
      emit (EvEnqueue chunkText) ;;;
      forward rest (fullResponse ++ chunkText)
  | _ :: rest => forward rest fullResponse
  end.

(** [start(controller)] of the readable stream. *)
Definition start (stream : StreamSource) (userId message : string)
  (sqlQuery : JsValue) (count : nat) : M unit :=
  try_catch
    (fullResponse <- forward (chunks stream) EmptyString ;;
     match failure stream with
     | Some streamError => throw streamError
     | None =>
         setCachedResponse userId message fullResponse sqlQuery count ;;;
         emit EvClose
     end)
    (fun streamError =>
       emit (EvEnqueue (newline ++ newline ++ "Error: "
                          ++ exn_message streamError)) ;;;
       emit EvClose).

(** The buffered answer: the primary model, then the alternatives when
    the error reads as a missing model. *)
Definition generate_reply (model : string) (p : Prompt)
  (userId message : string) (sqlQuery : JsValue) (count : nat) : M string :=
  try_catch
    (reply <- generate model p ;;
     setCachedResponse userId message reply sqlQuery count ;;;
     ret reply)
    (fun geminiError =>
       let errorMsg := error_text geminiError in
       if not_found errorMsg then
         r <- try_alternatives p
                (fun reply =>
                   setCachedResponse userId message reply sqlQuery count)
                altModels ;;
         match r with
         | Some (String _ _ as reply) => ret reply
         | _ =>
             throw (Error
               ("All Gemini models failed for analysis. Please check your API key and available models. Original error: "
                ++ errorMsg))
         end
       else throw (Error ("Failed to generate analysis: " ++ errorMsg))).

(** The buffered response: the reply with the query information. *)
Definition buffered (model : string) (analysisPrompt : Prompt)
  (userId message : string) (sqlQuery : JsValue) (queryResults : list Row)
  : M Response :=
  let count := List.length queryResults in
  reply <- generate_reply model analysisPrompt userId message sqlQuery count ;;
  ret (JsonResponse 200
         (ReplyBody reply
            (mkDataInfo (or_else sqlQuery (JStr "No SQL generated"))
               count
               (0 <? count)
               (match queryResults with
                | [] => None
                | _ => Some (firstn 3 queryResults)
                end)))).

(** The final response, streaming or regular.  A stream that cannot be
    opened leaves the regular response. *)
Definition synthesize (model : string) (analysisPrompt : Prompt)
  (userId message : string) (useStreaming sqlQuery : JsValue)
  (queryResults : list Row) : M Response :=
  opened <-
    (if truthy useStreaming then
       try_catch
         (stream <- call (EvGenerateStream model analysisPrompt)
                      (fun _ => generateContentStream w model analysisPrompt) ;;
          ret (Some stream))
         (fun geminiError => ret None)
     else ret None) ;;
  match opened with
  | Some stream =>
      start stream userId message sqlQuery (List.length queryResults) ;;;
      ret StreamResponse
  | None =>
      buffered model analysisPrompt userId message sqlQuery queryResults
  end.

(** The handler from the model listing on. *)
Definition answer (user : User) (message : string)
  (useStreaming pageContext pageData : JsValue) : M Response :=
  model <- modelName ;;
  ' (sqlQuery, queryResults) <- primary_query model (id user) message ;;
  ' (autoQuerySQL, autoQueryResults) <-
    context_query model (id user) pageContext ;;
  analysisPrompt <-
    lift (analysisPrompt message pageContext pageData queryResults
            autoQueryResults sqlQuery autoQuerySQL) ;;
  synthesize model analysisPrompt (id user) message useStreaming sqlQuery
    queryResults.

Definition development : bool :=
  match NODE_ENV w with
  | Some env => (env =? "development")%string
  | None => false
  end.

(** The response of the outer [catch]. *)
Definition internal_error (error : Exn) : Response :=
  JsonResponse 500
    (ErrorBody
       (match exn_message error with
        | EmptyString => "Internal server error"
        | errorMessage => errorMessage
        end)
       (if development then error_stack w error else None)).

(** [POST(request)] *)
Definition POST : M Response :=
  try_catch
    (user <- call EvCurrentUser (fun _ => currentUser w) ;;
     match user with
     | None => ret (JsonResponse 401 (ErrorBody "Unauthorized" None))
     | Some user =>
         if negb (env_set (GEMINI_API_KEY w)) then
           ret (JsonResponse 500
                  (ErrorBody
                     "Gemini API key not configured. Please set GEMINI_API_KEY in your Vercel environment variables."
                     None))
         else
           body <- call EvRequestJson (fun _ => request_json w) ;;
           lift (destructure "body" "message" body) ;;;
           message <- lift (get body "message") ;;
           stream <- lift (get body "stream") ;;
           pageContext <- lift (get body "pageContext") ;;
           pageData <- lift (get body "pageData") ;;
           let useStreaming := default_to stream (JBool true) in
           let pageContext := default_to pageContext JNull in
           let pageData := default_to pageData JNull in
           match message with
           | JStr (String _ _ as message) =>
               cached <-
                 (if negb (truthy useStreaming) then
                    emit (EvCacheGet (id user) message) ;;;
                    ret (getCachedResponse w (id user) message)
                  else ret None) ;;
               match cached with
               | Some cached =>
                   ret (JsonResponse 200
                          (CachedBody (response cached)
                             (if development
                              then Some (or_else (sqlQuery cached)
                                           (JStr "No SQL generated"),
                                         resultCount cached)
                              else None)))
               | None => answer user message useStreaming pageContext pageData
               end
           | _ => ret (JsonResponse 400 (ErrorBody "Message is required" None))
           end
     end)
    (fun error => ret (internal_error error)).

End Handler.

(** The response to a request and the calls made for it. *)
Definition reply_of (w : World) : Res Response := fst (POST w 0).
Definition trace (w : World) : list Event := snd (POST w 0).

(** * Specification vocabulary *)

(** ** A logic of calls, results and exceptions *)

(** [behaves m P Q E]: whenever [m] runs, every call it makes satisfies
    [P], a value it returns satisfies [Q] and an exception it throws
    satisfies [E]. *)
Definition behaves {A} (m : M A) (P : Event -> Prop) (Q : A -> Prop)
  (E : Exn -> Prop) : Prop :=
  forall c,
    Forall P (snd (m c)) /\
    match fst (m c) with
    | Ok a => Q a
    | Throw e => E e
    end.

Definition anything {A} : A -> Prop := fun _ => True.
Definition nothing {A} : A -> Prop := fun _ => False.


(** ** Vocabulary of the statements *)

Section Vocabulary.

Import JsString Js.

Variable w : World.

(** A connection string is set. *)
Definition configured : bool :=
  env_set (env_or (DATABASE_URL w) (SUPABASE_DB_URL w)).

(** What a guarded query leaves in the result set: nothing, or the rows
    the pool returned. *)
Definition fetched (rows : list Row) : Prop :=
  rows = [] \/
  (configured = true /\ exists c sql, pool_query w c sql = Ok rows).

(** The request passes the identity, configuration and input checks:
    [u] is signed in, the API key is set, the body reads as [body] and its
    message is the non-empty string [message]. *)
Definition accepted (u : User) (body : JsValue) (message : string) : Prop :=
  currentUser w = Ok (Some u) /\
  env_set (GEMINI_API_KEY w) = true /\
  request_json w = Ok body /\
  get body "message" = Ok (JStr message) /\
  message <> EmptyString.

End Vocabulary.

(** A field of the destructured body. *)
Definition field (body : JsValue) (k : string) : JsValue :=
  match Js.get body k with
  | Ok v => v
  | Throw _ => JUndefined
  end.

Definition useStreaming_of (body : JsValue) : JsValue :=
  Js.default_to (field body "stream") (JBool true).

Definition pageContext_of (body : JsValue) : JsValue :=
  Js.default_to (field body "pageContext") JNull.

Definition pageData_of (body : JsValue) : JsValue :=
  Js.default_to (field body "pageData") JNull.

(** The cache does not answer: streaming was asked for, or the lookup
    finds nothing. *)
Definition cache_missed (w : World) (u : User) (body : JsValue)
  (message : string) : Prop :=
  Js.truthy (useStreaming_of body) = true \/
  getCachedResponse w (id u) message = None.

(** The calls before the model listing. *)
Definition gate_calls (u : User) (body : JsValue) (message : string)
  : list Event :=
  EvCurrentUser :: EvRequestJson ::
  (if Js.truthy (useStreaming_of body) then []
   else [EvCacheGet (id u) message]).

(** The page context is a string or is falsy, as the interface types it. *)
Definition page_typed (pageContext : JsValue) : bool :=
  negb (Js.truthy pageContext) || Js.is_string pageContext.

(** The fragments a stream forwards: the non-empty chunk texts. *)
Fixpoint fragments (cs : list (Res string)) : list string :=
  match cs with
  | [] => []
  | Ok (String _ _ as t) :: rest => t :: fragments rest
  | _ :: rest => fragments rest
  end.

(** The text a list of fragments adds up to. *)
Definition joined (ts : list string) : string :=
  fold_right append EmptyString ts.

(** What the client channel sees after the stream opened: the fragments,
    then the cache write and the close, or the inline error and the
    close. *)
Definition channel (stream : StreamSource) (userId message : string)
  (sqlQuery : JsValue) (count : nat) : list Event :=
  (map EvEnqueue (fragments (chunks stream)) ++
   match failure stream with
   | None =>
       [ EvCacheSet userId message (joined (fragments (chunks stream)))
           (Js.or_else sqlQuery JUndefined) count;
         EvClose ]
   | Some streamError =>
       [ EvEnqueue (newline ++ newline ++ "Error: " ++ exn_message streamError);
         EvClose ]
   end)%list.


(** The stream of the synthesis, when streaming is asked for and the
    stream opens. *)
Definition opened_stream (w : World) (useStreaming : JsValue)
  (model : string) (p : Prompt) : option StreamSource :=
  if Js.truthy useStreaming then
    match generateContentStream w model p with
    | Ok stream => Some stream
    | Throw _ => None
    end
  else None.

(** The call on the stream that precedes a buffered synthesis: the
    attempt to open it, when streaming is asked for. *)
Definition stream_attempt (useStreaming : JsValue) (model : string)
  (p : Prompt) : list Event :=
  if Js.truthy useStreaming then [EvGenerateStream model p] else [].


(** The query information of the buffered response. *)
Definition dataInfo_of (sqlQuery : JsValue) (queryResults : list Row)
  : DataInfo :=
  mkDataInfo (Js.or_else sqlQuery (JStr "No SQL generated"))
    (List.length queryResults)
    (0 <? List.length queryResults)
    (match queryResults with
     | [] => None
     | _ => Some (firstn 3 queryResults)
     end).

(** Every model variant is reported missing on the SQL prompt of the
    request, whenever it is asked. *)
Definition sql_generation_exhausted (w : World) (u : User) (message : string)
  : Prop :=
  forall c m, exists e,
    generateContent w c m
      (SqlGenerationPrompt (getDatabaseSchema w) message (id u)) = Throw e /\
    not_found (error_text e) = true.

(** Every model variant is reported missing on every synthesis prompt. *)
Definition synthesis_exhausted (w : World) : Prop :=
  forall c m system msg info s, exists e,
    generateContent w c m (AnalysisPrompt system msg info s) = Throw e /\
    not_found (error_text e) = true.

(** The statements read out of the answers of the model convert to
    text, as the strings they are typed as do. *)
Definition statements_render (w : World) : Prop :=
  forall c m p t,
    generateContent w c m p = Ok t ->
    match p with
    | SqlGenerationPrompt _ _ _ => Js.convertible (extract_sql t) = true
    | AutoQueryPrompt _ _ _ => Js.convertible (auxiliary_sql t) = true
    | AnalysisPrompt _ _ _ _ => True
    end.

(** The model answers every synthesis prompt with [reply]. *)
Definition synthesis_answers (w : World) (reply : string) : Prop :=
  forall c m system msg info s,
    generateContent w c m (AnalysisPrompt system msg info s) = Ok reply.

(** The message of the error thrown when no variant answers the
    synthesis prompt. *)
Definition all_failed_for_analysis (original : Exn) : string :=
  "All Gemini models failed for analysis. Please check your API key and available models. Original error: "
  ++ error_text original.

(** The data summary as the design words it: the primary rows when there
    are any, else the auxiliary rows when there are any, else the no-data
    framing. *)
Definition summary_by_precedence (w : World) (primary auxiliary : list Row)
  (sqls : list JsValue) : DataSummary :=
  match primary, auxiliary with
  | _ :: _, _ => DataFound primary sqls (getDatabaseSchema w)
  | [], _ :: _ => DataFound auxiliary sqls (getDatabaseSchema w)
  | [], [] => NoDataFound sqls
  end.

Definition is_close (e : Event) : bool :=
  match e with EvClose => true | _ => false end.

(** The statements passed to [runSupabaseQuery], with their call site. *)
Definition queries (tr : list Event) : list (Site * string) :=
  flat_map (fun e => match e with
                     | EvQuery site sql => [(site, sql)]
                     | _ => []
                     end) tr.

(** The statement mentions the identifier of the user: any predicate on
    that identifier does. *)
Definition mentions_user (userId sql : string) : bool :=
  JsString.includes sql userId.

(** How often the client channel was closed. *)
Definition closes (tr : list Event) : nat :=
  List.length (filter is_close tr).

Definition is_generation (e : Event) : bool :=
  match e with
  | EvGenerate _ _ | EvGenerateStream _ _ => true
  | _ => false
  end.

Definition is_query (e : Event) : bool :=
  match e with
  | EvQuery _ _ | EvPoolQuery _ => true
  | _ => false
  end.

(** Calls of the stages before synthesis. *)
Definition gathering (e : Event) : Prop :=
  match e with
  | EvListModels | EvPoolQuery _ | EvQuery Primary _ => True
  | EvGenerate _ (SqlGenerationPrompt _ _ _) => True
  | EvGenerate _ (AutoQueryPrompt _ _ _) => True
  | EvQuery Auxiliary sql =>
      reads_only (JsString.toLowerCase sql) = true
  | _ => False
  end.

(** Calls of the synthesis on prompt [p]. *)
Definition synthesizing (p : Prompt) (e : Event) : Prop :=
  match e with
  | EvGenerate _ p' | EvGenerateStream _ p' => p' = p
  | EvCacheSet _ _ _ _ _ | EvEnqueue _ | EvClose => True
  | _ => False
  end.

(** The same world where a statement the pool fails on returns no rows
    instead. *)
Definition failing_as_empty (w : World) : World :=
  mkWorld (currentUser w) (GEMINI_API_KEY w) (DATABASE_URL w)
    (SUPABASE_DB_URL w) (NODE_ENV w) (request_json w)
    (getCachedResponse w) (fetch_models w) (generateContent w)
    (generateContentStream w)
    (fun c sql =>
       match pool_query w c sql with
       | Ok rows => Ok rows
       | Throw _ => Ok []
       end)
    (getDatabaseSchema w) (AI_COACH_SYSTEM_PROMPT w) (error_stack w).

(** ** Example requests *)

Module Examples.

Import JsString Patterns.

Definition alice : User := mkUser "user_2aLiCe".

Definition not_found_error : Exn :=
  Error "[404 Not Found] models/gemini-pro is not found for API version v1beta".

(** The envelope the prompts ask for. *)
Definition envelope (sql : string) : string :=
  "{ " ++ quoted "sql_query" ++ ": " ++ quoted sql ++ " }".

(** A world around a request body: [alice] is signed in, the API key and
    the connection string are set, the cache is empty, the model listing
    fails, and the pool returns one row for every statement. *)
Definition world (body : JsValue)
  (gen : nat -> string -> Prompt -> Res string) : World :=
  mkWorld (Ok (Some alice)) (Some "key") (Some "postgresql://db") None None
    (Ok body)
    (fun _ _ => None)
    (Throw (Error "fetch failed"))
    gen
    (fun _ _ => Throw (Error "stream unavailable"))
    (fun _ _ => Ok [[("address", JStr "12 Elm St")]])
    "properties(id, user_id, address)"
    "You are ELO AI."
    (fun _ => None).

Definition ask (message : string) (more : list (string * JsValue)) : JsValue :=
  JObj (("message", JStr message) :: more).

(** A generator answering each template with a fixed text. *)
Definition scripted (sql auto reply : Res string)
  : nat -> string -> Prompt -> Res string :=
  fun _ _ p =>
    match p with
    | SqlGenerationPrompt _ _ _ => sql
    | AutoQueryPrompt _ _ _ => auto
    | AnalysisPrompt _ _ _ _ => reply
    end.

(** The same world with an entry in the cache. *)
Definition caching (entry : CachedResponse) (w : World) : World :=
  mkWorld (currentUser w) (GEMINI_API_KEY w) (DATABASE_URL w)
    (SUPABASE_DB_URL w) (NODE_ENV w) (request_json w)
    (fun _ _ => Some entry)
    (fetch_models w) (generateContent w) (generateContentStream w)
    (pool_query w) (getDatabaseSchema w) (AI_COACH_SYSTEM_PROMPT w) (error_stack w).

Definition count_question : string := "How many properties do I have?".

Definition count_sql : string :=
  "SELECT COUNT(*) FROM properties WHERE user_id = 'user_2aLiCe'".

Definition three : string := "You have 3 properties.".

(** A generator that follows the prompts. *)
Definition obedient : nat -> string -> Prompt -> Res string :=
  scripted (Ok (envelope count_sql))
    (Ok (envelope "SELECT address FROM properties WHERE user_id = 'user_2aLiCe' LIMIT 50"))
    (Ok three).

(** The default request, which streams, and the buffered one. *)
Definition streaming_request : JsValue := ask count_question [].

Definition buffered_request : JsValue :=
  ask count_question [("stream", JBool false)].

Definition cached_three : CachedResponse := mkCached three (JStr count_sql) 1.

(** A page-context answer that deletes. *)
Definition delete_sql : string :=
  "DELETE FROM properties WHERE user_id = 'user_2aLiCe'".

Definition deleting : nat -> string -> Prompt -> Res string :=
  scripted (Ok (envelope count_sql)) (Ok (envelope delete_sql)) (Ok three).

Definition page_request : JsValue :=
  ask count_question [("stream", JBool false); ("pageContext", JStr "properties")].

(** No model answers the SQL prompt: every variant is reported missing. *)
Definition exhausted : nat -> string -> Prompt -> Res string :=
  scripted (Throw not_found_error) (Throw not_found_error) (Ok three).


(** The same world with an empty database. *)
Definition barren (w : World) : World :=
  mkWorld (currentUser w) (GEMINI_API_KEY w) (DATABASE_URL w)
    (SUPABASE_DB_URL w) (NODE_ENV w) (request_json w) (getCachedResponse w)
    (fetch_models w) (generateContent w) (generateContentStream w)
    (fun _ _ => Ok [])
    (getDatabaseSchema w) (AI_COACH_SYSTEM_PROMPT w) (error_stack w).

(** The same world with a pool that counts for a [COUNT] statement and
    lists an address for any other. *)
Definition counting (w : World) : World :=
  mkWorld (currentUser w) (GEMINI_API_KEY w) (DATABASE_URL w)
    (SUPABASE_DB_URL w) (NODE_ENV w) (request_json w) (getCachedResponse w)
    (fetch_models w) (generateContent w) (generateContentStream w)
    (fun _ sql =>
       if includes sql "COUNT" then Ok [[("count", JNum 3 0)]]
       else Ok [[("address", JStr "12 Elm St")]])
    (getDatabaseSchema w) (AI_COACH_SYSTEM_PROMPT w) (error_stack w).

(** The same world with a body that reads as [r]. *)
Definition reading (r : Res JsValue) (w : World) : World :=
  mkWorld (currentUser w) (GEMINI_API_KEY w) (DATABASE_URL w)
    (SUPABASE_DB_URL w) (NODE_ENV w) r (getCachedResponse w)
    (fetch_models w) (generateContent w) (generateContentStream w)
    (pool_query w) (getDatabaseSchema w) (AI_COACH_SYSTEM_PROMPT w)
    (error_stack w).

(** A page-context answer whose statement is an object that does not
    convert to text. *)
Definition opaque_statement : string :=
  "{ " ++ quoted "sql_query" ++ ": { " ++ quoted "toString" ++ ": 1 } }".

(** The same world with the database unreachable. *)
Definition offline (w : World) : World :=
  mkWorld (currentUser w) (GEMINI_API_KEY w) (DATABASE_URL w)
    (SUPABASE_DB_URL w) (NODE_ENV w) (request_json w) (getCachedResponse w)
    (fetch_models w) (generateContent w) (generateContentStream w)
    (fun _ _ => Throw (Error "connect ECONNREFUSED"))
    (getDatabaseSchema w) (AI_COACH_SYSTEM_PROMPT w) (error_stack w).

(** The same world where the stream opens and is [s]. *)
Definition streamed (s : StreamSource) (w : World) : World :=
  mkWorld (currentUser w) (GEMINI_API_KEY w) (DATABASE_URL w)
    (SUPABASE_DB_URL w) (NODE_ENV w) (request_json w) (getCachedResponse w)
    (fetch_models w) (generateContent w) (fun _ _ => Ok s) (pool_query w)
    (getDatabaseSchema w) (AI_COACH_SYSTEM_PROMPT w) (error_stack w).

(** A stream with an empty chunk and an unreadable one, which breaks
    after its third fragment. *)
Definition broken_stream : StreamSource :=
  mkStream [Ok "You "; Ok EmptyString; Throw (Error "blocked"); Ok "have 3"]
    (Some (Error "socket hang up")).

(** No model answers the synthesis prompt. *)
Definition speechless : nat -> string -> Prompt -> Res string :=
  scripted (Ok (envelope count_sql)) (Ok (envelope count_sql))
    (Throw not_found_error).

(** A primary answer that selects the [user_id] column without filtering
    on it, and a page-context answer without any filter. *)
Definition projected_sql : string :=
  "SELECT address, user_id FROM properties LIMIT 50".

Definition unfiltered_sql : string := "SELECT * FROM properties".

Definition forgetful : nat -> string -> Prompt -> Res string :=
  scripted (Ok (envelope projected_sql)) (Ok (envelope unfiltered_sql))
    (Ok three).

(** A primary answer that is a bare statement and does not select. *)
Definition purge_sql : string := "DELETE FROM properties".

Definition destructive : nat -> string -> Prompt -> Res string :=
  scripted (Ok purge_sql) (Ok (envelope unfiltered_sql)) (Ok three).

End Examples.

(** ** Vocabulary of the further properties *)

(** Some character of the text satisfies [f]. *)
Fixpoint has_char (f : ascii -> bool) (s : string) : bool :=
  match s with
  | EmptyString => false
  | String c s' => f c || has_char f s'
  end.

Definition is_dollar (c : ascii) : bool := (c =? "$")%char.

(** A character a JSON string literal holds as it is: not a control
    character, not the double quote, not the backslash. *)
Definition is_plain (c : ascii) : bool :=
  negb (nat_of_ascii c <? 32)
  && negb (c =? JsString.dquote)%char
  && negb (c =? JsString.backslash)%char.

Definition is_brace (c : ascii) : bool := (c =? "{")%char.

Definition is_closing_brace (c : ascii) : bool := (c =? "}")%char.

(** The cache entry a call reads or writes: the user and the message. *)
Definition cache_key (e : Event) : option (string * string) :=
  match e with
  | EvCacheGet userId message | EvCacheSet userId message _ _ _ =>
      Some (userId, message)
  | _ => None
  end.

(** The message of the configuration check. *)
Definition key_missing : string :=
  "Gemini API key not configured. Please set GEMINI_API_KEY in your Vercel environment variables.".

(** The calls of a model on a prompt, in order. *)
Definition attempts (p : Prompt) (models : list string) : list Event :=
  map (fun m => EvGenerate m p) models.

(** Every model of the list fails on the prompt when it is asked in turn
    from call [c] on. *)
Fixpoint all_fail (w : World) (p : Prompt) (models : list string) (c : nat)
  : Prop :=
  match models with
  | [] => True
  | m :: rest =>
      (exists e, generateContent w c m p = Throw e) /\
      all_fail w p rest (c + 1)
  end.

(** The synthesis asked a model or opened a stream. *)
Definition is_synthesis (e : Event) : bool :=
  match e with
  | EvGenerate _ (AnalysisPrompt _ _ _ _)
  | EvGenerateStream _ _ => true
  | _ => false
  end.

(** A generator where only the model named [name] exists; it answers
    [text]. *)
Definition only_model (name text : string)
  : nat -> string -> Prompt -> Res string :=
  fun _ m _ =>
    if (m =? name)%string then Ok text else Throw Examples.not_found_error.

(** A generator that is over its quota. *)
Definition over_quota : nat -> string -> Prompt -> Res string :=
  fun _ _ _ => Throw (Error "[429 Too Many Requests] quota exceeded").

(** Worlds where only one model exists, and a prompt to ask. *)
Definition lonely : World :=
  Examples.world Examples.buffered_request
    (only_model "gemini-1.5-flash" Examples.three).

Definition silent : World :=
  Examples.world Examples.buffered_request
    (only_model "gemini-pro" EmptyString).

Definition sample_prompt : Prompt :=
  SqlGenerationPrompt "schema" Examples.count_question "u".

(** What a call of the synthesis may do to the cache: nothing, or write
    the entry of [userId] and [message] with the statement and the number
    of rows of the primary query. *)
Definition writes_entry (userId message : string) (sqlQuery : JsValue)
  (count : nat) (e : Event) : Prop :=
  match e with
  | EvCacheGet _ _ => False
  | EvCacheSet a b _ s n =>
      a = userId /\ b = message /\ s = Js.or_else sqlQuery JUndefined /\
      n = count
  | _ => True
  end.

(** The same world with nobody signed in, and with an empty API key. *)
Definition signed_out (w : World) : World :=
  mkWorld (Ok None) (GEMINI_API_KEY w) (DATABASE_URL w)
    (SUPABASE_DB_URL w) (NODE_ENV w) (request_json w) (getCachedResponse w)
    (fetch_models w) (generateContent w) (generateContentStream w)
    (pool_query w) (getDatabaseSchema w) (AI_COACH_SYSTEM_PROMPT w)
    (error_stack w).

Definition keyless (w : World) : World :=
  mkWorld (currentUser w) (Some EmptyString) (DATABASE_URL w)
    (SUPABASE_DB_URL w) (NODE_ENV w) (request_json w) (getCachedResponse w)
    (fetch_models w) (generateContent w) (generateContentStream w)
    (pool_query w) (getDatabaseSchema w) (AI_COACH_SYSTEM_PROMPT w)
    (error_stack w).

(** Calls of the page-context step. *)
Definition page_call (e : Event) : bool :=
  match e with
  | EvGenerate _ (AutoQueryPrompt _ _ _) | EvQuery Auxiliary _ => true
  | _ => false
  end.

(** A character outside ASCII. *)
Definition beyond_ascii (c : ascii) : bool := 128 <=? nat_of_ascii c.

(** A request whose page context is an object that does not convert to
    text. *)
Definition opaque_page : JsValue :=
  Examples.ask Examples.count_question
    [("stream", JBool false);
     ("pageContext", JObj [("toString", JNum 1 0)])].

(** The statement [obedient] gives for the question, after the filter
    step. *)
Definition filtered_count_sql : string :=
  "SELECT COUNT(*) FROM properties WHERE user_id = 'user_2aLiCe' AND user_id = 'user_2aLiCe'".

(** A request whose page context is a number. *)
Definition numbered_page : JsValue :=
  Examples.ask Examples.count_question
    [("stream", JBool false); ("pageContext", JNum 7 0)].

(** The query information of the run of [obedient] on the buffered
    request. *)
Definition one_row_info : DataInfo :=
  dataInfo_of
    (JStr "SELECT COUNT(*) FROM properties WHERE user_id = 'user_2aLiCe' AND user_id = 'user_2aLiCe'")
    [[("address", JStr "12 Elm St")]].

(** The same world with an empty [DATABASE_URL] and a Supabase
    connection string. *)
Definition supabase_only (w : World) : World :=
  mkWorld (currentUser w) (GEMINI_API_KEY w) (Some EmptyString)
    (Some "postgresql://supabase") (NODE_ENV w) (request_json w)
    (getCachedResponse w) (fetch_models w) (generateContent w)
    (generateContentStream w) (pool_query w) (getDatabaseSchema w)
    (AI_COACH_SYSTEM_PROMPT w) (error_stack w).

(** The same world where the model listing answers [data]. *)
Definition listing (data : JsValue) (w : World) : World :=
  mkWorld (currentUser w) (GEMINI_API_KEY w) (DATABASE_URL w)
    (SUPABASE_DB_URL w) (NODE_ENV w) (request_json w)
    (getCachedResponse w) (Ok (mkFetch true (Ok data))) (generateContent w)
    (generateContentStream w) (pool_query w) (getDatabaseSchema w)
    (AI_COACH_SYSTEM_PROMPT w) (error_stack w).

(** A listing entry. *)
Definition model_entry (name : string) (methods : list string) : JsValue :=
  JObj [("name", JStr name);
        ("supportedGenerationMethods", JArr (map JStr methods))].

(** The model does not support generation under either spelling. *)
Definition unsupporting (m : JsValue) : Prop :=
  supports m "generateContent" = Ok false /\
  supports m "GENERATE_CONTENT" = Ok false.

Definition supporting (m : JsValue) : Prop :=
  supports m "generateContent" = Ok true \/
  (supports m "generateContent" = Ok false /\
   supports m "GENERATE_CONTENT" = Ok true).

(** Every character of the text can stand in a JSON string as it is. *)
Definition all_plain (s : string) : bool :=
  negb (has_char (fun c => negb (is_plain c)) s).

(** The envelope between its braces. *)
Definition envelope_inner (sql : string) : string :=
  " " ++ Patterns.quoted "sql_query" ++ ": " ++ Patterns.quoted sql ++ " ".
(** * Reasoning about runs *)


(** ** Equations of the monad *)

Lemma bind_ok {A B} (m : M A) (f : A -> M B) {c a l} :
  m c = (Ok a, l) ->
  bind m f c = (fst (f a (c + List.length l)),
                (l ++ snd (f a (c + List.length l)))%list).
Proof.
  intros H. unfold bind. rewrite H.
  destruct (f a (c + List.length l)); reflexivity.
Qed.

Lemma bind_throw {A B} (m : M A) (f : A -> M B) {c e l} :
  m c = (Throw e, l) -> bind m f c = (Throw e, l).
Proof. intros H. unfold bind. rewrite H. reflexivity. Qed.

Lemma try_catch_ok {A} (m : M A) h {c a l} :
  m c = (Ok a, l) -> try_catch m h c = (Ok a, l).
Proof. intros H. unfold try_catch. rewrite H. reflexivity. Qed.

Lemma try_catch_throw {A} (m : M A) h {c e l} :
  m c = (Throw e, l) ->
  try_catch m h c = (fst (h e (c + List.length l)),
                     (l ++ snd (h e (c + List.length l)))%list).
Proof.
  intros H. unfold try_catch. rewrite H.
  destruct (h e (c + List.length l)); reflexivity.
Qed.

Lemma bind_lift {A B} (r : Res A) (f : A -> M B) c :
  bind (lift r) f c =
  match r with
  | Ok a => f a c
  | Throw e => (Throw e, [])
  end.
Proof.
  unfold bind, lift. destruct r as [a | e]; [| reflexivity].
  simpl. rewrite Nat.add_0_r. destruct (f a c); reflexivity.
Qed.

Lemma bind_ret {A B} (a : A) (f : A -> M B) c : bind (ret a) f c = f a c.
Proof. apply (bind_lift (Ok a)). Qed.

(** ** Rules of the logic *)

Section Rules.

Context {A B : Type}.
Variable P : Event -> Prop.

Lemma behaves_ret (a : A) (Q : A -> Prop) E :
  Q a -> behaves (ret a) P Q E.
Proof. intros H c. split; [constructor | exact H]. Qed.

Lemma behaves_throw (e : Exn) (Q : A -> Prop) (E : Exn -> Prop) :
  E e -> behaves (@throw A e) P Q E.
Proof. intros H c. split; [constructor | exact H]. Qed.

Lemma behaves_lift (r : Res A) (Q : A -> Prop) (E : Exn -> Prop) :
  match r with Ok a => Q a | Throw e => E e end ->
  behaves (lift r) P Q E.
Proof. intros H c. split; [constructor | exact H]. Qed.

Lemma behaves_emit ev (Q : unit -> Prop) E :
  P ev -> Q tt -> behaves (emit ev) P Q E.
Proof. intros H HQ c. split; [repeat constructor; exact H | exact HQ]. Qed.

Lemma behaves_call ev (answer : nat -> Res A) :
  P ev ->
  behaves (call ev answer) P
    (fun a => exists c, answer c = Ok a)
    (fun e => exists c, answer c = Throw e).
Proof.
  intros H c. split; [repeat constructor; exact H |].
  unfold call; simpl. destruct (answer c) eqn:Hc; eauto.
Qed.

Lemma behaves_bind (m : M A) (f : A -> M B) Q1 E1 (Q : B -> Prop) E :
  behaves m P Q1 E1 ->
  (forall e, E1 e -> E e) ->
  (forall a, Q1 a -> behaves (f a) P Q E) ->
  behaves (bind m f) P Q E.
Proof.
  intros Hm HE Hf c. destruct (Hm c) as [Hl Hr]. unfold bind.
  destruct (m c) as [[a | e] l]; simpl in *.
  - destruct (Hf a Hr (c + List.length l)) as [Hl2 Hr2].
    destruct (f a (c + List.length l)) as [r l2]; simpl in *.
    split; [apply Forall_app; split; assumption | exact Hr2].
  - split; [exact Hl | apply HE; exact Hr].
Qed.

Lemma behaves_try_catch (m : M A) (h : Exn -> M A) Q1 E1 (Q : A -> Prop) E :
  behaves m P Q1 E1 ->
  (forall a, Q1 a -> Q a) ->
  (forall e, E1 e -> behaves (h e) P Q E) ->
  behaves (try_catch m h) P Q E.
Proof.
  intros Hm HQ Hh c. destruct (Hm c) as [Hl Hr]. unfold try_catch.
  destruct (m c) as [[a | e] l]; simpl in *.
  - split; [exact Hl | apply HQ; exact Hr].
  - destruct (Hh e Hr (c + List.length l)) as [Hl2 Hr2].
    destruct (h e (c + List.length l)) as [r l2]; simpl in *.
    split; [apply Forall_app; split; assumption | exact Hr2].
Qed.

Lemma behaves_weaken (m : M A) P' Q' E' (Q : A -> Prop) (E : Exn -> Prop) :
  behaves m P' Q' E' ->
  (forall ev, P' ev -> P ev) ->
  (forall a, Q' a -> Q a) ->
  (forall e, E' e -> E e) ->
  behaves m P Q E.
Proof.
  intros Hm HP HQ HE c. destruct (Hm c) as [Hl Hr]. split.
  - eapply Forall_impl; [exact HP | exact Hl].
  - destruct (fst (m c)); auto.
Qed.

End Rules.

(** A computation that never throws returns a value at every clock. *)
Lemma behaves_total {A} {m : M A} {P Q} c :
  behaves m P Q nothing ->
  exists a l, m c = (Ok a, l) /\ Q a /\ Forall P l.
Proof.
  intros H. destruct (H c) as [Hl Hr].
  destruct (m c) as [[a | e] l]; simpl in *.
  - exists a, l. auto.
  - destruct Hr.
Qed.

(** One step of a proof in the logic, on the shape of the program. *)
Ltac step :=
  lazymatch goal with
  | |- behaves (ret _) _ _ _ => apply behaves_ret
  | |- behaves (throw _) _ _ _ => apply behaves_throw
  | |- behaves (lift _) _ _ _ => apply behaves_lift
  | |- behaves (emit _) _ _ _ => apply behaves_emit
  | |- behaves (bind (emit _) _) _ _ _ =>
      eapply behaves_bind;
      [ apply behaves_emit with (Q := anything) (E := nothing);
        [ | exact I ]
      | intros ? []
      | intros ? _ ]
  | |- behaves (if ?b then _ else _) _ _ _ => destruct b eqn:?
  | |- behaves (match ?x with _ => _ end) _ _ _ => destruct x eqn:?
  end.

(** ** The stages, one by one *)

Section Stages.

Import JsString Js.

Variable w : World.
Variable P : Event -> Prop.

Lemma runSupabaseQuery_behaves site sql :
  P (EvQuery site sql) ->
  (configured w = true -> P (EvPoolQuery sql)) ->
  behaves (runSupabaseQuery w site sql) P
    (fun rows => configured w = true /\ exists c, pool_query w c sql = Ok rows)
    anything.
Proof.
  intros Hq Hp. unfold runSupabaseQuery.
  step; [exact Hq |].
  fold (configured w). destruct (configured w) eqn:Hc; simpl.
  - eapply behaves_try_catch.
    + apply behaves_call. apply Hp. reflexivity.
    + intros rows [c Hrows]. eauto.
    + intros e _. step. exact I.
  - step. exact I.
Qed.


Lemma guarded_query_behaves site sql :
  P (EvQuery site sql) ->
  (configured w = true -> P (EvPoolQuery sql)) ->
  behaves (try_catch (runSupabaseQuery w site sql) (fun _ => ret []))
    P (fetched w) nothing.
Proof.
  intros Hq Hp. eapply behaves_try_catch.
  - apply runSupabaseQuery_behaves; assumption.
  - intros rows [Hc [c Hrows]]. right. eauto.
  - intros e _. step. left. reflexivity.
Qed.

Lemma generate_behaves model p :
  P (EvGenerate model p) ->
  behaves (generate w model p) P
    (fun t => exists c, generateContent w c model p = Ok t)
    (fun e => exists c, generateContent w c model p = Throw e).
Proof. intros H. apply behaves_call. exact H. Qed.

Lemma try_alternatives_behaves p onSuccess models :
  (forall m, P (EvGenerate m p)) ->
  (forall t, behaves (onSuccess t) P anything anything) ->
  behaves (try_alternatives w p onSuccess models) P
    (fun r => forall t, r = Some t ->
                exists c m, generateContent w c m p = Ok t)
    nothing.
Proof.
  intros Hg Hs. induction models as [| m rest IH]; simpl.
  - step. discriminate.
  - eapply behaves_try_catch with (E1 := anything).
    + eapply behaves_bind.
      * apply generate_behaves. apply Hg.
      * intros; exact I.
      * intros t [c Ht].
        eapply behaves_bind.
        -- apply Hs.
        -- intros; exact I.
        -- intros _ _. step.
           instantiate (1 := fun r => forall t, r = Some t ->
             exists c m, generateContent w c m p = Ok t).
           intros t' Heq. inversion Heq; subst. eauto.
    + auto.
    + intros e _. exact IH.
Qed.

Lemma generate_sql_behaves model p :
  (forall m, P (EvGenerate m p)) ->
  behaves (generate_sql w model p) P
    (fun t => exists c m, generateContent w c m p = Ok t) anything.
Proof.
  intros Hg. unfold generate_sql.
  eapply behaves_try_catch.
  - apply generate_behaves. apply Hg.
  - intros t [c Ht]. eauto.
  - intros e _. step.
    + eapply behaves_bind.
      * apply try_alternatives_behaves; [exact Hg |].
        intros t. step. exact I.
      * intros ? [].
      * intros r Hr. repeat step; try exact I.
        apply Hr. reflexivity.
    + step. exact I.
Qed.

(** A stage wrapped as [try { ... return Some } catch { return None }]. *)
Lemma generate_sql_fails model p :
  (forall m, P (EvGenerate m p)) ->
  (forall c m, exists e, generateContent w c m p = Throw e) ->
  behaves (generate_sql w model p) P nothing anything.
Proof.
  intros Hg Hfail. eapply behaves_weaken.
  - apply generate_sql_behaves. exact Hg.
  - auto.
  - intros t (c & m & Ht). destruct (Hfail c m) as [e He]. congruence.
  - auto.
Qed.

Lemma attempt_behaves {A} (m : M A) Q E :
  behaves m P Q E ->
  behaves (try_catch (bind m (fun a => ret (Some a))) (fun _ => ret None))
    P (fun r => forall a, r = Some a -> Q a) nothing.
Proof.
  intros Hm. eapply behaves_try_catch with (E1 := anything).
  - eapply behaves_bind.
    + exact Hm.
    + intros; exact I.
    + intros a Ha. step.
      instantiate (1 := fun r => forall a, r = Some a -> Q a).
      intros a' Heq. inversion Heq; subst. exact Ha.
  - auto.
  - intros e _. step. discriminate.
Qed.

Lemma primary_query_behaves model userId message :
  (forall m, P (EvGenerate m
                  (SqlGenerationPrompt (getDatabaseSchema w) message userId))) ->
  (forall sql, P (EvQuery Primary sql)) ->
  (forall sql, configured w = true -> P (EvPoolQuery sql)) ->
  behaves (primary_query w model userId message) P
    (fun r => fetched w (snd r)) nothing.
Proof.
  intros Hg Hq Hp. unfold primary_query.
  eapply behaves_bind.
  - eapply attempt_behaves. apply generate_sql_behaves. exact Hg.
  - intros ? [].
  - intros r _. repeat step; try (left; reflexivity).
    eapply behaves_bind.
    + apply guarded_query_behaves; auto.
    + intros ? [].
    + intros rows Hrows. step. exact Hrows.
Qed.

(** When no model answers the SQL prompt the primary step returns the
    empty query and no rows, and only generation was called. *)
Lemma primary_query_without_sql model userId message :
  (forall m, P (EvGenerate m
                  (SqlGenerationPrompt (getDatabaseSchema w) message userId))) ->
  (forall c m, exists e,
     generateContent w c m
       (SqlGenerationPrompt (getDatabaseSchema w) message userId) = Throw e) ->
  behaves (primary_query w model userId message) P
    (fun r => r = (JStr EmptyString, [])) nothing.
Proof.
  intros Hg Hfail. unfold primary_query.
  eapply behaves_bind.
  - eapply attempt_behaves. apply generate_sql_fails; assumption.
  - intros ? [].
  - intros [t |] Hr.
    + destruct (Hr t eq_refl).
    + step. reflexivity.
Qed.

(** The attempt of the page-context step: the prompt is built, then
    the model is asked. *)
Lemma page_attempt_behaves model userId pageContext :
  (convertible pageContext = true ->
   P (EvGenerate model
        (AutoQueryPrompt pageContext (getDatabaseSchema w) userId))) ->
  behaves
    (try_catch
       (page <- lift (ToString pageContext) ;;
        autoQueryText <- generate w model
          (AutoQueryPrompt page (getDatabaseSchema w) userId) ;;
        ret (Some autoQueryText))
       (fun _ => ret None))
    P
    (fun r => forall t, r = Some t ->
       convertible pageContext = true /\
       exists c,
         generateContent w c model
           (AutoQueryPrompt pageContext (getDatabaseSchema w) userId) = Ok t)
    nothing.
Proof.
  intros Hg. unfold ToString.
  destruct (convertible pageContext) eqn:Hc.
  - eapply behaves_try_catch
      with (E1 := anything)
           (Q1 := fun r => forall t, r = Some t ->
              true = true /\
              exists c,
                generateContent w c model
                  (AutoQueryPrompt pageContext (getDatabaseSchema w) userId)
                = Ok t).
    + eapply behaves_bind with (Q1 := fun page => page = pageContext)
                               (E1 := anything).
      * step. reflexivity.
      * intros; exact I.
      * intros page ->. eapply behaves_bind.
        -- apply generate_behaves. apply Hg. reflexivity.
        -- intros; exact I.
        -- intros t Ht. step.
           intros t' Heq. inversion Heq; subst.
           split; [reflexivity | exact Ht].
    + auto.
    + intros e _. step. discriminate.
  - eapply behaves_try_catch with (Q1 := nothing) (E1 := anything).
    + eapply behaves_bind with (Q1 := nothing) (E1 := anything).
      * step. exact I.
      * intros; exact I.
      * intros ? [].
    + intros ? [].
    + intros e _. step. discriminate.
Qed.

Lemma context_query_behaves model userId pageContext :
  (forall m, P (EvGenerate m
                  (AutoQueryPrompt pageContext (getDatabaseSchema w) userId))) ->
  (forall sql, reads_only (toLowerCase sql) = true ->
               P (EvQuery Auxiliary sql)) ->
  (forall sql, configured w = true -> P (EvPoolQuery sql)) ->
  behaves (context_query w model userId pageContext) P
    (fun r => fetched w (snd r)) nothing.
Proof.
  intros Hg Hq Hp. unfold context_query.
  step; [| step; left; reflexivity].
  eapply behaves_bind with (Q1 := anything) (E1 := nothing).
  - eapply behaves_weaken.
    + apply (page_attempt_behaves model userId pageContext).
      intros _. apply Hg.
    + intros ev Hev. exact Hev.
    + intros r _. exact I.
    + intros e He. exact He.
  - intros ? [].
  - intros r _. repeat step; try (left; reflexivity).
    eapply behaves_bind.
    + apply guarded_query_behaves; auto.
    + intros ? [].
    + intros rows Hrows. step. exact Hrows.
Qed.

Lemma availableModel_behaves :
  P EvListModels -> behaves (availableModel w) P anything nothing.
Proof.
  intros Hl. unfold availableModel.
  eapply behaves_try_catch with (Q1 := anything) (E1 := anything).
  - eapply behaves_bind.
    + apply behaves_call. exact Hl.
    + intros; exact I.
    + intros r _. step.
      * eapply behaves_bind with (Q1 := anything).
        -- step. instantiate (1 := anything). destruct (json r); exact I.
        -- intros; exact I.
        -- intros d _. step. destruct (model_of_listing d); exact I.
      * step. exact I.
  - auto.
  - intros e _. step. exact I.
Qed.

Lemma modelName_behaves :
  P EvListModels -> behaves (modelName w) P anything nothing.
Proof.
  intros Hl. unfold modelName.
  eapply behaves_bind.
  - apply availableModel_behaves. exact Hl.
  - intros ? [].
  - intros m _. step. exact I.
Qed.

End Stages.

Section Origins.

Import JsString Js.

Variable w : World.

(** Where the statements of the two query steps come from: a string, or
    what the parser of the step reads in an answer of the model. *)
Lemma primary_query_origin model userId message :
  behaves (primary_query w model userId message) anything
    (fun r =>
       is_string (fst r) = true \/
       exists c m,
         exists t,
           generateContent w c m
             (SqlGenerationPrompt (getDatabaseSchema w) message userId)
           = Ok t /\
           fst r = extract_sql t)
    nothing.
Proof.
  unfold primary_query.
  eapply behaves_bind
    with (E1 := nothing)
         (Q1 := fun r => forall t, r = Some t ->
            exists c m,
              generateContent w c m
                (SqlGenerationPrompt (getDatabaseSchema w) message userId)
              = Ok t).
  - eapply (attempt_behaves anything). apply (generate_sql_behaves w anything). intros; exact I.
  - intros ? [].
  - intros [t |] Hr; [| step; left; reflexivity].
    destruct (Hr t eq_refl) as (c & m & Ht).
    destruct (ensure_user_filter userId (extract_sql t)) as [sql | e].
    + eapply behaves_bind with (Q1 := anything) (E1 := nothing).
      * eapply behaves_weaken.
        -- apply (guarded_query_behaves w anything); intros; exact I.
        -- auto.
        -- intros; exact I.
        -- auto.
      * intros ? [].
      * intros rows _. step. left. reflexivity.
    + step. right. exists c, m, t. auto.
Qed.

Lemma context_query_origin model userId pageContext :
  behaves (context_query w model userId pageContext) anything
    (fun r =>
       is_string (fst r) = true \/
       (convertible pageContext = true /\
        exists c t,
          generateContent w c model
            (AutoQueryPrompt pageContext (getDatabaseSchema w) userId)
          = Ok t /\
          fst r = auxiliary_sql t))
    nothing.
Proof.
  unfold context_query.
  destruct (truthy pageContext); [| step; left; reflexivity].
  eapply behaves_bind with (E1 := nothing).
  - apply (page_attempt_behaves w anything). intros; exact I.
  - intros ? [].
  - intros [t |] Hr; [| step; left; reflexivity].
    destruct (Hr t eq_refl) as (Hc & c & Ht).
    assert (Hor : is_string (auxiliary_sql t) = true \/
                  (convertible pageContext = true /\
                   exists c t0,
                     generateContent w c model
                       (AutoQueryPrompt pageContext (getDatabaseSchema w)
                          userId) = Ok t0 /\
                     auxiliary_sql t = auxiliary_sql t0))
      by (right; split; [exact Hc | exists c, t; auto]).
    repeat step; try exact Hor.
    eapply behaves_bind with (Q1 := anything) (E1 := nothing).
    + eapply behaves_weaken.
      * apply (guarded_query_behaves w anything); intros; exact I.
      * auto.
      * intros; exact I.
      * auto.
    + intros ? [].
    + intros rows _. step. exact Hor.
Qed.

(** When the statements the model returns convert to text, so do the
    statements of the two steps. *)
Lemma primary_query_renders model userId message :
  statements_render w ->
  behaves (primary_query w model userId message) anything
    (fun r => convertible (fst r) = true) nothing.
Proof.
  intros Hr. eapply behaves_weaken.
  - apply (primary_query_origin model userId message).
  - auto.
  - intros [q rows] [Hs | (c & m & t & Ht & Hq)]; cbn [fst] in *.
    + destruct q; try discriminate Hs. reflexivity.
    + rewrite Hq. exact (Hr c m _ t Ht).
  - auto.
Qed.

Lemma context_query_renders model userId pageContext :
  statements_render w ->
  behaves (context_query w model userId pageContext) anything
    (fun r => convertible (fst r) = true) nothing.
Proof.
  intros Hr. eapply behaves_weaken.
  - apply (context_query_origin model userId pageContext).
  - auto.
  - intros [q rows] [Hs | (_ & c & t & Ht & Hq)]; cbn [fst] in *.
    + destruct q; try discriminate Hs. reflexivity.
    + rewrite Hq. exact (Hr c model _ t Ht).
  - auto.
Qed.

End Origins.


(** ** Synthesis *)

Lemma append_empty_r (s : string) : (s ++ EmptyString)%string = s.
Proof. induction s as [| a s IH]; simpl; [| rewrite IH]; reflexivity. Qed.

Lemma append_assoc (a b c : string) :
  ((a ++ b) ++ c)%string = (a ++ (b ++ c))%string.
Proof. induction a as [| x a IH]; simpl; [| rewrite IH]; reflexivity. Qed.

Section Synthesis.

Import JsString Js.

Variable w : World.

(** The forwarding loop sends the fragments in arrival order and adds
    them up. *)
Lemma forward_run cs acc c :
  forward cs acc c =
  (Ok (acc ++ joined (fragments cs))%string, map EvEnqueue (fragments cs)).
Proof.
  revert acc c. induction cs as [| x rest IH]; intros acc c; simpl.
  - rewrite append_empty_r. reflexivity.
  - destruct x as [[| a t] | e]; try apply IH.
    unfold bind, emit. rewrite IH. simpl. rewrite append_assoc. reflexivity.
Qed.

Lemma start_run stream userId message sqlQuery count c :
  start stream userId message sqlQuery count c =
  (Ok tt, channel stream userId message sqlQuery count).
Proof.
  unfold start, channel, try_catch, bind. rewrite forward_run. simpl.
  destruct (failure stream) as [e |]; simpl.
  - rewrite app_nil_r. reflexivity.
  - unfold setCachedResponse, emit. simpl. reflexivity.
Qed.

Lemma synthesize_plain model p userId message us sqlQuery rows c :
  truthy us = false ->
  synthesize w model p userId message us sqlQuery rows c =
  buffered w model p userId message sqlQuery rows c.
Proof.
  intros Hs. unfold synthesize. rewrite Hs. unfold bind at 1, ret at 1.
  simpl. rewrite Nat.add_0_r.
  destruct (buffered w model p userId message sqlQuery rows c); reflexivity.
Qed.

Lemma synthesize_fallback model p userId message us sqlQuery rows c e :
  truthy us = true ->
  generateContentStream w model p = Throw e ->
  synthesize w model p userId message us sqlQuery rows c =
  (fst (buffered w model p userId message sqlQuery rows (c + 1)),
   EvGenerateStream model p ::
   snd (buffered w model p userId message sqlQuery rows (c + 1))).
Proof.
  intros Hs He. unfold synthesize. rewrite Hs.
  unfold bind at 1, try_catch, bind at 1, call, ret. rewrite He. simpl.
  destruct (buffered w model p userId message sqlQuery rows (c + 1));
    reflexivity.
Qed.

Lemma synthesize_streams model p userId message us sqlQuery rows c stream :
  truthy us = true ->
  generateContentStream w model p = Ok stream ->
  synthesize w model p userId message us sqlQuery rows c =
  (Ok StreamResponse,
   EvGenerateStream model p ::
   channel stream userId message sqlQuery (List.length rows)).
Proof.
  intros Hs He. unfold synthesize. rewrite Hs.
  unfold bind at 1, try_catch, bind at 1, call, ret. rewrite He. simpl.
  unfold bind. rewrite start_run. simpl. rewrite app_nil_r. reflexivity.
Qed.

(** The synthesis is the stream when one opens, and else the buffered
    answer after the attempt. *)
Lemma synthesize_cases model p userId message us sqlQuery rows c :
  match opened_stream w us model p with
  | Some stream =>
      synthesize w model p userId message us sqlQuery rows c =
      (Ok StreamResponse,
       EvGenerateStream model p ::
       channel stream userId message sqlQuery (List.length rows))
  | None =>
      synthesize w model p userId message us sqlQuery rows c =
      (fst (buffered w model p userId message sqlQuery rows
              (c + List.length (stream_attempt us model p))),
       (stream_attempt us model p ++
        snd (buffered w model p userId message sqlQuery rows
               (c + List.length (stream_attempt us model p))))%list)
  end.
Proof.
  unfold opened_stream, stream_attempt.
  destruct (truthy us) eqn:Hs.
  - destruct (generateContentStream w model p) as [stream | e] eqn:Hg.
    + apply synthesize_streams; assumption.
    + apply (synthesize_fallback _ _ _ _ _ _ _ _ e); assumption.
  - rewrite (synthesize_plain _ _ _ _ _ _ _ _ Hs).
    cbn [List.length app]. rewrite Nat.add_0_r.
    destruct (buffered w model p userId message sqlQuery rows c);
      reflexivity.
Qed.

(** The buffered path when the model answers at once. *)
Lemma buffered_answers model p userId message sqlQuery rows c reply :
  generateContent w c model p = Ok reply ->
  buffered w model p userId message sqlQuery rows c =
  (Ok (JsonResponse 200 (ReplyBody reply (dataInfo_of sqlQuery rows))),
   [EvGenerate model p;
    EvCacheSet userId message reply (or_else sqlQuery JUndefined)
      (List.length rows)]).
Proof.
  intros Hg. unfold buffered, generate_reply, bind, try_catch, generate, call,
    setCachedResponse, emit, ret. rewrite Hg. reflexivity.
Qed.

Lemma buffered_first_call model p userId message sqlQuery rows c :
  exists l,
    snd (buffered w model p userId message sqlQuery rows c) =
    EvGenerate model p :: l.
Proof.
  unfold buffered, generate_reply, bind, try_catch, generate, call.
  destruct (generateContent w c model p) as [t | e]; simpl.
  - eexists. reflexivity.
  - match goal with
    | |- context [let '(r, l2) := ?m ?k in _] => destruct (m k) as [[r | e'] l]
    end; simpl; eexists; reflexivity.
Qed.


Variable P : Event -> Prop.

Lemma generate_reply_behaves model p userId message sqlQuery count :
  (forall m, P (EvGenerate m p)) ->
  (forall reply, P (EvCacheSet userId message reply
                      (or_else sqlQuery JUndefined) count)) ->
  behaves (generate_reply w model p userId message sqlQuery count) P
    (fun t => exists c m, generateContent w c m p = Ok t) anything.
Proof.
  intros Hg Hc. unfold generate_reply.
  assert (Hset : forall reply,
    behaves (setCachedResponse userId message reply sqlQuery count) P
      anything anything).
  { intros reply. unfold setCachedResponse. step; [apply Hc | exact I]. }
  eapply behaves_try_catch with (E1 := anything).
  - eapply behaves_bind.
    + apply generate_behaves. apply Hg.
    + intros; exact I.
    + intros t [c Ht]. eapply behaves_bind.
      * apply Hset.
      * intros; exact I.
      * intros _ _. step.
        instantiate (1 := fun t => exists c m, generateContent w c m p = Ok t).
        simpl. eauto.
  - auto.
  - intros e _. step.
    + eapply behaves_bind.
      * apply try_alternatives_behaves; [exact Hg | exact Hset].
      * intros ? [].
      * intros r Hr. repeat step; try exact I.
        apply Hr. reflexivity.
    + step. exact I.
Qed.

(** When every variant is reported missing the buffered path throws the
    exhaustion error. *)
Lemma buffered_exhausted model system msg info s userId message sqlQuery rows :
  synthesis_exhausted w ->
  (forall e, P e) ->
  behaves
    (buffered w model (AnalysisPrompt system msg info s) userId message
       sqlQuery rows)
    P nothing
    (fun e => exists e0, e = Error (all_failed_for_analysis e0)).
Proof.
  intros Hex HP. unfold buffered, generate_reply.
  eapply behaves_bind with (Q1 := nothing)
    (E1 := fun e => exists e0, e = Error (all_failed_for_analysis e0)).
  - eapply behaves_try_catch with (Q1 := nothing).
    + eapply behaves_bind.
      * apply generate_behaves. apply HP.
      * intros e He. exact He.
      * intros t [c Ht]. destruct (Hex c model system msg info s) as (e & He & _).
        congruence.
    + intros ? [].
    + intros e [c He]. cbv beta in He.
      destruct (Hex c model system msg info s) as (e' & He' & Hnf).
      assert (e' = e) as -> by congruence. rewrite Hnf.
      eapply behaves_bind.
      * apply try_alternatives_behaves; [intros; apply HP |].
        intros t. unfold setCachedResponse. step; [apply HP | exact I].
      * intros ? [].
      * intros [t |] Hr.
        -- destruct (Hr t eq_refl) as (c' & m' & Ht).
           destruct (Hex c' m' system msg info s) as (e'' & He'' & _).
           congruence.
        -- simpl. step. exists e. reflexivity.
  - auto.
  - intros ? [].
Qed.

Lemma buffered_behaves model p userId message sqlQuery rows :
  (forall m, P (EvGenerate m p)) ->
  (forall reply, P (EvCacheSet userId message reply
                      (or_else sqlQuery JUndefined) (List.length rows))) ->
  behaves (buffered w model p userId message sqlQuery rows) P
    (fun r => exists reply info,
                r = JsonResponse 200 (ReplyBody reply info) /\
                (exists c m, generateContent w c m p = Ok reply))
    anything.
Proof.
  intros Hg Hc. unfold buffered.
  eapply behaves_bind.
  - apply generate_reply_behaves; assumption.
  - intros; exact I.
  - intros t Ht. step. eauto.
Qed.

End Synthesis.

(** ** The handler as a whole *)

Section Answer.

Import JsString Js.

Variable w : World.
Variable user : User.
Variable message : string.
Variables us pc pd : JsValue.

(** [answer] step by step: given what the gathering steps return, the
    synthesis runs on the prompt built from it, unless building the
    prompt throws. *)
Lemma answer_steps c model l0 q rows l1 aq arows l2 :
  modelName w c = (Ok model, l0) ->
  primary_query w model (id user) message (c + List.length l0)
  = (Ok (q, rows), l1) ->
  context_query w model (id user) pc (c + List.length l0 + List.length l1)
  = (Ok (aq, arows), l2) ->
  answer w user message us pc pd c =
  match analysisPrompt w message pc pd rows arows q aq with
  | Ok prompt =>
      let run :=
        synthesize w model prompt (id user) message us q rows
          (c + List.length l0 + List.length l1 + List.length l2) in
      (fst run, (l0 ++ l1 ++ l2 ++ snd run)%list)
  | Throw e => (Throw e, (l0 ++ l1 ++ l2)%list)
  end.
Proof.
  intros R0 R1 R2.
  unfold answer. rewrite (bind_ok _ _ R0). simpl fst. simpl snd.
  rewrite (bind_ok _ _ R1). simpl fst. simpl snd.
  rewrite (bind_ok _ _ R2). simpl fst. simpl snd.
  rewrite bind_lift.
  destruct (analysisPrompt w message pc pd rows arows q aq) as [prompt | e];
    simpl.
  - reflexivity.
  - rewrite !app_nil_r. reflexivity.
Qed.

(** The prompt is built when the page information and the list of
    statements are. *)
Lemma analysisPrompt_ok rows arows q aq prompt :
  analysisPrompt w message pc pd rows arows q aq = Ok prompt <->
  exists info sqls,
    pageContextInfo pc pd arows = Ok info /\
    allSQLQueries q aq = Ok sqls /\
    prompt = AnalysisPrompt (AI_COACH_SYSTEM_PROMPT w) message info
               (dataSummary w rows arows sqls).
Proof.
  unfold analysisPrompt. split.
  - destruct (pageContextInfo pc pd arows) as [info | e]; [| discriminate].
    destruct (allSQLQueries q aq) as [sqls | e]; [| discriminate].
    intros [= <-]. eauto.
  - intros (info & sqls & -> & -> & ->). reflexivity.
Qed.

Variable P : Event -> Prop.
Variables Q1 Q2 : JsValue * list Row -> Prop.

Hypothesis Hmodel : behaves (modelName w) P anything nothing.
Hypothesis Hprimary :
  forall model, behaves (primary_query w model (id user) message) P Q1 nothing.
Hypothesis Hcontext :
  forall model, behaves (context_query w model (id user) pc) P Q2 nothing.

(** A run of [answer]: the gathering steps always return. *)
Lemma answer_run c :
  exists model sqlQuery rows autoSQL arows pre,
    Forall P pre /\ Q1 (sqlQuery, rows) /\ Q2 (autoSQL, arows) /\
    answer w user message us pc pd c =
    match analysisPrompt w message pc pd rows arows sqlQuery autoSQL with
    | Ok prompt =>
        let run :=
          synthesize w model prompt (id user) message us sqlQuery rows
            (c + List.length pre) in
        (fst run, (pre ++ snd run)%list)
    | Throw e => (Throw e, pre)
    end.
Proof.
  destruct (behaves_total c Hmodel) as (model & l0 & R0 & _ & F0).
  destruct (behaves_total (c + List.length l0) (Hprimary model))
    as ([q rows] & l1 & R1 & HQ1 & F1).
  destruct (behaves_total (c + List.length l0 + List.length l1)
              (Hcontext model)) as ([aq arows] & l2 & R2 & HQ2 & F2).
  exists model, q, rows, aq, arows, (l0 ++ l1 ++ l2)%list.
  repeat split; auto.
  - repeat (apply Forall_app; split); assumption.
  - rewrite (answer_steps c _ _ _ _ _ _ _ _ R0 R1 R2), !length_app,
      !Nat.add_assoc.
    destruct (analysisPrompt w message pc pd rows arows q aq)
      as [prompt | e]; simpl.
    + rewrite <- !app_assoc. reflexivity.
    + reflexivity.
Qed.

End Answer.

Section Gates.

Import JsString Js.

Variable w : World.

Lemma page_typed_info pc pd arows :
  page_typed pc = true -> exists info, pageContextInfo pc pd arows = Ok info.
Proof.
  unfold page_typed, pageContextInfo. intros H.
  destruct (truthy pc) eqn:Ht; simpl in H.
  - destruct pc; try discriminate. simpl. eauto.
  - eauto.
Qed.

Lemma accepted_body u body message :
  accepted w u body message -> exists fs, body = JObj fs.
Proof.
  intros (_ & _ & _ & Hm & _).
  destruct body; simpl in Hm; try discriminate. eauto.
Qed.

(** Past the checks, the handler is [answer] under the outer [catch]. *)
Lemma POST_run u body message :
  accepted w u body message ->
  cache_missed w u body message ->
  POST w 0 =
  let run := answer w u message (useStreaming_of body) (pageContext_of body)
               (pageData_of body) (List.length (gate_calls u body message)) in
  (Ok (match fst run with
       | Ok r => r
       | Throw e => internal_error w e
       end),
   (gate_calls u body message ++ snd run)%list).
Proof.
  intros Hacc Hmiss. destruct (accepted_body u body message Hacc) as [fs ->].
  destruct Hacc as (Hu & Hk & Hb & Hm & Hne).
  unfold POST, try_catch, bind at 1, call at 1. rewrite Hu. simpl.
  rewrite Hk. simpl.
  unfold bind at 1, call at 1. rewrite Hb. simpl.
  rewrite !bind_lift. simpl in Hm. simpl.
  inversion Hm as [Hm']. rewrite Hm'.
  destruct message as [| a message']; [congruence |].
  unfold gate_calls, cache_missed, useStreaming_of, pageContext_of,
    pageData_of, field in *.
  simpl get in *.
  set (us := default_to _ (JBool true)) in *.
  set (pc := default_to _ JNull).
  set (pd := default_to _ JNull).
  destruct (truthy us) eqn:Hs; simpl.
  - rewrite bind_ret.
    destruct (answer w u (String a message') us pc pd 2) as [[r | e] l];
      simpl; rewrite ?app_nil_r; reflexivity.
  - destruct Hmiss as [Hs' | Hc]; [discriminate |].
    unfold bind at 1, bind at 1, emit, ret at 1. simpl. rewrite Hc.
    destruct (answer w u (String a message') us pc pd 3) as [[r | e] l];
      simpl; rewrite ?app_nil_r; reflexivity.
Qed.



(** A cache entry answers a buffered request. *)
Lemma POST_cached u body message entry :
  accepted w u body message ->
  truthy (useStreaming_of body) = false ->
  getCachedResponse w (id u) message = Some entry ->
  POST w 0 =
  (Ok (JsonResponse 200
         (CachedBody (response entry)
            (if development w
             then Some (or_else (sqlQuery entry) (JStr "No SQL generated"),
                        resultCount entry)
             else None))),
   [EvCurrentUser; EvRequestJson; EvCacheGet (id u) message]).
Proof.
  intros Hacc Hs Hhit.
  destruct (accepted_body u body message Hacc) as [fs ->].
  destruct Hacc as (Hu & Hk & Hb & Hm & Hne).
  unfold POST, try_catch, bind at 1, call at 1.
  rewrite Hu. simpl. rewrite Hk. simpl.
  unfold bind at 1, call at 1. rewrite Hb. simpl.
  rewrite !bind_lift. simpl in Hm. simpl.
  inversion Hm as [Hm']. rewrite Hm'.
  destruct message as [| a message']; [congruence |].
  unfold useStreaming_of, field in Hs. simpl get in Hs.
  rewrite Hs. simpl.
  unfold bind at 1, bind at 1, emit, ret at 1. simpl. rewrite Hhit.
  reflexivity.
Qed.

(** When a check fails the handler answers at once: only the identity
    and the body were asked for. *)
Lemma POST_rejects :
  (exists u body message, accepted w u body message) \/
  (exists status body tr,
     POST w 0 = (Ok (JsonResponse status body), tr) /\
     (status = 401 \/ status = 500 \/ status = 400) /\
     (tr = [EvCurrentUser] \/ tr = [EvCurrentUser; EvRequestJson])).
Proof.
  unfold POST, try_catch, bind at 1, call at 1, internal_error.
  destruct (currentUser w) as [[u |] | e] eqn:Hu; simpl;
    try (right; do 3 eexists; split; [reflexivity | split; auto 6]; fail).
  destruct (env_set (GEMINI_API_KEY w)) eqn:Hk; simpl;
    try (right; do 3 eexists; split; [reflexivity | split; auto 6]; fail).
  unfold bind at 1, call at 1.
  destruct (request_json w) as [body | e] eqn:Hb; simpl;
    try (right; do 3 eexists; split; [reflexivity | split; auto 6]; fail).
  rewrite !bind_lift.
  destruct body as [ | | b | m e | s | items | fs ]; simpl;
    try (right; do 3 eexists; split; [reflexivity | split; auto 6]; fail).
  destruct (lookup "message" fs) as [[ | | b | m e | [| a s] | items | fs' ] |]
    eqn:Hm; simpl;
    try (right; do 3 eexists; split; [reflexivity | split; auto 6]; fail).
  left. exists u, (JObj fs), (String a s). unfold accepted. simpl.
  rewrite Hm. repeat split; auto. discriminate.
Qed.

End Gates.

Arguments accepted_body {w u body message} _.
Arguments POST_run {w u body message} _ _.
Arguments POST_cached {w u body message entry} _ _ _.

Section Footprint.

Import JsString Js.

Variable w : World.
Variable P : Event -> Prop.

Lemma synthesize_behaves model p userId message us sqlQuery rows :
  (forall e, synthesizing p e -> P e) ->
  behaves (synthesize w model p userId message us sqlQuery rows) P
    anything anything.
Proof.
  intros HP. unfold synthesize.
  eapply behaves_bind with (Q1 := anything) (E1 := nothing).
  - step.
    + eapply behaves_weaken with (Q' := fun r => forall a, r = Some a -> _).
      * eapply attempt_behaves. apply behaves_call.
        apply HP. reflexivity.
      * auto.
      * intros; exact I.
      * auto.
    + step. exact I.
  - intros ? [].
  - intros opened _. step.
    + eapply behaves_bind with (Q1 := anything) (E1 := nothing).
      * intros c. rewrite start_run. simpl. split; [| exact I].
        unfold channel. apply Forall_app. split.
        -- apply Forall_forall. intros e He. apply in_map_iff in He.
           destruct He as (t & <- & _). apply HP. exact I.
        -- destruct (failure s); repeat constructor; apply HP; exact I.
      * intros ? [].
      * intros _ _. step. exact I.
    + eapply behaves_weaken.
      * apply buffered_behaves.
        -- intros m. apply HP. reflexivity.
        -- intros reply. apply HP. exact I.
      * auto.
      * intros; exact I.
      * auto.
Qed.

Lemma answer_behaves user message us pc pd :
  (forall e, gathering e -> P e) ->
  (forall p e, synthesizing p e -> P e) ->
  behaves (answer w user message us pc pd) P anything anything.
Proof.
  intros Hg Hs. unfold answer.
  eapply behaves_bind.
  - apply modelName_behaves. apply Hg. exact I.
  - intros ? [].
  - intros model _. eapply behaves_bind.
    + apply primary_query_behaves; intros; apply Hg; exact I.
    + intros ? [].
    + intros [q rows] _. eapply behaves_bind.
      * apply context_query_behaves; intros; apply Hg; auto; exact I.
      * intros ? [].
      * intros [aq arows] _. eapply behaves_bind with (Q1 := anything).
        -- step. instantiate (1 := anything).
           destruct (analysisPrompt w message pc pd rows arows q aq);
             exact I.
        -- auto.
        -- intros prompt _. apply synthesize_behaves. apply Hs.
Qed.

(** The handler always responds, and makes no other calls than these. *)
Lemma POST_behaves :
  P EvCurrentUser ->
  P EvRequestJson ->
  (forall u m, P (EvCacheGet u m)) ->
  (forall e, gathering e -> P e) ->
  (forall p e, synthesizing p e -> P e) ->
  behaves (POST w) P anything nothing.
Proof.
  intros Hu Hr Hc Hg Hs. unfold POST.
  eapply behaves_try_catch with (Q1 := anything) (E1 := anything).
  - eapply behaves_bind.
    + apply behaves_call. exact Hu.
    + intros; exact I.
    + intros user _. repeat step; try exact I.
      eapply behaves_bind; [apply behaves_call; exact Hr | intros; exact I |].
      intros body _.
      eapply behaves_bind with (Q1 := anything);
        [step; instantiate (1 := anything);
         destruct (destructure "body" "message" body); exact I | auto |].
      intros _ _.
      eapply behaves_bind with (Q1 := anything);
        [step; instantiate (1 := anything);
         destruct (get body "message"); exact I | auto |].
      intros message _.
      eapply behaves_bind with (Q1 := anything);
        [step; instantiate (1 := anything);
         destruct (get body "stream"); exact I | auto |].
      intros stream _.
      eapply behaves_bind with (Q1 := anything);
        [step; instantiate (1 := anything);
         destruct (get body "pageContext"); exact I | auto |].
      intros pageContext _.
      eapply behaves_bind with (Q1 := anything);
        [step; instantiate (1 := anything);
         destruct (get body "pageData"); exact I | auto |].
      intros pageData _.
      destruct message as [ | | b | m e | [| a s] | items | fs ];
        try (step; exact I).
      eapply behaves_bind with (Q1 := anything) (E1 := nothing).
      * step; [| step; exact I].
        step; [apply Hc |]. step. exact I.
      * intros ? [].
      * intros cached _. step; [step; exact I |].
        apply answer_behaves; assumption.
  - auto.
  - intros e _. step. exact I.
Qed.

End Footprint.

(** ** An accepted request, end to end *)

Section Pipeline.

Import JsString Js.

Variable w : World.
Variable P : Event -> Prop.
Variables Q1 Q2 : JsValue * list Row -> Prop.
Variable u : User.
Variable body : JsValue.
Variable message : string.

Hypothesis Haccepted : accepted w u body message.
Hypothesis Hmissed : cache_missed w u body message.
Hypothesis Hmodel : P EvListModels.
Hypothesis Hprimary :
  forall model, behaves (primary_query w model (id u) message) P Q1 nothing.
Hypothesis Hcontext :
  forall model,
    behaves (context_query w model (id u) (pageContext_of body)) P Q2 nothing.

(** The response and the calls of an accepted request: the calls of the
    checks, those of the gathering steps, and the run of the synthesis on
    the prompt built from what the steps returned; when the prompt cannot
    be built, the response of the outer [catch]. *)
Lemma POST_pipeline :
  exists model q rows aq arows pre,
    Forall P pre /\ Q1 (q, rows) /\ Q2 (aq, arows) /\
    match analysisPrompt w message (pageContext_of body) (pageData_of body)
            rows arows q aq with
    | Ok prompt =>
        let run :=
          synthesize w model prompt (id u) message (useStreaming_of body)
            q rows
            (List.length (gate_calls u body message) + List.length pre) in
        reply_of w = Ok (match fst run with
                         | Ok r => r
                         | Throw e => internal_error w e
                         end) /\
        trace w = (gate_calls u body message ++ pre ++ snd run)%list
    | Throw e =>
        reply_of w = Ok (internal_error w e) /\
        trace w = (gate_calls u body message ++ pre)%list
    end.
Proof.
  destruct (answer_run w u message (useStreaming_of body)
              (pageContext_of body) (pageData_of body) P Q1 Q2
              (modelName_behaves w P Hmodel) Hprimary Hcontext
              (List.length (gate_calls u body message)))
    as (model & q & rows & aq & arows & pre & HP & HQ1 & HQ2 & Hrun).
  exists model, q, rows, aq, arows, pre.
  repeat (split; [assumption |]).
  unfold reply_of, trace.
  rewrite (POST_run Haccepted Hmissed). cbv zeta. rewrite Hrun.
  destruct (analysisPrompt w message (pageContext_of body)
              (pageData_of body) rows arows q aq) as [prompt | e];
    simpl; split; reflexivity.
Qed.

End Pipeline.

(** ** Failing queries and empty result sets *)

Lemma bind_ext {A B} (m m' : M A) (f f' : A -> M B) :
  (forall c, m c = m' c) ->
  (forall a c, f a c = f' a c) ->
  forall c, bind m f c = bind m' f' c.
Proof.
  intros Hm Hf c. unfold bind. rewrite Hm.
  destruct (m' c) as [[a | e] l]; [rewrite Hf |]; reflexivity.
Qed.

Lemma try_catch_ext {A} (m m' : M A) (h h' : Exn -> M A) :
  (forall c, m c = m' c) ->
  (forall e c, h e c = h' e c) ->
  forall c, try_catch m h c = try_catch m' h' c.
Proof.
  intros Hm Hh c. unfold try_catch. rewrite Hm.
  destruct (m' c) as [[a | e] l]; [| rewrite Hh]; reflexivity.
Qed.

Section Absorb.

Import JsString Js.

Variable w : World.

Lemma guarded_query_absorbs site sql c :
  try_catch (runSupabaseQuery (failing_as_empty w) site sql)
    (fun _ => ret []) c =
  try_catch (runSupabaseQuery w site sql) (fun _ => ret []) c.
Proof.
  unfold runSupabaseQuery, try_catch, bind, emit. simpl.
  destruct (env_set (env_or (DATABASE_URL w) (SUPABASE_DB_URL w))); simpl;
    [| reflexivity].
  unfold call. simpl. destruct (pool_query w (c + 1) sql); reflexivity.
Qed.

Lemma primary_query_absorbs model userId message c :
  primary_query (failing_as_empty w) model userId message c =
  primary_query w model userId message c.
Proof.
  unfold primary_query. apply bind_ext; [reflexivity |].
  intros [sqlResponse |] k; [| reflexivity].
  destruct (ensure_user_filter userId (extract_sql sqlResponse));
    [| reflexivity].
  apply bind_ext; [apply guarded_query_absorbs | reflexivity].
Qed.

Lemma context_query_absorbs model userId pageContext c :
  context_query (failing_as_empty w) model userId pageContext c =
  context_query w model userId pageContext c.
Proof.
  unfold context_query. destruct (truthy pageContext); [| reflexivity].
  apply bind_ext; [reflexivity |].
  intros [autoQueryText |] k; [| reflexivity].
  destruct (truthy (auxiliary_sql autoQueryText)); [| reflexivity].
  destruct (receiver "autoQuerySQL" (auxiliary_sql autoQueryText)
              "toLowerCase") as [sql | err]; [| reflexivity].
  destruct (reads_only (toLowerCase sql)); [| reflexivity].
  apply bind_ext; [apply guarded_query_absorbs | reflexivity].
Qed.

Lemma answer_absorbs user message us pc pd c :
  answer (failing_as_empty w) user message us pc pd c =
  answer w user message us pc pd c.
Proof.
  unfold answer. apply bind_ext; [reflexivity |].
  intros model k. apply bind_ext; [apply primary_query_absorbs |].
  intros [q rows] k'. apply bind_ext; [apply context_query_absorbs |].
  intros [aq arows] k''. reflexivity.
Qed.

Lemma POST_absorbs c : POST (failing_as_empty w) c = POST w c.
Proof.
  unfold POST. apply try_catch_ext; [| reflexivity].
  apply bind_ext; [reflexivity |].
  intros [user |] k; [| reflexivity].
  change (GEMINI_API_KEY (failing_as_empty w)) with (GEMINI_API_KEY w).
  destruct (negb (env_set (GEMINI_API_KEY w))); [reflexivity |].
  apply bind_ext; [reflexivity |]. intros body k1.
  rewrite !(bind_lift (destructure "body" "message" body)).
  destruct (destructure "body" "message" body) as [_ |]; [| reflexivity].
  apply bind_ext; [reflexivity |]. intros message k2.
  apply bind_ext; [reflexivity |]. intros stream k3.
  apply bind_ext; [reflexivity |]. intros pageContext k4.
  apply bind_ext; [reflexivity |]. intros pageData k5.
  destruct message as [ | | b | m e | [| a s] | items | fs ]; try reflexivity.
  apply bind_ext; [reflexivity |].
  intros [cached |] k6; [reflexivity |].
  apply answer_absorbs.
Qed.

End Absorb.

(** ** Closing the client channel *)

Lemma closes_app (l1 l2 : list Event) :
  closes (l1 ++ l2) = closes l1 + closes l2.
Proof. unfold closes. rewrite filter_app, length_app. reflexivity. Qed.

Lemma closes_none (l : list Event) :
  Forall (fun e => is_close e = false) l -> closes l = 0.
Proof.
  unfold closes. induction 1 as [| e l He _ IH]; simpl; [reflexivity |].
  rewrite He. exact IH.
Qed.

Lemma closes_channel stream userId message sqlQuery count :
  closes (channel stream userId message sqlQuery count) = 1.
Proof.
  unfold channel. rewrite closes_app, closes_none.
  - destruct (failure stream); reflexivity.
  - apply Forall_forall. intros e He. apply in_map_iff in He.
    destruct He as (t & <- & _). reflexivity.
Qed.

Lemma closes_gate u body message : closes (gate_calls u body message) = 0.
Proof.
  unfold gate_calls. destruct (Js.truthy (useStreaming_of body)); reflexivity.
Qed.

(** The channel is closed once when the response is the stream, and is
    not touched otherwise. *)
Lemma POST_closes (w : World) :
  closes (trace w) =
  match reply_of w with
  | Ok StreamResponse => 1
  | _ => 0
  end.
Proof.
  set (P := fun e => is_close e = false).
  unfold trace, reply_of.
  destruct (POST_rejects w) as
    [(u & body & message & Hacc) | (st & b & tr & -> & _ & [-> | ->])];
    try reflexivity.
  destruct (Js.truthy (useStreaming_of body)) eqn:Hs.
  2: destruct (getCachedResponse w (id u) message) as [entry |] eqn:Hc.
  2: rewrite (POST_cached Hacc Hs Hc); reflexivity.
  1: pose proof (POST_run Hacc (or_introl Hs)) as Hrun.
  2: pose proof (POST_run Hacc (or_intror Hc)) as Hrun.
  all: cbv zeta in Hrun; rewrite Hrun; cbn [fst snd];
    destruct (answer_run w u message (useStreaming_of body)
                (pageContext_of body) (pageData_of body) P _ _
                (modelName_behaves w P eq_refl)
                (fun model =>
                   primary_query_behaves w P model (id u) message
                     (fun _ => eq_refl) (fun _ => eq_refl)
                     (fun _ _ => eq_refl))
                (fun model =>
                   context_query_behaves w P model (id u)
                     (pageContext_of body) (fun _ => eq_refl)
                     (fun _ _ => eq_refl) (fun _ _ => eq_refl))
                (List.length (gate_calls u body message)))
      as (model & q & rows & aq & arows & pre & Hpre & _ & _ & ->);
    destruct (analysisPrompt w message (pageContext_of body)
                (pageData_of body) rows arows q aq)
      as [prompt | e]; cbn [fst snd];
    rewrite !closes_app, closes_gate, (closes_none _ Hpre);
    try reflexivity.
  - destruct (generateContentStream w model prompt) as [stream | e] eqn:Hg.
    + rewrite (synthesize_streams _ _ _ _ _ _ _ _ _ _ Hs Hg). cbn [fst snd].
      change (EvGenerateStream ?m ?p :: ?l)
        with ([EvGenerateStream m p] ++ l)%list.
      rewrite closes_app, closes_channel. reflexivity.
    + rewrite (synthesize_fallback _ _ _ _ _ _ _ _ _ _ Hs Hg). cbn [fst snd].
      match goal with
      | |- context [buffered ?w ?m ?p ?a ?b ?c ?d ?k] =>
          destruct (buffered_behaves w P m p a b c d
                      (fun _ => eq_refl) (fun _ => eq_refl) k) as [Hall Hres];
          destruct (buffered w m p a b c d k) as [[r | e'] l]
      end; cbn [fst snd] in *.
      * destruct Hres as (reply & i & -> & _).
        change (EvGenerateStream ?m ?p :: ?l)
          with ([EvGenerateStream m p] ++ l)%list.
        rewrite closes_app, (closes_none _ Hall). reflexivity.
      * change (EvGenerateStream ?m ?p :: ?l)
          with ([EvGenerateStream m p] ++ l)%list.
        rewrite closes_app, (closes_none _ Hall). reflexivity.
  - rewrite (synthesize_plain _ _ _ _ _ _ _ _ _ Hs).
    match goal with
    | |- context [buffered ?w ?m ?p ?a ?b ?c ?d ?k] =>
        destruct (buffered_behaves w P m p a b c d
                    (fun _ => eq_refl) (fun _ => eq_refl) k) as [Hall Hres];
        destruct (buffered w m p a b c d k) as [[r | e'] l]
    end; cbn [fst snd] in *.
    + destruct Hres as (reply & i & -> & _).
      rewrite (closes_none _ Hall). reflexivity.
    + rewrite (closes_none _ Hall). reflexivity.
Qed.

(** ** The checks before the model is asked *)

Section Checks.

Import JsString Js.

Variable w : World.

(** Every way through the checks: the response and the calls, or an
    accepted request. *)
Lemma POST_gates :
  (currentUser w = Ok None /\
   POST w 0 = (Ok (JsonResponse 401 (ErrorBody "Unauthorized" None)),
               [EvCurrentUser])) \/
  (exists e,
     currentUser w = Throw e /\
     POST w 0 = (Ok (internal_error w e), [EvCurrentUser])) \/
  (exists u,
     currentUser w = Ok (Some u) /\
     env_set (GEMINI_API_KEY w) = false /\
     POST w 0 = (Ok (JsonResponse 500 (ErrorBody key_missing None)),
                 [EvCurrentUser])) \/
  (exists u e,
     currentUser w = Ok (Some u) /\
     env_set (GEMINI_API_KEY w) = true /\
     (request_json w = Throw e \/
      exists body,
        request_json w = Ok body /\
        destructure "body" "message" body = Throw e) /\
     POST w 0 = (Ok (internal_error w e), [EvCurrentUser; EvRequestJson])) \/
  (exists u body m,
     currentUser w = Ok (Some u) /\
     env_set (GEMINI_API_KEY w) = true /\
     request_json w = Ok body /\
     get body "message" = Ok m /\
     (forall a s, m <> JStr (String a s)) /\
     POST w 0 = (Ok (JsonResponse 400 (ErrorBody "Message is required" None)),
                 [EvCurrentUser; EvRequestJson])) \/
  (exists u body message, accepted w u body message).
Proof.
  assert (Hstart : forall u body,
            currentUser w = Ok (Some u) ->
            env_set (GEMINI_API_KEY w) = true ->
            request_json w = Ok body ->
            POST w 0 =
            (match destructure "body" "message" body with
             | Throw e => Ok (internal_error w e)
             | Ok _ =>
                 match fst (POST w 0) with
                 | Ok r => Ok r
                 | Throw e => Throw e
                 end
             end,
             match destructure "body" "message" body with
             | Throw e => [EvCurrentUser; EvRequestJson]
             | Ok _ => snd (POST w 0)
             end)).
  { intros u body Hu Hk Hb.
    destruct (destructure "body" "message" body) as [[] | e] eqn:Hd.
    - destruct (POST w 0) as [[r | e] l]; reflexivity.
    - unfold POST, try_catch, bind at 1, call at 1. rewrite Hu.
      cbn [fst snd List.length]. rewrite Hk. cbn [negb].
      unfold bind at 1, call at 1. rewrite Hb.
      cbn [fst snd List.length]. rewrite bind_lift, Hd. reflexivity. }
  assert (Hrun : forall m body,
            request_json w = Ok body ->
            get body "message" = Ok m ->
            (forall a s, m <> JStr (String a s)) ->
            forall u, currentUser w = Ok (Some u) ->
            env_set (GEMINI_API_KEY w) = true ->
            POST w 0 =
            (Ok (JsonResponse 400 (ErrorBody "Message is required" None)),
             [EvCurrentUser; EvRequestJson])).
  { intros m body Hb Hm Hne u Hu Hk.
    unfold POST, try_catch, bind at 1, call at 1. rewrite Hu.
    cbn [fst snd List.length]. rewrite Hk. cbn [negb].
    unfold bind at 1, call at 1. rewrite Hb. cbn [fst snd List.length].
    destruct body as [ | | b | m' e | s | items | fs ];
      try discriminate Hm; rewrite !bind_lift; cbn [destructure];
      rewrite ?Hm; cbn [get] in *;
      destruct m as [ | | b' | m'' e' | [| a s'] | items' | fs' ];
      try discriminate Hm;
      try reflexivity; try (exfalso; eapply Hne; reflexivity);
      injection Hm as Hm; rewrite Hm; reflexivity. }
  destruct (currentUser w) as [[u |] | e] eqn:Hu.
  - destruct (env_set (GEMINI_API_KEY w)) eqn:Hk.
    + destruct (request_json w) as [body | e] eqn:Hb.
      * destruct (destructure "body" "message" body) as [[] | e] eqn:Hd.
        -- assert (Hget : exists m, get body "message" = Ok m)
             by (destruct body; try discriminate Hd; simpl; eauto).
           destruct Hget as [m Hm].
           destruct m as [ | | b | n e | [| a s] | items | fs' ];
             try (do 4 right; left; exists u, body; eexists;
                  split; [reflexivity |]; split; [reflexivity |];
                  split; [reflexivity |]; split; [exact Hm |];
                  split; [intros; discriminate |];
                  eapply Hrun; eauto; intros; discriminate).
           do 5 right. exists u, body, (String a s). unfold accepted.
           repeat split; auto. discriminate.
        -- do 3 right. left. exists u, e.
           split; [reflexivity |]. split; [reflexivity |].
           split; [right; exists body; auto |].
           rewrite (Hstart u body eq_refl eq_refl eq_refl), Hd. reflexivity.
      * do 3 right. left. exists u, e.
        split; [reflexivity |]. split; [reflexivity |].
        split; [left; reflexivity |].
        unfold POST, try_catch, bind at 1, call at 1. rewrite Hu.
        cbn [fst snd List.length]. rewrite Hk. cbn [negb].
        unfold bind at 1, call at 1. rewrite Hb.
        reflexivity.
    + do 2 right. left. exists u.
      split; [reflexivity |]. split; [reflexivity |].
      unfold POST, try_catch, bind at 1, call at 1. rewrite Hu.
      cbn [fst snd List.length]. rewrite Hk. reflexivity.
  - left. split; [reflexivity |].
    unfold POST, try_catch, bind at 1, call at 1. rewrite Hu. reflexivity.
  - right. left. exists e. split; [reflexivity |].
    unfold POST, try_catch, bind at 1, call at 1. rewrite Hu. reflexivity.
Qed.

(** An accepted request is answered from the cache or by [answer]. *)
Lemma POST_accepted u body message :
  accepted w u body message ->
  (exists entry,
     truthy (useStreaming_of body) = false /\
     getCachedResponse w (id u) message = Some entry /\
     POST w 0 =
     (Ok (JsonResponse 200
            (CachedBody (response entry)
               (if development w
                then Some (or_else (sqlQuery entry) (JStr "No SQL generated"),
                           resultCount entry)
                else None))),
      [EvCurrentUser; EvRequestJson; EvCacheGet (id u) message])) \/
  (cache_missed w u body message /\
   POST w 0 =
   let run := answer w u message (useStreaming_of body) (pageContext_of body)
                (pageData_of body) (List.length (gate_calls u body message)) in
   (Ok (match fst run with
        | Ok r => r
        | Throw e => internal_error w e
        end),
    (gate_calls u body message ++ snd run)%list)).
Proof.
  intros Hacc.
  destruct (truthy (useStreaming_of body)) eqn:Hs.
  - right. assert (Hmiss : cache_missed w u body message) by (left; exact Hs).
    split; [exact Hmiss | exact (POST_run Hacc Hmiss)].
  - destruct (getCachedResponse w (id u) message) as [entry |] eqn:Hc.
    + left. exists entry. repeat split; try reflexivity.
      exact (POST_cached Hacc Hs Hc).
    + right.
      assert (Hmiss : cache_missed w u body message) by (right; exact Hc).
      split; [exact Hmiss | exact (POST_run Hacc Hmiss)].
Qed.

End Checks.


(** ** A typed request, end to end *)

Lemma behaves_conj {A} (m : M A) P Q Q' E :
  behaves m P Q E -> behaves m anything Q' anything ->
  behaves m P (fun a => Q a /\ Q' a) E.
Proof.
  intros H H' c. destruct (H c) as [Hall Hres]. destruct (H' c) as [_ Hres'].
  split; [exact Hall |].
  destruct (fst (m c)); [split; assumption | exact Hres].
Qed.

Section Typed.

Import JsString Js.

Variable w : World.

Lemma allSQLQueries_ok q aq :
  convertible q = true -> convertible aq = true ->
  allSQLQueries q aq = Ok (filter truthy [q; aq]).
Proof.
  intros Hq Ha. unfold allSQLQueries. cbn [filter].
  destruct (truthy q), (truthy aq); cbn [forallb];
    rewrite ?Hq, ?Ha; reflexivity.
Qed.

(** The list of statements is built exactly when those that are kept
    convert. *)
Lemma allSQLQueries_throws q aq e :
  allSQLQueries q aq = Throw e ->
  (truthy q = true /\ convertible q = false) \/
  (truthy aq = true /\ convertible aq = false).
Proof.
  unfold allSQLQueries. cbn [filter].
  destruct (truthy q) eqn:Tq, (truthy aq) eqn:Ta; cbn [forallb];
    destruct (convertible q) eqn:Cq, (convertible aq) eqn:Ca;
    cbn [andb]; try discriminate; auto.
Qed.

(** The page-context section shows the auxiliary rows whenever there
    are any. *)
Lemma pageContextInfo_auto pc pd arows info :
  pageContextInfo pc pd arows = Ok info ->
  autoDataShown info = match arows with [] => None | _ => Some arows end.
Proof.
  unfold pageContextInfo.
  destruct (truthy pc).
  - destruct (ToString pc); [| discriminate].
    destruct (receiver "pageContext" pc "toLowerCase"); [| discriminate].
    intros [= <-]. reflexivity.
  - intros [= <-]. reflexivity.
Qed.

Lemma analysisPrompt_built message pc pd rows arows q aq :
  page_typed pc = true ->
  convertible q = true -> convertible aq = true ->
  exists info,
    pageContextInfo pc pd arows = Ok info /\
    analysisPrompt w message pc pd rows arows q aq
    = Ok (AnalysisPrompt (AI_COACH_SYSTEM_PROMPT w) message info
            (dataSummary w rows arows (filter truthy [q; aq]))).
Proof.
  intros Hp Hq Ha.
  destruct (page_typed_info pc pd arows Hp) as [info Hinfo].
  exists info. split; [exact Hinfo |].
  unfold analysisPrompt. rewrite Hinfo, (allSQLQueries_ok q aq Hq Ha).
  reflexivity.
Qed.

Variable P : Event -> Prop.
Variables Q1 Q2 : JsValue * list Row -> Prop.
Variable u : User.
Variable body : JsValue.
Variable message : string.

Hypothesis Haccepted : accepted w u body message.
Hypothesis Hmissed : cache_missed w u body message.
Hypothesis Hpage : page_typed (pageContext_of body) = true.
Hypothesis Hrenders : statements_render w.
Hypothesis Hmodel : P EvListModels.
Hypothesis Hprimary :
  forall model, behaves (primary_query w model (id u) message) P Q1 nothing.
Hypothesis Hcontext :
  forall model,
    behaves (context_query w model (id u) (pageContext_of body)) P Q2 nothing.

(** The response and the calls of an accepted request whose page context
    is typed and whose statements convert: the calls of the checks, those
    of the gathering steps, and the run of the synthesis on the prompt
    built from what the steps returned. *)
Lemma POST_typed :
  exists model q rows aq arows info pre,
    Forall P pre /\ Q1 (q, rows) /\ Q2 (aq, arows) /\
    pageContextInfo (pageContext_of body) (pageData_of body) arows = Ok info /\
    let run :=
      synthesize w model
        (AnalysisPrompt (AI_COACH_SYSTEM_PROMPT w) message info
           (dataSummary w rows arows (filter truthy [q; aq])))
        (id u) message (useStreaming_of body) q rows
        (List.length (gate_calls u body message) + List.length pre) in
    reply_of w = Ok (match fst run with
                     | Ok r => r
                     | Throw e => internal_error w e
                     end) /\
    trace w = (gate_calls u body message ++ pre ++ snd run)%list.
Proof.
  destruct (POST_pipeline w P
              (fun r => Q1 r /\ convertible (fst r) = true)
              (fun r => Q2 r /\ convertible (fst r) = true)
              u body message Haccepted Hmissed Hmodel
              (fun model =>
                 behaves_conj _ _ _ _ _ (Hprimary model)
                   (behaves_weaken _ _ _ _ _ _ _
                      (primary_query_renders w model (id u) message Hrenders)
                      (fun _ H => H) (fun _ H => H) (fun _ H => I)))
              (fun model =>
                 behaves_conj _ _ _ _ _ (Hcontext model)
                   (behaves_weaken _ _ _ _ _ _ _
                      (context_query_renders w model (id u)
                         (pageContext_of body) Hrenders)
                      (fun _ H => H) (fun _ H => H) (fun _ H => I))))
    as (model & q & rows & aq & arows & pre & HP & [HQ1 Cq] & [HQ2 Ca] & Hrun).
  cbn [fst] in Cq, Ca.
  destruct (analysisPrompt_built message (pageContext_of body)
              (pageData_of body) rows arows q aq Hpage Cq Ca)
    as (info & Hinfo & Hprompt).
  rewrite Hprompt in Hrun.
  exists model, q, rows, aq, arows, info, pre.
  repeat (split; [assumption |]). exact Hrun.
Qed.

End Typed.

(** * The claims *)

Section Claims.

Import JsString Js Examples.

(** ** The user filter *)

(** The rewrite on four shapes of statement. *)
Example filter_added :
  ensure_user_filter "U1" (JStr "SELECT * FROM properties LIMIT 50")
  = Ok "SELECT * FROM properties WHERE user_id = 'U1' LIMIT 50".
Proof. reflexivity. Qed.

Example filter_conjoined :
  ensure_user_filter "U1" (JStr "SELECT * FROM properties WHERE status = 'rented'")
  = Ok "SELECT * FROM properties WHERE user_id = 'U1' AND status = 'rented'".
Proof. reflexivity. Qed.

Example filter_skipped_on_column :
  ensure_user_filter "U1" (JStr projected_sql) = Ok projected_sql.
Proof. reflexivity. Qed.

Example filter_skipped_on_delete :
  ensure_user_filter "U1" (JStr purge_sql) = Ok purge_sql.
Proof. reflexivity. Qed.

(** C1.  The code does not keep the invariant.  A primary statement that
    names the [user_id] column without a [WHERE], or that is not a
    [SELECT], is passed to [runSupabaseQuery] as generated, and the
    page-context statement is never rewritten: in these two runs the
    executor receives three statements, none of which mentions the
    identifier of the user. *)
Theorem C1_unscoped_statements_reach_executor :
  queries (trace (world page_request forgetful))
  = [(Primary, projected_sql); (Auxiliary, unfiltered_sql)] /\
  queries (trace (world buffered_request destructive))
  = [(Primary, purge_sql)] /\
  mentions_user (id alice) projected_sql = false /\
  mentions_user (id alice) unfiltered_sql = false /\
  mentions_user (id alice) purge_sql = false.
Proof. vm_compute. repeat split. Qed.

(** ** Input validation *)




(** ** The cache *)

(** C4. On a request that asks for streaming the cache is never looked
    up.  On an accepted request that does not, a cache entry is returned as
    it is, marked as cached, after the lookup and nothing else: no model is
    listed or called and no query runs. *)
Theorem C4_cache_and_streaming (w : World) (body : JsValue) :
  request_json w = Ok body ->
  (truthy (useStreaming_of body) = true ->
   forall uid msg, ~ In (EvCacheGet uid msg) (trace w)) /\
  (forall u message entry,
     accepted w u body message ->
     truthy (useStreaming_of body) = false ->
     getCachedResponse w (id u) message = Some entry ->
     reply_of w =
       Ok (JsonResponse 200
             (CachedBody (response entry)
                (if development w
                 then Some (or_else (sqlQuery entry) (JStr "No SQL generated"),
                            resultCount entry)
                 else None))) /\
     trace w = [EvCurrentUser; EvRequestJson; EvCacheGet (id u) message]).
Proof.
  intros Hb. split.
  - intros Hs uid msg Hin. unfold trace in Hin.
    destruct (POST_rejects w) as
      [(u & body' & message & Hacc) | (st & b & tr & Hrun & _ & Htr)].
    + assert (body' = body) as ->.
      { destruct Hacc as (_ & _ & Hb' & _). congruence. }
      rewrite (POST_run Hacc (or_introl Hs)) in Hin. simpl in Hin.
      unfold gate_calls in Hin. rewrite Hs in Hin.
      destruct Hin as [Hin | [Hin | Hin]]; try discriminate.
      pose proof (answer_behaves w
        (fun e => match e with EvCacheGet _ _ => False | _ => True end)
        u message (useStreaming_of body) (pageContext_of body)
        (pageData_of body)) as Hans.
      destruct (Hans
        ltac:(intros [] H; simpl in *; auto)
        ltac:(intros p [] H; simpl in *; auto) 2) as [Hall _].
      rewrite Forall_forall in Hall. exact (Hall _ Hin).
    + rewrite Hrun in Hin. simpl in Hin.
      destruct Htr as [-> | ->]; simpl in Hin;
        repeat (destruct Hin as [Hin | Hin]; try discriminate); auto.
  - intros u message entry Hacc Hs Hhit.
    unfold reply_of, trace. rewrite (POST_cached Hacc Hs Hhit).
    split; reflexivity.
Qed.

(** C4, on the default request and on a cached buffered one. *)
Lemma C4_cache_and_streaming_witness :
  (forall uid msg,
     ~ In (EvCacheGet uid msg) (trace (world streaming_request obedient))) /\
  (reply_of (caching cached_three (world buffered_request obedient)) =
     Ok (JsonResponse 200 (CachedBody three None)) /\
   trace (caching cached_three (world buffered_request obedient)) =
     [EvCurrentUser; EvRequestJson; EvCacheGet (id alice) count_question]).
Proof.
  split.
  - apply (proj1 (C4_cache_and_streaming
                    (world streaming_request obedient) streaming_request
                    eq_refl)).
    reflexivity.
  - apply (proj2 (C4_cache_and_streaming
                    (caching cached_three (world buffered_request obedient))
                    buffered_request eq_refl)
             alice count_question cached_three).
    + unfold accepted. repeat split. discriminate.
    + reflexivity.
    + reflexivity.
Defined.

(** ** The mutation guard *)

(** C2. A statement whose lower-cased text contains [insert], [update] or
    [delete] is never passed to [runSupabaseQuery] by the page-context
    step. *)
Theorem C2_mutation_guard (w : World) (sql : string) :
  includes (toLowerCase sql) "insert" = true \/
  includes (toLowerCase sql) "update" = true \/
  includes (toLowerCase sql) "delete" = true ->
  ~ In (EvQuery Auxiliary sql) (trace w).
Proof.
  intros Hmut Hin.
  destruct (POST_behaves w
    (fun e => match e with
              | EvQuery Auxiliary s => reads_only (toLowerCase s) = true
              | _ => True
              end)
    I I (fun _ _ => I)
    ltac:(intros [] H; simpl in *; auto; destruct site; auto)
    ltac:(intros p [] H; simpl in *; auto; destruct site; auto) 0)
    as [Hall _].
  rewrite Forall_forall in Hall. specialize (Hall _ Hin). simpl in Hall.
  unfold reads_only in Hall.
  apply andb_prop in Hall. destruct Hall as [Hall Hd].
  apply andb_prop in Hall. destruct Hall as [Hi Hu].
  destruct Hmut as [H | [H | H]]; rewrite H in *; discriminate.
Qed.

(** C2, on a page-context answer that deletes: the statement is parsed
    and dropped. *)
Lemma C2_mutation_guard_witness :
  includes (toLowerCase delete_sql) "delete" = true /\
  ~ In (EvQuery Auxiliary delete_sql) (trace (world page_request deleting)).
Proof.
  split.
  - reflexivity.
  - apply (C2_mutation_guard (world page_request deleting) delete_sql).
    right. right. reflexivity.
Defined.

(** The run of that request: the page-context statement is generated and
    never executed.  The primary statement gets the predicate a second
    time, since the test compares the lower-cased text with the identifier
    as it is. *)
Example deleting_run :
  map (fun e => match e with
                | EvQuery site sql => Some (site, sql)
                | _ => None
                end)
      (filter is_query (trace (world page_request deleting)))
  = [Some (Primary,
           "SELECT COUNT(*) FROM properties WHERE user_id = 'user_2aLiCe' AND user_id = 'user_2aLiCe'");
     None].
Proof. vm_compute. reflexivity. Qed.

(** ** Failing queries *)

(** C6. A statement the executor fails on changes nothing more than a
    statement returning no rows: the response and the calls are those of
    the world where every failing statement returns the empty result set.
    The two query steps always return, whatever the executor does, and the
    handler always responds. *)
Theorem C6_query_failure_is_empty_result (w : World) :
  reply_of w = reply_of (failing_as_empty w) /\
  trace w = trace (failing_as_empty w) /\
  (exists r, reply_of w = Ok r) /\
  (forall model userId message c,
     exists q rows l,
       primary_query w model userId message c = (Ok (q, rows), l)) /\
  (forall model userId pageContext c,
     exists q rows l,
       context_query w model userId pageContext c = (Ok (q, rows), l)).
Proof.
  unfold reply_of, trace. rewrite POST_absorbs. repeat split.
  - destruct (behaves_total 0
      (POST_behaves w anything I I (fun _ _ => I)
         (fun _ _ => I) (fun _ _ _ => I))) as (r & l & Hrun & _).
    exists r. rewrite Hrun. reflexivity.
  - intros model userId message c.
    destruct (behaves_total c
      (primary_query_behaves w anything model userId message
         (fun _ => I) (fun _ => I) (fun _ _ => I)))
      as ([q rows] & l & Hrun & _). eauto.
  - intros model userId pageContext c.
    destruct (behaves_total c
      (context_query_behaves w anything model userId pageContext
         (fun _ => I) (fun _ _ => I) (fun _ _ => I)))
      as ([q rows] & l & Hrun & _). eauto.
Qed.

(** A run with the database unreachable: both statements are tried, both
    fail, and the reply is given without data. *)
Example offline_run :
  reply_of (offline (world page_request obedient)) =
    reply_of (barren (world page_request obedient)) /\
  trace (offline (world page_request obedient)) =
    trace (barren (world page_request obedient)) /\
  List.length (queries (trace (offline (world page_request obedient)))) = 2 /\
  exists sql,
    reply_of (offline (world page_request obedient)) =
    Ok (JsonResponse 200 (ReplyBody three (mkDataInfo sql 0 false None))).
Proof. vm_compute. repeat split. eexists. reflexivity. Qed.

(** ** Failing SQL generation *)



(** The run of that request: the primary model and the six alternatives
    are tried on the SQL prompt, no query runs, and the reply is the
    synthesized text. *)
Example exhausted_run :
  reply_of (world buffered_request exhausted) =
    Ok (JsonResponse 200
          (ReplyBody three
             (mkDataInfo (JStr "No SQL generated") 0 false None))) /\
  map (fun e => match e with
                | EvGenerate m (SqlGenerationPrompt _ _ _) => m
                | EvGenerate _ (AnalysisPrompt _ _ _ s) => framing s
                | _ => EmptyString
                end)
      (filter is_generation (trace (world buffered_request exhausted)))
  = ("gemini-pro" :: altModels ++
     ["No specific data found in the database for this question. "])%list /\
  filter is_query (trace (world buffered_request exhausted)) = [].
Proof. vm_compute. repeat split. Qed.

(** ** A missing connection string *)



(** ** The data shown to the model *)

(** C5, as stated, fails when both result sets have rows: the prompt is
    built from both.  The data summary shows the primary rows, and the
    page-context section of the same prompt shows the auxiliary rows. *)
Lemma C5_counterexample :
  exists model info sqls,
    In (EvGenerate model
          (AnalysisPrompt "You are ELO AI." count_question info
             (DataFound [[("count", JNum 3 0)]] sqls
                "properties(id, user_id, address)")))
       (trace (counting (world page_request obedient))) /\
    autoDataShown info = Some [[("address", JStr "12 Elm St")]].
Proof.
  do 3 eexists. split.
  - vm_compute. repeat (try (left; reflexivity); right).
  - reflexivity.
Qed.

(** C5, amended.  On an accepted request that the cache does not answer,
    with a typed page context and statements that convert to text, let
    the primary step return [rows] and the page-context step return
    [arows].  The data summary of the synthesis prompt shows [rows] when
    there are any, else [arows] when there are any, else the no-data
    framing; the page-context section of the prompt shows [arows] as well
    whenever there are any.  In each case the synthesis is called on that
    prompt, and what the model answers is the response: when the stream
    opens, the stream, whose channel carries the fragments, the cache write
    and the close; else the 200 reply, written to the cache. *)
Theorem C5_prompt_follows_results (w : World) (u : User) (body : JsValue)
  (message : string) :
  accepted w u body message ->
  cache_missed w u body message ->
  page_typed (pageContext_of body) = true ->
  statements_render w ->
  exists model l0 q rows l1 aq arows l2 info sqls,
    let n := List.length (gate_calls u body message) in
    let gathered := (gate_calls u body message ++ l0 ++ l1 ++ l2)%list in
    let prompt :=
      AnalysisPrompt (AI_COACH_SYSTEM_PROMPT w) message info
        (summary_by_precedence w rows arows sqls) in
    let attempt := stream_attempt (useStreaming_of body) model prompt in
    modelName w n = (Ok model, l0) /\
    primary_query w model (id u) message (n + List.length l0)
      = (Ok (q, rows), l1) /\
    context_query w model (id u) (pageContext_of body)
      (n + List.length l0 + List.length l1) = (Ok (aq, arows), l2) /\
    pageContextInfo (pageContext_of body) (pageData_of body) arows = Ok info /\
    autoDataShown info = match arows with [] => None | _ => Some arows end /\
    allSQLQueries q aq = Ok sqls /\
    dataSummary w rows arows sqls = summary_by_precedence w rows arows sqls /\
    match opened_stream w (useStreaming_of body) model prompt with
    | Some stream =>
        reply_of w = Ok StreamResponse /\
        trace w =
        (gathered ++ EvGenerateStream model prompt ::
         channel stream (id u) message q (List.length rows))%list
    | None =>
        (exists rest,
           trace w = (gathered ++ attempt ++ EvGenerate model prompt :: rest)%list) /\
        (forall reply,
           generateContent w
             (n + List.length l0 + List.length l1 + List.length l2
              + List.length attempt) model prompt = Ok reply ->
           reply_of w =
           Ok (JsonResponse 200 (ReplyBody reply (dataInfo_of q rows))) /\
           trace w =
           (gathered ++ attempt ++
            [EvGenerate model prompt;
             EvCacheSet (id u) message reply (or_else q JUndefined)
               (List.length rows)])%list)
    end.
Proof.
  intros Hacc Hmiss Hpage Hrend.
  set (n := List.length (gate_calls u body message)).
  destruct (behaves_total n (modelName_behaves w anything I))
    as (model & l0 & R0 & _).
  destruct (behaves_total (n + List.length l0)
              (primary_query_renders w model (id u) message Hrend))
    as ([q rows] & l1 & R1 & Cq & _).
  destruct (behaves_total (n + List.length l0 + List.length l1)
              (context_query_renders w model (id u) (pageContext_of body)
                 Hrend))
    as ([aq arows] & l2 & R2 & Ca & _).
  cbn [fst] in Cq, Ca.
  destruct (analysisPrompt_built w message (pageContext_of body)
              (pageData_of body) rows arows q aq Hpage Cq Ca)
    as (info & Hinfo & Hprompt).
  exists model, l0, q, rows, l1, aq, arows, l2, info,
    (filter truthy [q; aq]).
  cbv zeta.
  assert (Hsum : dataSummary w rows arows (filter truthy [q; aq])
                 = summary_by_precedence w rows arows (filter truthy [q; aq])).
  { unfold dataSummary, allQueryResults, summary_by_precedence.
    destruct rows, arows; reflexivity. }
  repeat (split; [assumption |]).
  split; [exact (pageContextInfo_auto _ _ _ _ Hinfo) |].
  split; [exact (allSQLQueries_ok q aq Cq Ca) |].
  split; [exact Hsum |].
  pose proof (POST_run Hacc Hmiss) as Hrun. cbv zeta in Hrun.
  fold n in Hrun. rewrite Hsum in Hprompt.
  rewrite (answer_steps w u message (useStreaming_of body)
             (pageContext_of body) (pageData_of body) n _ _ _ _ _ _ _ _
             R0 R1 R2), Hprompt in Hrun.
  cbv zeta in Hrun. cbn [fst snd] in Hrun.
  set (prompt := AnalysisPrompt _ _ _ _) in *.
  set (k := n + List.length l0 + List.length l1 + List.length l2) in *.
  pose proof (synthesize_cases w model prompt (id u) message
                (useStreaming_of body) q rows k) as Hc.
  unfold reply_of, trace. rewrite Hrun. cbn [fst snd].
  destruct (opened_stream w (useStreaming_of body) model prompt)
    as [stream |]; rewrite Hc; cbn [fst snd].
  - split; [reflexivity |]. rewrite <- !app_assoc. reflexivity.
  - split.
    + destruct (buffered_first_call w model prompt (id u) message q rows
                  (k + List.length
                         (stream_attempt (useStreaming_of body) model prompt)))
        as [rest ->].
      exists rest. rewrite <- !app_assoc. reflexivity.
    + intros reply Hg.
      rewrite (buffered_answers _ _ _ _ _ _ _ _ _ Hg). cbn [fst snd].
      split; [reflexivity |]. rewrite <- !app_assoc. reflexivity.
Qed.

(** C5 amended, on the request of the counterexample: both result sets
    have rows. *)
Lemma C5_prompt_follows_results_witness :
  exists model l0 q rows l1 aq arows l2 info sqls,
    let w := counting (world page_request obedient) in
    let n := List.length (gate_calls alice page_request count_question) in
    let gathered :=
      (gate_calls alice page_request count_question ++ l0 ++ l1 ++ l2)%list in
    let prompt :=
      AnalysisPrompt (AI_COACH_SYSTEM_PROMPT w) count_question info
        (summary_by_precedence w rows arows sqls) in
    let attempt := stream_attempt (useStreaming_of page_request) model prompt in
    modelName w n = (Ok model, l0) /\
    primary_query w model (id alice) count_question (n + List.length l0)
      = (Ok (q, rows), l1) /\
    context_query w model (id alice) (pageContext_of page_request)
      (n + List.length l0 + List.length l1) = (Ok (aq, arows), l2) /\
    pageContextInfo (pageContext_of page_request) (pageData_of page_request)
      arows = Ok info /\
    autoDataShown info = match arows with [] => None | _ => Some arows end /\
    allSQLQueries q aq = Ok sqls /\
    dataSummary w rows arows sqls = summary_by_precedence w rows arows sqls /\
    match opened_stream w (useStreaming_of page_request) model prompt with
    | Some stream =>
        reply_of w = Ok StreamResponse /\
        trace w =
        (gathered ++ EvGenerateStream model prompt ::
         channel stream (id alice) count_question q (List.length rows))%list
    | None =>
        (exists rest,
           trace w = (gathered ++ attempt ++ EvGenerate model prompt :: rest)%list) /\
        (forall reply,
           generateContent w
             (n + List.length l0 + List.length l1 + List.length l2
              + List.length attempt) model prompt = Ok reply ->
           reply_of w =
           Ok (JsonResponse 200 (ReplyBody reply (dataInfo_of q rows))) /\
           trace w =
           (gathered ++ attempt ++
            [EvGenerate model prompt;
             EvCacheSet (id alice) count_question reply (or_else q JUndefined)
               (List.length rows)])%list)
    end.
Proof.
  assert (Hacc : accepted (counting (world page_request obedient)) alice
                   page_request count_question)
    by (unfold accepted; repeat split; discriminate).
  assert (Hmiss : cache_missed (counting (world page_request obedient)) alice
                    page_request count_question)
    by (right; reflexivity).
  assert (Hrend : statements_render (counting (world page_request obedient)))
    by (intros c m [] t H; cbn in H; try exact I; injection H as <-;
        vm_compute; reflexivity).
  exact (C5_prompt_follows_results (counting (world page_request obedient))
           alice page_request count_question Hacc Hmiss eq_refl Hrend).
Defined.

(** The run of the request of C5: the summary has the counted row and the
    page-context section the listed one. *)
Example counting_run :
  map (fun e => match e with
                | EvGenerate _ (AnalysisPrompt _ _ info (DataFound rows _ _)) =>
                    Some (rows, autoDataShown info)
                | _ => None
                end)
      (filter is_generation (trace (counting (world page_request obedient))))
  = [None; None;
     Some ([[("count", JNum 3 0)]], Some [[("address", JStr "12 Elm St")]])].
Proof. vm_compute. reflexivity. Qed.

(** A run against an empty database: both result sets are empty and the
    prompt has the no-data framing. *)
Example barren_run :
  reply_of (barren (world page_request obedient)) =
    Ok (JsonResponse 200
          (ReplyBody three
             (mkDataInfo
                (JStr "SELECT COUNT(*) FROM properties WHERE user_id = 'user_2aLiCe' AND user_id = 'user_2aLiCe'")
                0 false None))) /\
  map (fun e => match e with
                | EvGenerate _ (AnalysisPrompt _ _ _ s) => framing s
                | _ => EmptyString
                end)
      (filter is_generation (trace (barren (world page_request obedient))))
  = [EmptyString; EmptyString;
     "No specific data found in the database for this question. "].
Proof. vm_compute. split; reflexivity. Qed.

(** ** Streaming *)

(** C8. When streaming is asked for and the stream cannot be opened, the
    synthesis goes on as the buffered response.  When it opens, the
    response is the stream: the client receives the non-empty fragments in
    arrival order, then, if the iteration failed, the inline text
    [Error: message], and then the close; on success the cache is written
    just before the close.  On every run of the handler the channel is
    closed exactly once when the response is the stream, and never
    otherwise. *)
Theorem C8_streaming (w : World) :
  (forall model p userId message us q rows c,
     truthy us = true ->
     (forall e,
        generateContentStream w model p = Throw e ->
        synthesize w model p userId message us q rows c =
        (fst (buffered w model p userId message q rows (c + 1)),
         EvGenerateStream model p ::
         snd (buffered w model p userId message q rows (c + 1)))) /\
     (forall stream,
        generateContentStream w model p = Ok stream ->
        synthesize w model p userId message us q rows c =
        (Ok StreamResponse,
         EvGenerateStream model p ::
         (map EvEnqueue (fragments (chunks stream)) ++
          match failure stream with
          | None =>
              [ EvCacheSet userId message (joined (fragments (chunks stream)))
                  (or_else q JUndefined) (List.length rows);
                EvClose ]
          | Some streamError =>
              [ EvEnqueue (newline ++ newline ++ "Error: "
                             ++ exn_message streamError);
                EvClose ]
          end)%list))) /\
  closes (trace w) =
  match reply_of w with
  | Ok StreamResponse => 1
  | _ => 0
  end.
Proof.
  split.
  - intros model p userId message us q rows c Hs. split.
    + intros e He. apply (synthesize_fallback _ _ _ _ _ _ _ _ _ e Hs He).
    + intros stream Hg.
      rewrite (synthesize_streams _ _ _ _ _ _ _ _ _ _ Hs Hg). reflexivity.
  - apply POST_closes.
Qed.

(** C8, on a stream that breaks after its third fragment. *)
Lemma C8_streaming_witness :
  synthesize (streamed broken_stream (world streaming_request obedient))
    "gemini-pro" (SqlGenerationPrompt "s" "m" "u") "u" "m" (JBool true)
    JNull [] 0
  = (Ok StreamResponse,
     [ EvGenerateStream "gemini-pro" (SqlGenerationPrompt "s" "m" "u");
       EvEnqueue "You "; EvEnqueue "have 3";
       EvEnqueue (newline ++ newline ++ "Error: socket hang up");
       EvClose ]) /\
  closes (trace (streamed broken_stream (world streaming_request obedient)))
  = match reply_of (streamed broken_stream (world streaming_request obedient))
    with
    | Ok StreamResponse => 1
    | _ => 0
    end.
Proof.
  split.
  - apply (proj2 (proj1 (C8_streaming
                           (streamed broken_stream
                              (world streaming_request obedient)))
                    "gemini-pro" (SqlGenerationPrompt "s" "m" "u") "u" "m"
                    (JBool true) JNull [] 0 eq_refl)
             broken_stream eq_refl).
  - apply (proj2 (C8_streaming
                    (streamed broken_stream (world streaming_request obedient)))).
Defined.

(** The run of that request: the fragments, the inline error, one close. *)
Example broken_stream_run :
  reply_of (streamed broken_stream (world streaming_request obedient))
  = Ok StreamResponse /\
  skipn 7 (trace (streamed broken_stream (world streaming_request obedient)))
  = [ EvEnqueue "You "; EvEnqueue "have 3";
      EvEnqueue (newline ++ newline ++ "Error: socket hang up");
      EvClose ].
Proof. vm_compute. split; reflexivity. Qed.

(** ** Fatal failures *)

(** C3, as stated, fails: every model variant is reported missing on the
    SQL prompt, and the response is the 200 reply. *)
Lemma C3_counterexample :
  accepted (world buffered_request exhausted) alice buffered_request
    count_question /\
  sql_generation_exhausted (world buffered_request exhausted) alice
    count_question /\
  reply_of (world buffered_request exhausted) =
  Ok (JsonResponse 200
        (ReplyBody three (mkDataInfo (JStr "No SQL generated") 0 false None))).
Proof.
  split; [| split].
  - unfold accepted. repeat split. discriminate.
  - intros c m. exists not_found_error. split; reflexivity.
  - vm_compute. reflexivity.
Qed.

(** C3, amended.  On an accepted request that the cache does not answer,
    with a typed page context and statements that convert to text: when
    every model variant is reported missing on the synthesis prompt and no
    stream opens, the response is the 500 error
    [All Gemini models failed for analysis]; when the model answers the
    synthesis prompt, the response is the stream or the 200 reply,
    whatever failed before; in particular, when every variant is reported
    missing on the SQL prompt, the buffered response is the 200 reply with
    no query and no rows. *)
Theorem C3_fatal_paths (w : World) (u : User) (body : JsValue)
  (message : string) :
  accepted w u body message ->
  cache_missed w u body message ->
  page_typed (pageContext_of body) = true ->
  statements_render w ->
  (synthesis_exhausted w ->
   truthy (useStreaming_of body) = false \/
   (forall m p, exists e, generateContentStream w m p = Throw e) ->
   exists e0 details,
     reply_of w =
     Ok (JsonResponse 500 (ErrorBody (all_failed_for_analysis e0) details))) /\
  (forall reply,
     synthesis_answers w reply ->
     reply_of w = Ok StreamResponse \/
     exists info, reply_of w = Ok (JsonResponse 200 (ReplyBody reply info))) /\
  (forall reply,
     sql_generation_exhausted w u message ->
     synthesis_answers w reply ->
     truthy (useStreaming_of body) = false ->
     reply_of w =
     Ok (JsonResponse 200
           (ReplyBody reply
              (mkDataInfo (JStr "No SQL generated") 0 false None)))).
Proof.
  intros Hacc Hmiss Hpage Hrend.
  pose proof (fun Q1 (H : forall model,
                 behaves (primary_query w model (id u) message) anything Q1
                   nothing) =>
    POST_typed w anything Q1 _ u body message Hacc Hmiss Hpage Hrend I H
      (fun model => context_query_behaves w anything model (id u)
         (pageContext_of body) (fun _ => I) (fun _ _ => I) (fun _ _ => I)))
    as Hpipe.
  split; [| split].
  - intros Hex Hstream.
    destruct (Hpipe _ (fun model => primary_query_behaves w anything model
                (id u) message (fun _ => I) (fun _ => I) (fun _ _ => I)))
      as (model & q & rows & aq & arows & info & pre & _ & _ & _ & _ & Hrep & _).
    rewrite Hrep. clear Hrep.
    assert (Hbuf : forall k, exists e0,
      fst (buffered w model
             (AnalysisPrompt (AI_COACH_SYSTEM_PROMPT w) message info
                (dataSummary w rows arows (filter truthy [q; aq]))) (id u) message q rows k)
      = Throw (Error (all_failed_for_analysis e0))).
    { intros k.
      destruct (buffered_exhausted w anything model (AI_COACH_SYSTEM_PROMPT w)
                  message info (dataSummary w rows arows (filter truthy [q; aq])) (id u) message
                  q rows Hex (fun _ => I) k) as [_ Hres].
      destruct (fst (buffered _ _ _ _ _ _ _ _)) as [r | e]; [destruct Hres |].
      destruct Hres as [e0 ->]. eauto. }
    assert (Herr : forall e0, exists details,
      internal_error w (Error (all_failed_for_analysis e0))
      = JsonResponse 500 (ErrorBody (all_failed_for_analysis e0) details)).
    { intros e0. unfold internal_error. simpl. eexists. reflexivity. }
    destruct (truthy (useStreaming_of body)) eqn:Hs.
    + destruct Hstream as [Hno | Hno]; [discriminate |].
      match goal with
      | |- context [synthesize ?w ?m ?p ?a ?b ?c ?d ?e ?k] =>
          destruct (Hno m p) as [err Hg];
          rewrite (synthesize_fallback w m p a b c d e k err Hs Hg);
          destruct (Hbuf (k + 1)) as [e0 He0]
      end.
      destruct (Herr e0) as [details Hd].
      exists e0, details. cbn [fst]. rewrite He0, Hd. reflexivity.
    + match goal with
      | |- context [synthesize ?w ?m ?p ?a ?b ?c ?d ?e ?k] =>
          rewrite (synthesize_plain w m p a b c d e k Hs);
          destruct (Hbuf k) as [e0 He0]
      end.
      destruct (Herr e0) as [details Hd].
      exists e0, details. rewrite He0, Hd. reflexivity.
  - intros reply Hans.
    destruct (Hpipe _ (fun model => primary_query_behaves w anything model
                (id u) message (fun _ => I) (fun _ => I) (fun _ _ => I)))
      as (model & q & rows & aq & arows & info & pre & _ & _ & _ & _ & Hrep & _).
    rewrite Hrep. clear Hrep.
    destruct (truthy (useStreaming_of body)) eqn:Hs.
    + match goal with
      | |- context [synthesize ?w ?m ?p ?a ?b ?c ?d ?e ?k] =>
          destruct (generateContentStream w m p) as [stream | err] eqn:Hg;
          [ rewrite (synthesize_streams w m p a b c d e k stream Hs Hg)
          | rewrite (synthesize_fallback w m p a b c d e k err Hs Hg);
            rewrite (buffered_answers w m p a b d e (k + 1) reply
                       (Hans _ _ _ _ _ _)) ]
      end.
      * left. reflexivity.
      * right. eexists. reflexivity.
    + match goal with
      | |- context [synthesize ?w ?m ?p ?a ?b ?c ?d ?e ?k] =>
          rewrite (synthesize_plain w m p a b c d e k Hs);
          rewrite (buffered_answers w m p a b d e k reply (Hans _ _ _ _ _ _))
      end.
      right. eexists. reflexivity.
  - intros reply Hex Hans Hs.
    destruct (Hpipe _ (fun model => primary_query_without_sql w anything model
                (id u) message (fun _ => I)
                (fun c m => match Hex c m with
                            | ex_intro _ e (conj He _) => ex_intro _ e He
                            end)))
      as (model & q & rows & aq & arows & info & pre & _ & Hq & _ & _ & Hrep & _).
    inversion Hq; subst q rows. rewrite Hrep. clear Hrep.
    match goal with
    | |- context [synthesize ?w ?m ?p ?a ?b ?c ?d ?e ?k] =>
        rewrite (synthesize_plain w m p a b c d e k Hs);
        rewrite (buffered_answers w m p a b d e k reply (Hans _ _ _ _ _ _))
    end.
    reflexivity.
Qed.

(** C3 amended, on a request no variant can answer and on the request of
    the counterexample. *)
Lemma C3_fatal_paths_witness :
  (exists e0 details,
     reply_of (world buffered_request speechless) =
     Ok (JsonResponse 500 (ErrorBody (all_failed_for_analysis e0) details))) /\
  reply_of (world buffered_request exhausted) =
  Ok (JsonResponse 200
        (ReplyBody three (mkDataInfo (JStr "No SQL generated") 0 false None))).
Proof.
  split.
  - assert (Hacc : accepted (world buffered_request speechless) alice
                     buffered_request count_question)
      by (unfold accepted; repeat split; discriminate).
    assert (Hmiss : cache_missed (world buffered_request speechless) alice
                      buffered_request count_question)
      by (right; reflexivity).
    assert (Hrend : statements_render (world buffered_request speechless))
      by (intros c m [] t H; cbn in H; try exact I;
          (discriminate H || (injection H as <-; vm_compute; reflexivity))).
    destruct (C3_fatal_paths (world buffered_request speechless) alice
                buffered_request count_question Hacc Hmiss eq_refl Hrend)
      as [Hfatal _].
    apply Hfatal.
    + intros c m system msg info s. exists not_found_error.
      split; reflexivity.
    + left. reflexivity.
  - assert (Hacc : accepted (world buffered_request exhausted) alice
                     buffered_request count_question)
      by (unfold accepted; repeat split; discriminate).
    assert (Hmiss : cache_missed (world buffered_request exhausted) alice
                      buffered_request count_question)
      by (right; reflexivity).
    assert (Hrend : statements_render (world buffered_request exhausted))
      by (intros c m [] t H; cbn in H; try exact I; discriminate H).
    destruct (C3_fatal_paths (world buffered_request exhausted) alice
                buffered_request count_question Hacc Hmiss eq_refl Hrend)
      as (_ & _ & Habsorbed).
    apply (Habsorbed three).
    + intros c m. exists not_found_error. split; reflexivity.
    + intros c m system msg info s. reflexivity.
    + reflexivity.
Defined.

End Claims.

(** * Further properties of the route *)

(** ** Facts on text *)

Section Text.

Import JsString.

Lemma prefix_app (p s : string) : prefix p (p ++ s) = true.
Proof.
  induction p as [| a p IH]; simpl; [destruct s; reflexivity |].
  destruct (ascii_dec a a); [exact IH | congruence].
Qed.

Lemma includes_app_l (a s p : string) :
  includes s p = true -> includes (a ++ s) p = true.
Proof.
  intros H. induction a as [| c a IH]; simpl; [exact H |].
  rewrite IH. apply orb_true_r.
Qed.

Lemma includes_here (p s : string) : includes (p ++ s) p = true.
Proof.
  destruct p as [| c p]; [destruct s; reflexivity |].
  change (includes (String c p ++ s) (String c p))
    with (prefix (String c p) (String c p ++ s)
          || includes (p ++ s) (String c p)).
  rewrite prefix_app. reflexivity.
Qed.

(** A text contains what it was assembled around. *)
Lemma includes_middle (a p b : string) : includes (a ++ p ++ b) p = true.
Proof. apply includes_app_l, includes_here. Qed.

Lemma prefix_has f (p s : string) :
  prefix p s = true -> has_char f p = true -> has_char f s = true.
Proof.
  revert s. induction p as [| a p IH]; intros s Hp Hf; [discriminate |].
  destruct s as [| b s]; [discriminate |]. simpl in *.
  destruct (ascii_dec a b) as [-> | _]; [| discriminate].
  apply orb_true_iff in Hf. destruct Hf as [Hf | Hf].
  - rewrite Hf. reflexivity.
  - rewrite (IH s Hp Hf). apply orb_true_r.
Qed.

Lemma includes_has f (s p : string) :
  includes s p = true -> has_char f p = true -> has_char f s = true.
Proof.
  intros Hi Hf. induction s as [| c s IH].
  - destruct p; [discriminate Hf | discriminate Hi].
  - change (includes (String c s) p)
      with (prefix p (String c s) || includes s p) in Hi.
    apply orb_true_iff in Hi. destruct Hi as [Hi | Hi].
    + exact (prefix_has f p _ Hi Hf).
    + simpl. rewrite (IH Hi). apply orb_true_r.
Qed.

Lemma lower_char_not_upper (c : ascii) : is_upper (lower_char c) = false.
Proof. destruct c as [[] [] [] [] [] [] [] []]; reflexivity. Qed.

Lemma toLowerCase_no_upper (s : string) :
  has_char is_upper (toLowerCase s) = false.
Proof.
  induction s as [| c s IH]; simpl; [reflexivity |].
  rewrite lower_char_not_upper. exact IH.
Qed.

Lemma has_char_app f (a b : string) :
  has_char f (a ++ b) = has_char f a || has_char f b.
Proof.
  induction a as [| c a IH]; simpl; [reflexivity |].
  rewrite IH. apply orb_assoc.
Qed.

(** A replacement template without [$] is inserted as it is. *)
Lemma expand_plain (t matched before after : string) caps :
  has_char is_dollar t = false ->
  expand t matched before after caps = t.
Proof.
  induction t as [| c t IH]; intros H; [reflexivity |].
  simpl in H. apply orb_false_iff in H. destruct H as [Hc Ht].
  unfold is_dollar in Hc. apply Ascii.eqb_neq in Hc.
  destruct c as [[] [] [] [] [] [] [] []];
    try (cbn [expand]; rewrite (IH Ht); reflexivity).
  congruence.
Qed.

End Text.

(** ** The user filter *)

Section UserFilter.

Import JsString Js Patterns.

Lemma replace_from_plain (tmpl s : string) :
  replace_from tmpl s = s \/
  exists pre m table post,
    search from_here s = Some (pre, (m, table, post)) /\
    replace_from tmpl s = pre ++ expand tmpl m pre post [table] ++ post.
Proof.
  unfold replace_from.
  destruct (search from_here s) as [[pre [[m table] post]] |]; [right | left].
  - exists pre, m, table, post. split; reflexivity.
  - reflexivity.
Qed.

Lemma from_template (userId m pre post table : string) :
  has_char is_dollar userId = false ->
  expand ("FROM $1 WHERE " ++ user_predicate userId) m pre post [table]
  = "FROM " ++ table ++ " WHERE " ++ user_predicate userId.
Proof.
  intros H. unfold user_predicate. cbn [append expand].
  cbn. rewrite expand_plain; [reflexivity |].
  rewrite has_char_app, H. reflexivity.
Qed.

Lemma where_template (userId m pre post : string) :
  has_char is_dollar userId = false ->
  expand ("WHERE " ++ user_predicate userId ++ " AND ") m pre post []
  = "WHERE " ++ user_predicate userId ++ " AND ".
Proof.
  intros H. apply expand_plain. unfold user_predicate.
  cbn. rewrite !has_char_app, H. reflexivity.
Qed.

(** X1. The filter step only ever adds the predicate: on every statement
    text, for an identifier without [$], it returns the text unchanged or a
    text that contains [user_id = 'identifier']. *)
Theorem X1_filter_adds_only (userId s : string) :
  has_char is_dollar userId = false ->
  exists s',
    ensure_user_filter userId (JStr s) = Ok s' /\
    (s' = s \/ includes s' (user_predicate userId) = true).
Proof.
  intros Hd. unfold ensure_user_filter. cbn [receiver].
  destruct (negb (includes (toLowerCase s) "user_id")
            && negb (includes (toLowerCase s) "where")).
  - destruct (includes (toLowerCase s) "select"); [| eauto].
    eexists. split; [reflexivity |].
    destruct (replace_from_plain ("FROM $1 WHERE " ++ user_predicate userId) s)
      as [-> | (pre & m & table & post & _ & ->)]; [left; reflexivity |].
    right. rewrite (from_template _ _ _ _ _ Hd).
    apply includes_app_l.
    change ("FROM " ++ table ++ " WHERE " ++ user_predicate userId)
      with ("FROM " ++ (table ++ " WHERE " ++ user_predicate userId)).
    rewrite !append_assoc.
    apply includes_app_l, includes_app_l, includes_app_l, includes_here.
  - destruct (includes (toLowerCase s) "where"
              && negb (includes (toLowerCase s) (user_predicate userId)));
      [| eauto].
    eexists. split; [reflexivity |].
    unfold replace_where.
    destruct (search where_here s) as [[pre [m post]] |];
      [| left; reflexivity].
    right. rewrite (where_template _ _ _ _ Hd).
    apply includes_app_l. rewrite !append_assoc.
    apply includes_app_l, includes_here.
Qed.

(** X1, on a Clerk-style identifier and a statement with a [LIMIT]. *)
Lemma X1_filter_adds_only_witness :
  exists s',
    ensure_user_filter "user_2aLiCe" (JStr "SELECT * FROM properties LIMIT 50")
    = Ok s' /\
    (s' = "SELECT * FROM properties LIMIT 50" \/
     includes s' (user_predicate "user_2aLiCe") = true).
Proof.
  apply (X1_filter_adds_only "user_2aLiCe" "SELECT * FROM properties LIMIT 50").
  reflexivity.
Defined.

Lemma where_found (s : string) (r : string * (string * string)) :
  search where_here s = Some r -> includes (toLowerCase s) "where" = true.
Proof.
  revert r. induction s as [| c s IH]; intros r Hw.
  - simpl in Hw. discriminate.
  - change (toLowerCase (String c s))
      with (String (lower_char c) (toLowerCase s)).
    change (includes (String (lower_char c) (toLowerCase s)) "where")
      with (prefix "where" (String (lower_char c) (toLowerCase s))
            || includes (toLowerCase s) "where").
    cbn [search] in Hw.
    destruct (where_here (String c s)) as [[m' post'] |] eqn:Hh.
    + unfold where_here, strip_prefix_ci in Hh.
      change (toLowerCase "WHERE") with "where" in Hh.
      change (toLowerCase (String c s))
        with (String (lower_char c) (toLowerCase s)) in Hh.
      destruct (prefix "where" (String (lower_char c) (toLowerCase s)));
        [reflexivity | discriminate].
    + destruct (search where_here s) as [[pre' a] |] eqn:Hs;
        [| discriminate].
      rewrite (IH _ eq_refl). apply orb_true_r.
Qed.

(** X2. The test for a predicate that is already there compares the
    lower-cased statement with the identifier as it is written.  For an
    identifier with an upper-case letter the test never succeeds: every
    statement with a [WHERE] followed by white space gets
    [user_id = 'identifier' AND] put after its first [WHERE], also when it
    held the predicate already. *)
Theorem X2_mixed_case_identifier (userId s pre m post : string) :
  has_char is_upper userId = true ->
  has_char is_dollar userId = false ->
  search where_here s = Some (pre, (m, post)) ->
  includes (toLowerCase s) (user_predicate userId) = false /\
  ensure_user_filter userId (JStr s)
  = Ok (pre ++ "WHERE " ++ user_predicate userId ++ " AND " ++ post).
Proof.
  intros Hu Hd Hw.
  assert (Hno : includes (toLowerCase s) (user_predicate userId) = false).
  { destruct (includes (toLowerCase s) (user_predicate userId)) eqn:Hi;
      [| reflexivity].
    pose proof (includes_has is_upper _ _ Hi) as H.
    rewrite toLowerCase_no_upper in H. symmetry. apply H.
    unfold user_predicate. rewrite !has_char_app, Hu. apply orb_true_r. }
  split; [exact Hno |].
  pose proof (where_found _ _ Hw) as Hwhere.
  unfold ensure_user_filter. cbn [receiver].
  rewrite Hwhere, Hno. rewrite andb_false_r. cbn [negb andb].
  unfold replace_where. rewrite Hw, (where_template _ _ _ _ Hd).
  rewrite !append_assoc. reflexivity.
Qed.

(** X2, on a statement that is already filtered. *)
Lemma X2_mixed_case_identifier_witness :
  includes
    (toLowerCase "SELECT * FROM properties WHERE user_id = 'user_2aLiCe'")
    (user_predicate "user_2aLiCe") = false /\
  ensure_user_filter "user_2aLiCe"
    (JStr "SELECT * FROM properties WHERE user_id = 'user_2aLiCe'")
  = Ok ("SELECT * FROM properties " ++ "WHERE " ++ user_predicate "user_2aLiCe"
        ++ " AND " ++ "user_id = 'user_2aLiCe'").
Proof.
  apply (X2_mixed_case_identifier "user_2aLiCe"
           "SELECT * FROM properties WHERE user_id = 'user_2aLiCe'"
           "SELECT * FROM properties " "WHERE "
           "user_id = 'user_2aLiCe'");
    reflexivity.
Defined.

Lemma toLowerCase_app (a b : string) :
  toLowerCase (a ++ b) = toLowerCase a ++ toLowerCase b.
Proof.
  unfold toLowerCase. induction a as [| c a IH]; simpl; [reflexivity |].
  rewrite IH. reflexivity.
Qed.

Lemma toLowerCase_fixed (u : string) :
  has_char is_upper u = false -> toLowerCase u = u.
Proof.
  unfold toLowerCase. induction u as [| c u IH]; intros H; [reflexivity |].
  simpl in H. apply orb_false_iff in H. destruct H as [Hc Hu].
  simpl. rewrite (IH Hu). unfold lower_char. rewrite Hc. reflexivity.
Qed.

Lemma includes_lower_middle (a p b : string) :
  toLowerCase p = p -> includes (toLowerCase (a ++ p ++ b)) p = true.
Proof.
  intros H. rewrite !toLowerCase_app, H. apply includes_middle.
Qed.

Lemma includes_lower_keyword (a k b : string) :
  includes (toLowerCase (a ++ k ++ b)) (toLowerCase k) = true.
Proof. rewrite !toLowerCase_app. apply includes_middle. Qed.

Lemma user_predicate_lower (userId : string) :
  has_char is_upper userId = false ->
  toLowerCase (user_predicate userId) = user_predicate userId.
Proof.
  intros H. unfold user_predicate.
  rewrite !toLowerCase_app, (toLowerCase_fixed userId H). reflexivity.
Qed.

(** A statement whose lower-cased text holds [where] and the predicate
    is left as it is. *)
Lemma filter_skips (userId s : string) :
  includes (toLowerCase s) "where" = true ->
  includes (toLowerCase s) (user_predicate userId) = true ->
  ensure_user_filter userId (JStr s) = Ok s.
Proof.
  intros Hw Hp. unfold ensure_user_filter. cbn [receiver].
  rewrite Hw, Hp. rewrite andb_false_r. reflexivity.
Qed.

(** X21. On ASCII text, for an identifier without upper-case letters,
    the filter step is idempotent: a statement it has returned is returned
    unchanged when it is filtered again. *)
Theorem X21_filter_idempotent (userId s s' : string) :
  has_char beyond_ascii userId = false ->
  has_char beyond_ascii s = false ->
  has_char is_upper userId = false ->
  has_char is_dollar userId = false ->
  ensure_user_filter userId (JStr s) = Ok s' ->
  ensure_user_filter userId (JStr s') = Ok s'.
Proof.
  intros _ _ Hu Hd Hs. pose proof Hs as Hs0.
  unfold ensure_user_filter in Hs. cbn [receiver] in Hs.
  pose proof (user_predicate_lower userId Hu) as Hlow.
  remember ("FROM $1 WHERE " ++ user_predicate userId) as tf eqn:Etf.
  remember ("WHERE " ++ user_predicate userId ++ " AND ") as tw eqn:Etw.
  destruct (negb (includes (toLowerCase s) "user_id")
            && negb (includes (toLowerCase s) "where")) eqn:H1.
  - destruct (includes (toLowerCase s) "select") eqn:H2;
      [| injection Hs as <-; exact Hs0].
    destruct (replace_from_plain tf s)
      as [E | (pre & m & table & post & _ & E)];
      rewrite E in Hs; injection Hs as <-; [exact Hs0 |].
    rewrite Etf, (from_template _ _ _ _ _ Hd). apply filter_skips.
    + replace (pre ++ ("FROM " ++ table ++ " WHERE "
                       ++ user_predicate userId) ++ post)
        with ((pre ++ "FROM " ++ table ++ " ") ++ "WHERE"
              ++ (" " ++ user_predicate userId ++ post))
        by (rewrite !append_assoc; reflexivity).
      apply (includes_lower_keyword _ "WHERE").
    + replace (pre ++ ("FROM " ++ table ++ " WHERE "
                       ++ user_predicate userId) ++ post)
        with ((pre ++ "FROM " ++ table ++ " WHERE ")
              ++ user_predicate userId ++ post)
        by (rewrite !append_assoc; reflexivity).
      apply includes_lower_middle. exact Hlow.
  - destruct (includes (toLowerCase s) "where"
              && negb (includes (toLowerCase s) (user_predicate userId)))
      eqn:H2; [| injection Hs as <-; exact Hs0].
    unfold replace_where in Hs.
    destruct (search where_here s) as [[pre [m post]] |];
      injection Hs as <-; [| exact Hs0].
    rewrite Etw, (where_template _ _ _ _ Hd). apply filter_skips.
    + replace (pre ++ ("WHERE " ++ user_predicate userId ++ " AND ") ++ post)
        with (pre ++ "WHERE"
              ++ (" " ++ user_predicate userId ++ " AND " ++ post))
        by (rewrite !append_assoc; reflexivity).
      apply (includes_lower_keyword _ "WHERE").
    + replace (pre ++ ("WHERE " ++ user_predicate userId ++ " AND ") ++ post)
        with ((pre ++ "WHERE ") ++ user_predicate userId
              ++ (" AND " ++ post))
        by (rewrite !append_assoc; reflexivity).
      apply includes_lower_middle. exact Hlow.
Qed.

(** X21, on a statement that gets its filter in the first pass. *)
Lemma X21_filter_idempotent_witness :
  ensure_user_filter "user_2alice"
    (JStr "SELECT * FROM properties WHERE user_id = 'user_2alice' LIMIT 50")
  = Ok "SELECT * FROM properties WHERE user_id = 'user_2alice' LIMIT 50".
Proof.
  assert (Ha : has_char beyond_ascii "user_2alice" = false) by reflexivity.
  assert (Hb : has_char beyond_ascii "SELECT * FROM properties LIMIT 50"
               = false) by reflexivity.
  assert (Hu : has_char is_upper "user_2alice" = false) by reflexivity.
  assert (Hd : has_char is_dollar "user_2alice" = false) by reflexivity.
  assert (Hs : ensure_user_filter "user_2alice"
                 (JStr "SELECT * FROM properties LIMIT 50")
               = Ok "SELECT * FROM properties WHERE user_id = 'user_2alice' LIMIT 50")
    by (vm_compute; reflexivity).
  exact (X21_filter_idempotent _ _ _ Ha Hb Hu Hd Hs).
Defined.

End UserFilter.

(** ** The fallback over the alternative models *)

Section Fallback.

Import JsString Js.

Variable w : World.

(** The loop stops at the first model that answers: the models before it
    were asked once each, the ones after it are not asked. *)
Lemma try_alternatives_first p onSuccess evs pre m post t :
  (forall t c, onSuccess t c = (Ok tt, evs t)) ->
  forall c,
    all_fail w p pre c ->
    generateContent w (c + List.length pre) m p = Ok t ->
    try_alternatives w p onSuccess (pre ++ m :: post) c
    = (Ok (Some t), (attempts p (pre ++ [m]) ++ evs t)%list).
Proof.
  intros Hs. induction pre as [| a pre IH]; intros c Hfail Hm.
  - simpl in Hm. rewrite Nat.add_0_r in Hm.
    cbn [app try_alternatives].
    apply try_catch_ok.
    assert (Hg : generate w m p c = (Ok t, [EvGenerate m p]))
      by (unfold generate, call; rewrite Hm; reflexivity).
    rewrite (bind_ok _ _ Hg). cbn [fst snd List.length].
    assert (Ho : onSuccess t (c + 1) = (Ok tt, evs t)) by apply Hs.
    rewrite (bind_ok _ _ Ho). unfold ret. cbn [fst snd attempts map app].
    rewrite app_nil_r. reflexivity.
  - destruct Hfail as [[e He] Hrest].
    cbn [app try_alternatives].
    assert (Hg : generate w a p c = (Throw e, [EvGenerate a p]))
      by (unfold generate, call; rewrite He; reflexivity).
    rewrite (try_catch_throw _ _ (bind_throw _ _ Hg)).
    cbn [List.length].
    rewrite (IH (c + 1) Hrest).
    + reflexivity.
    + rewrite <- Hm. f_equal. simpl. lia.
Qed.

(** When no model answers the loop asked each of them once. *)
Lemma try_alternatives_none p onSuccess models :
  forall c,
    all_fail w p models c ->
    try_alternatives w p onSuccess models c = (Ok None, attempts p models).
Proof.
  induction models as [| a rest IH]; intros c Hfail.
  - reflexivity.
  - destruct Hfail as [[e He] Hrest].
    cbn [try_alternatives].
    assert (Hg : generate w a p c = (Throw e, [EvGenerate a p]))
      by (unfold generate, call; rewrite He; reflexivity).
    rewrite (try_catch_throw _ _ (bind_throw _ _ Hg)).
    cbn [List.length]. rewrite (IH (c + 1) Hrest). reflexivity.
Qed.

(** The loop ends in one of these two ways. *)
Lemma try_alternatives_cases p models c :
  all_fail w p models c \/
  exists pre m post t,
    models = (pre ++ m :: post)%list /\
    all_fail w p pre c /\
    generateContent w (c + List.length pre) m p = Ok t.
Proof.
  revert c. induction models as [| a rest IH]; intros c.
  - left. exact I.
  - destruct (generateContent w c a p) as [t | e] eqn:Ha.
    + right. exists [], a, rest, t. simpl. rewrite Nat.add_0_r. auto.
    + destruct (IH (c + 1)) as [Hall | (pre & m & post & t & -> & Hpre & Hm)].
      * left. split; eauto.
      * right. exists (a :: pre), m, post, t. repeat split; eauto.
        rewrite <- Hm. f_equal. simpl. lia.
Qed.

(** X3. SQL generation falls back in the order of the list.  When the
    model of the request is reported missing, the alternatives are asked
    one after the other until one answers; the ones after it are never
    asked, and an empty answer ends the loop as well but fails the
    generation. *)
Theorem X3_sql_fallback_order (model : string) (p : Prompt) (e : Exn)
  (pre post : list string) (m t : string) (c : nat) :
  generateContent w c model p = Throw e ->
  not_found (error_text e) = true ->
  altModels = (pre ++ m :: post)%list ->
  all_fail w p pre (c + 1) ->
  generateContent w (c + 1 + List.length pre) m p = Ok t ->
  generate_sql w model p c
  = (match t with
     | EmptyString =>
         Throw (Error
           ("All Gemini models failed. Please check your API key and available models. Original error: "
            ++ error_text e))
     | _ => Ok t
     end,
     EvGenerate model p :: attempts p (pre ++ [m])).
Proof.
  intros He Hnf Halt Hpre Hm. unfold generate_sql.
  assert (Hg : generate w model p c = (Throw e, [EvGenerate model p]))
    by (unfold generate, call; rewrite He; reflexivity).
  rewrite (try_catch_throw _ _ Hg). rewrite Hnf. cbn [List.length].
  rewrite Halt.
  assert (Hloop :
    try_alternatives w p (fun _ => ret tt) (pre ++ m :: post) (c + 1)
    = (Ok (Some t), (attempts p (pre ++ [m]) ++ [])%list)).
  { apply try_alternatives_first with (evs := fun _ => []);
      [reflexivity | exact Hpre | exact Hm]. }
  rewrite (bind_ok _ _ Hloop). cbn [fst snd].
  rewrite !app_nil_r.
  destruct t; unfold throw, ret; cbn [fst snd]; rewrite app_nil_r;
    reflexivity.
Qed.

(** X4. The buffered answer falls back in the same order, and every
    answer an alternative gives is written to the cache at once: an empty
    answer is cached before the generation fails on it. *)
Theorem X4_reply_fallback_caches (model : string) (p : Prompt) (e : Exn)
  (userId message : string) (sqlQuery : JsValue) (count : nat)
  (pre post : list string) (m t : string) (c : nat) :
  generateContent w c model p = Throw e ->
  not_found (error_text e) = true ->
  altModels = (pre ++ m :: post)%list ->
  all_fail w p pre (c + 1) ->
  generateContent w (c + 1 + List.length pre) m p = Ok t ->
  generate_reply w model p userId message sqlQuery count c
  = (match t with
     | EmptyString =>
         Throw (Error
           ("All Gemini models failed for analysis. Please check your API key and available models. Original error: "
            ++ error_text e))
     | _ => Ok t
     end,
     (EvGenerate model p :: attempts p (pre ++ [m]) ++
      [EvCacheSet userId message t (or_else sqlQuery JUndefined) count])%list).
Proof.
  intros He Hnf Halt Hpre Hm. unfold generate_reply.
  assert (Hg : generate w model p c = (Throw e, [EvGenerate model p]))
    by (unfold generate, call; rewrite He; reflexivity).
  rewrite (try_catch_throw _ _ (bind_throw _ _ Hg)). rewrite Hnf.
  cbn [List.length]. rewrite Halt.
  assert (Hloop :
    try_alternatives w p
      (fun reply => setCachedResponse userId message reply sqlQuery count)
      (pre ++ m :: post) (c + 1)
    = (Ok (Some t),
       (attempts p (pre ++ [m]) ++
        [EvCacheSet userId message t (or_else sqlQuery JUndefined) count])%list)).
  { apply try_alternatives_first
      with (evs := fun t => [EvCacheSet userId message t
                               (or_else sqlQuery JUndefined) count]);
      [reflexivity | exact Hpre | exact Hm]. }
  rewrite (bind_ok _ _ Hloop). cbn [fst snd].
  destruct t; unfold throw, ret; cbn [fst snd]; rewrite app_nil_r;
    reflexivity.
Qed.

(** X5. An error that does not read as a missing model is not retried:
    the model was asked once, no alternative is asked, nothing is cached,
    and the error is rethrown under the prefix of the stage. *)
Theorem X5_other_errors_not_retried (model : string) (p : Prompt) (e : Exn)
  (userId message : string) (sqlQuery : JsValue) (count : nat) (c : nat) :
  generateContent w c model p = Throw e ->
  not_found (error_text e) = false ->
  generate_sql w model p c
  = (Throw (Error ("Failed to generate SQL query: " ++ error_text e)),
     [EvGenerate model p]) /\
  generate_reply w model p userId message sqlQuery count c
  = (Throw (Error ("Failed to generate analysis: " ++ error_text e)),
     [EvGenerate model p]).
Proof.
  intros He Hnf.
  assert (Hg : generate w model p c = (Throw e, [EvGenerate model p]))
    by (unfold generate, call; rewrite He; reflexivity).
  split.
  - unfold generate_sql. rewrite (try_catch_throw _ _ Hg), Hnf.
    reflexivity.
  - unfold generate_reply.
    rewrite (try_catch_throw _ _ (bind_throw _ _ Hg)), Hnf. reflexivity.
Qed.

End Fallback.

Section FallbackWitnesses.

Import JsString Js Examples.

(** X3, when only the fourth alternative exists. *)
Lemma X3_sql_fallback_order_witness :
  generate_sql lonely "gemini-2.0-flash" sample_prompt 0
  = (Ok three,
     [EvGenerate "gemini-2.0-flash" sample_prompt;
      EvGenerate "models/gemini-pro" sample_prompt;
      EvGenerate "gemini-pro" sample_prompt;
      EvGenerate "models/gemini-1.5-flash" sample_prompt;
      EvGenerate "gemini-1.5-flash" sample_prompt]).
Proof.
  assert (H1 : generateContent lonely 0 "gemini-2.0-flash" sample_prompt
               = Throw not_found_error) by reflexivity.
  assert (H2 : not_found (error_text not_found_error) = true) by reflexivity.
  assert (H3 : altModels =
               (["models/gemini-pro"; "gemini-pro"; "models/gemini-1.5-flash"]
                ++ "gemini-1.5-flash"
                   :: ["models/gemini-1.5-pro"; "gemini-1.5-pro"])%list)
    by reflexivity.
  assert (H4 : all_fail lonely sample_prompt
                 ["models/gemini-pro"; "gemini-pro"; "models/gemini-1.5-flash"]
                 (0 + 1))
    by (repeat split; eexists; reflexivity).
  assert (H5 : generateContent lonely
                 (0 + 1 + List.length
                    ["models/gemini-pro"; "gemini-pro";
                     "models/gemini-1.5-flash"])
                 "gemini-1.5-flash" sample_prompt = Ok three) by reflexivity.
  exact (X3_sql_fallback_order lonely _ _ _ _ _ _ _ _ H1 H2 H3 H4 H5).
Defined.

(** X4, when the second alternative answers with an empty text. *)
Lemma X4_reply_fallback_caches_witness :
  generate_reply silent "gemini-2.0-flash" sample_prompt "u" "m" JNull 0 0
  = (Throw (Error
       ("All Gemini models failed for analysis. Please check your API key and available models. Original error: "
        ++ error_text not_found_error)),
     [EvGenerate "gemini-2.0-flash" sample_prompt;
      EvGenerate "models/gemini-pro" sample_prompt;
      EvGenerate "gemini-pro" sample_prompt;
      EvCacheSet "u" "m" EmptyString JUndefined 0]).
Proof.
  assert (H1 : generateContent silent 0 "gemini-2.0-flash" sample_prompt
               = Throw not_found_error) by reflexivity.
  assert (H2 : not_found (error_text not_found_error) = true) by reflexivity.
  assert (H3 : altModels =
               (["models/gemini-pro"] ++ "gemini-pro"
                   :: ["models/gemini-1.5-flash"; "gemini-1.5-flash";
                       "models/gemini-1.5-pro"; "gemini-1.5-pro"])%list)
    by reflexivity.
  assert (H4 : all_fail silent sample_prompt ["models/gemini-pro"] (0 + 1))
    by (repeat split; eexists; reflexivity).
  assert (H5 : generateContent silent
                 (0 + 1 + List.length ["models/gemini-pro"])
                 "gemini-pro" sample_prompt = Ok EmptyString) by reflexivity.
  exact (X4_reply_fallback_caches silent _ _ _ "u" "m" JNull 0 _ _ _ _ _
           H1 H2 H3 H4 H5).
Defined.

(** X5, on a quota error. *)
Lemma X5_other_errors_not_retried_witness :
  generate_sql (world buffered_request over_quota) "gemini-pro" sample_prompt 0
  = (Throw (Error
       "Failed to generate SQL query: [429 Too Many Requests] quota exceeded"),
     [EvGenerate "gemini-pro" sample_prompt]) /\
  generate_reply (world buffered_request over_quota) "gemini-pro" sample_prompt
    "u" "m" JNull 0 0
  = (Throw (Error
       "Failed to generate analysis: [429 Too Many Requests] quota exceeded"),
     [EvGenerate "gemini-pro" sample_prompt]).
Proof.
  assert (H1 : generateContent (world buffered_request over_quota) 0
                 "gemini-pro" sample_prompt
               = Throw (Error "[429 Too Many Requests] quota exceeded"))
    by reflexivity.
  assert (H2 : not_found
                 (error_text (Error "[429 Too Many Requests] quota exceeded"))
               = false) by reflexivity.
  exact (X5_other_errors_not_retried (world buffered_request over_quota)
           _ _ _ "u" "m" JNull 0 0 H1 H2).
Defined.

End FallbackWitnesses.

(** ** What a request leaves behind *)

Section Outcome.

Import JsString Js.

Variable w : World.

Lemma generate_reply_cached model p userId message sqlQuery count c reply :
  fst (generate_reply w model p userId message sqlQuery count c) = Ok reply ->
  In (EvCacheSet userId message reply (or_else sqlQuery JUndefined) count)
     (snd (generate_reply w model p userId message sqlQuery count c)).
Proof.
  destruct (generateContent w c model p) as [t | e] eqn:Hgen.
  - unfold generate_reply, try_catch, bind, generate, call,
      setCachedResponse, emit, ret.
    rewrite Hgen. cbn. intros [= ->]. auto.
  - assert (Hg : generate w model p c = (Throw e, [EvGenerate model p]))
      by (unfold generate, call; rewrite Hgen; reflexivity).
    unfold generate_reply.
    rewrite (try_catch_throw _ _ (bind_throw _ _ Hg)).
    destruct (not_found (error_text e)); [| discriminate].
    cbn [List.length fst snd].
    destruct (try_alternatives_cases w p altModels (c + 1))
      as [Hall | (pre & m & post & t & Halt & Hpre & Hm)].
    + rewrite (bind_ok _ _ (try_alternatives_none w p _ _ _ Hall)).
      cbn. discriminate.
    + rewrite Halt.
      rewrite (bind_ok _ _
                 (try_alternatives_first w p _
                    (fun t => [EvCacheSet userId message t
                                 (or_else sqlQuery JUndefined) count])
                    pre m post t (fun _ _ => eq_refl) _ Hpre Hm)).
      cbn [fst snd]. destruct t as [| a t']; [discriminate |].
      cbn [fst snd ret]. intros [= <-].
      right. rewrite app_nil_r. apply in_or_app. right.
      apply in_or_app. right. left. reflexivity.
Qed.

Lemma buffered_outcome model p userId message sqlQuery rows c r :
  fst (buffered w model p userId message sqlQuery rows c) = Ok r ->
  exists reply,
    r = JsonResponse 200 (ReplyBody reply (dataInfo_of sqlQuery rows)) /\
    In (EvCacheSet userId message reply (or_else sqlQuery JUndefined)
          (List.length rows))
       (snd (buffered w model p userId message sqlQuery rows c)).
Proof.
  unfold buffered.
  pose proof (generate_reply_cached model p userId message sqlQuery
                (List.length rows) c) as Hc.
  destruct (generate_reply w model p userId message sqlQuery
              (List.length rows) c) as [[reply | e] l] eqn:Hg.
  - rewrite (bind_ok _ _ Hg). cbn [fst snd ret]. intros [= <-].
    exists reply. split; [reflexivity |].
    rewrite app_nil_r. apply (Hc reply). reflexivity.
  - rewrite (bind_throw _ _ Hg). discriminate.
Qed.

Lemma synthesize_outcome model p userId message us sqlQuery rows c r :
  fst (synthesize w model p userId message us sqlQuery rows c) = Ok r ->
  r = StreamResponse \/
  exists reply,
    r = JsonResponse 200 (ReplyBody reply (dataInfo_of sqlQuery rows)) /\
    In (EvCacheSet userId message reply (or_else sqlQuery JUndefined)
          (List.length rows))
       (snd (synthesize w model p userId message us sqlQuery rows c)).
Proof.
  destruct (truthy us) eqn:Hus.
  - destruct (generateContentStream w model p) as [stream | e] eqn:Hs.
    + rewrite (synthesize_streams w _ _ _ _ _ _ _ _ _ Hus Hs).
      intros [= <-]. left. reflexivity.
    + rewrite (synthesize_fallback w _ _ _ _ _ _ _ _ _ Hus Hs).
      cbn [fst snd]. intros H.
      destruct (buffered_outcome _ _ _ _ _ _ _ _ H) as (reply & -> & Hin).
      right. exists reply. split; [reflexivity | right; exact Hin].
  - rewrite (synthesize_plain w _ _ _ _ _ _ _ _ Hus). intros H.
    destruct (buffered_outcome _ _ _ _ _ _ _ _ H) as (reply & -> & Hin).
    right. exists reply. auto.
Qed.

(** The synthesis touches the cache only to write the entry of the
    request. *)
Lemma synthesize_writes model p userId message us sqlQuery rows c :
  Forall (writes_entry userId message sqlQuery (List.length rows))
    (snd (synthesize w model p userId message us sqlQuery rows c)).
Proof.
  assert (Hb : forall c,
    Forall (writes_entry userId message sqlQuery (List.length rows))
      (snd (buffered w model p userId message sqlQuery rows c))).
  { intros c'.
    apply (buffered_behaves w
             (writes_entry userId message sqlQuery (List.length rows))
             model p userId message sqlQuery rows).
    - intros m. exact I.
    - intros reply. repeat split. }
  destruct (truthy us) eqn:Hus.
  - destruct (generateContentStream w model p) as [stream | e] eqn:Hs.
    + rewrite (synthesize_streams w _ _ _ _ _ _ _ _ _ Hus Hs).
      cbn [snd]. constructor; [exact I |]. unfold channel.
      apply Forall_app. split.
      * apply Forall_forall. intros e He. apply in_map_iff in He.
        destruct He as (t & <- & _). exact I.
      * destruct (failure stream); repeat constructor.
    + rewrite (synthesize_fallback w _ _ _ _ _ _ _ _ _ Hus Hs).
      cbn [snd]. constructor; [exact I | apply Hb].
  - rewrite (synthesize_plain w _ _ _ _ _ _ _ _ Hus). apply Hb.
Qed.

Lemma gathering_no_cache e : gathering e -> cache_key e = None.
Proof. destruct e; simpl; try reflexivity; intros []. Qed.

Lemma gathering_no_synthesis e : gathering e -> is_synthesis e = false.
Proof.
  destruct e as [ | | | | | m p | m p | | | | ]; simpl; try reflexivity;
    try (intros []); destruct p; try reflexivity; intros [].
Qed.

(** The page-context stage starts by asking the model, whenever the page
    context is truthy and converts to text. *)
Lemma context_query_asks model userId pc c :
  truthy pc = true ->
  convertible pc = true ->
  exists l,
    snd (context_query w model userId pc c)
    = EvGenerate model (AutoQueryPrompt pc (getDatabaseSchema w) userId) :: l.
Proof.
  intros Ht Hc. unfold context_query. rewrite Ht.
  unfold bind at 1, try_catch. rewrite bind_lift.
  unfold ToString. rewrite Hc.
  unfold bind at 1, generate, call.
  destruct (generateContent w c model
              (AutoQueryPrompt pc (getDatabaseSchema w) userId)) as [t | e].
  - cbn [ret fst snd app List.length].
    match goal with
    | |- context [let '(r, l2) := ?x in _] => destruct x as [r l2]
    end.
    eexists. reflexivity.
  - cbn [ret fst snd app List.length]. eexists. reflexivity.
Qed.

(** It makes no call when the page context does not convert. *)
Lemma context_query_silent model userId pc c :
  convertible pc = false ->
  context_query w model userId pc c = (Ok (JStr EmptyString, []), []).
Proof.
  intros Hc. unfold context_query.
  destruct (truthy pc); [| reflexivity].
  unfold bind at 1, try_catch. rewrite bind_lift.
  unfold ToString. rewrite Hc. reflexivity.
Qed.

(** Building the prompt throws when the page context is neither falsy
    nor a string. *)
Lemma analysisPrompt_untyped message pc pd rows arows q aq :
  page_typed pc = false ->
  exists e, analysisPrompt w message pc pd rows arows q aq = Throw e.
Proof.
  unfold page_typed, analysisPrompt, pageContextInfo. intros H.
  apply orb_false_iff in H. destruct H as [Ht Hs].
  apply negb_false_iff in Ht. rewrite Ht.
  destruct (ToString pc) as [v | e]; [| eauto].
  destruct pc; try discriminate Hs; cbn [receiver]; eauto.
Qed.

(** The listing and the primary step make no call of the page-context
    step. *)
Lemma before_page_calls u message c model l0 q rows l1 :
  modelName w c = (Ok model, l0) ->
  primary_query w model (id u) message (c + List.length l0)
  = (Ok (q, rows), l1) ->
  Forall (fun e => page_call e = false) (l0 ++ l1).
Proof.
  intros R0 R1.
  destruct (behaves_total c
              (modelName_behaves w (fun e => page_call e = false) eq_refl))
    as (model' & l0' & R0' & _ & F0).
  rewrite R0 in R0'. injection R0' as <- <-.
  destruct (behaves_total (c + List.length l0)
              (primary_query_behaves w (fun e => page_call e = false)
                 model (id u) message
                 (fun _ => eq_refl) (fun _ => eq_refl) (fun _ _ => eq_refl)))
    as (r & l1' & R1' & _ & F1).
  rewrite R1 in R1'. injection R1' as _ <-.
  apply Forall_app. split; assumption.
Qed.

(** The stages of [answer]: the three gathering steps return, and the
    synthesis runs on the prompt built from what they returned, unless
    building it throws. *)
Lemma answer_stages u message us pc pd c :
  exists model l0 q rows l1 aq arows l2,
    modelName w c = (Ok model, l0) /\
    primary_query w model (id u) message (c + List.length l0)
    = (Ok (q, rows), l1) /\
    context_query w model (id u) pc (c + List.length l0 + List.length l1)
    = (Ok (aq, arows), l2) /\
    Forall gathering (l0 ++ l1 ++ l2) /\
    fetched w rows /\
    answer w u message us pc pd c =
    match analysisPrompt w message pc pd rows arows q aq with
    | Ok prompt =>
        (fst (synthesize w model prompt (id u) message us q rows
                (c + List.length (l0 ++ l1 ++ l2))),
         ((l0 ++ l1 ++ l2) ++
          snd (synthesize w model prompt (id u) message us q rows
                 (c + List.length (l0 ++ l1 ++ l2))))%list)
    | Throw e => (Throw e, (l0 ++ l1 ++ l2)%list)
    end.
Proof.
  destruct (behaves_total c (modelName_behaves w gathering I))
    as (model & l0 & R0 & _ & F0).
  destruct (behaves_total (c + List.length l0)
              (primary_query_behaves w gathering model (id u) message
                 (fun _ => I) (fun _ => I) (fun _ _ => I)))
    as ([q rows] & l1 & R1 & Hq & F1).
  destruct (behaves_total (c + List.length l0 + List.length l1)
              (context_query_behaves w gathering model (id u) pc
                 (fun _ => I) (fun _ H => H) (fun _ _ => I)))
    as ([aq arows] & l2 & R2 & _ & F2).
  pose proof (answer_steps w u message us pc pd c _ _ _ _ _ _ _ _ R0 R1 R2)
    as Hrun.
  exists model, l0, q, rows, l1, aq, arows, l2.
  repeat (split; [assumption |]).
  split.
  { apply Forall_app. split; [exact F0 |].
    apply Forall_app. split; assumption. }
  split; [exact Hq |].
  rewrite Hrun.
  destruct (analysisPrompt w message pc pd rows arows q aq); [| reflexivity].
  cbv zeta. rewrite !length_app, !Nat.add_assoc, <- !app_assoc. reflexivity.
Qed.

End Outcome.

Section Requests.

Import JsString Js.

Variable w : World.

(** An accepted request that the cache does not answer, by its stages. *)
Lemma accepted_stages u body message :
  accepted w u body message ->
  cache_missed w u body message ->
  exists model l0 q rows l1 aq arows l2,
    let n := List.length (gate_calls u body message) in
    let pre := (l0 ++ l1 ++ l2)%list in
    modelName w n = (Ok model, l0) /\
    primary_query w model (id u) message (n + List.length l0)
    = (Ok (q, rows), l1) /\
    context_query w model (id u) (pageContext_of body)
      (n + List.length l0 + List.length l1) = (Ok (aq, arows), l2) /\
    Forall gathering pre /\
    fetched w rows /\
    POST w 0 =
    match analysisPrompt w message (pageContext_of body) (pageData_of body)
            rows arows q aq with
    | Ok prompt =>
        (Ok (match fst (synthesize w model prompt (id u) message
                          (useStreaming_of body) q rows
                          (n + List.length pre)) with
             | Ok r => r
             | Throw e => internal_error w e
             end),
         (gate_calls u body message ++ pre ++
          snd (synthesize w model prompt (id u) message
                 (useStreaming_of body) q rows (n + List.length pre)))%list)
    | Throw e =>
        (Ok (internal_error w e), (gate_calls u body message ++ pre)%list)
    end.
Proof.
  intros Hacc Hmiss.
  pose proof (POST_run Hacc Hmiss) as Hrun. cbv zeta in Hrun.
  destruct (answer_stages w u message (useStreaming_of body)
              (pageContext_of body) (pageData_of body)
              (List.length (gate_calls u body message)))
    as (model & l0 & q & rows & l1 & aq & arows & l2
        & R0 & R1 & R2 & Hpre & Hf & Ha).
  exists model, l0, q, rows, l1, aq, arows, l2. cbv zeta.
  repeat (split; [assumption |]).
  rewrite Hrun, Ha.
  destruct (analysisPrompt w message (pageContext_of body)
              (pageData_of body) rows arows q aq); reflexivity.
Qed.

(** An accepted request ends in one of three ways. *)
Lemma accepted_outcome u body message :
  accepted w u body message ->
  (exists entry,
     truthy (useStreaming_of body) = false /\
     getCachedResponse w (id u) message = Some entry /\
     POST w 0 =
     (Ok (JsonResponse 200
            (CachedBody (response entry)
               (if development w
                then Some (or_else (sqlQuery entry) (JStr "No SQL generated"),
                           resultCount entry)
                else None))),
      [EvCurrentUser; EvRequestJson; EvCacheGet (id u) message])) \/
  (exists pre e,
     cache_missed w u body message /\
     Forall gathering pre /\
     POST w 0 = (Ok (internal_error w e),
                 (gate_calls u body message ++ pre)%list)) \/
  (exists pre model p q rows c,
     cache_missed w u body message /\
     Forall gathering pre /\
     fetched w rows /\
     POST w 0 =
     (Ok (match fst (synthesize w model p (id u) message
                       (useStreaming_of body) q rows c) with
          | Ok r => r
          | Throw e => internal_error w e
          end),
      (gate_calls u body message ++ pre ++
       snd (synthesize w model p (id u) message (useStreaming_of body)
              q rows c))%list)).
Proof.
  intros Hacc.
  destruct (POST_accepted w u body message Hacc)
    as [(entry & Hs & Hc & Hrun) | (Hmiss & _)].
  - left. exists entry. auto.
  - right.
    destruct (accepted_stages u body message Hacc Hmiss)
      as (model & l0 & q & rows & l1 & aq & arows & l2
          & _ & _ & _ & Hpre & Hf & Hrun).
    cbv zeta in Hrun.
    destruct (analysisPrompt w message (pageContext_of body)
                (pageData_of body) rows arows q aq) as [p | e].
    + right. exists (l0 ++ l1 ++ l2)%list, model, p, q, rows.
      eexists. eauto 6.
    + left. exists (l0 ++ l1 ++ l2)%list, e. auto.
Qed.

Lemma gate_calls_no_synthesis u body message :
  Forall (fun e => is_synthesis e = false) (gate_calls u body message).
Proof.
  unfold gate_calls. destruct (truthy (useStreaming_of body));
    repeat constructor.
Qed.

Lemma gate_calls_keys u body message e k :
  In e (gate_calls u body message) ->
  cache_key e = Some k -> k = (id u, message).
Proof.
  unfold gate_calls. intros Hin Hk.
  destruct Hin as [<- | [<- | Hin]]; try discriminate.
  destruct (truthy (useStreaming_of body)); [destruct Hin |].
  destruct Hin as [<- | []]. simpl in Hk. congruence.
Qed.

End Requests.

(** ** The responses of the route *)

Section Responses.

Import JsString Js Examples.

(** X6. The handler always responds, and in one of these shapes: a
    stream; a reply or a cached reply under 200; an error body with a
    non-empty error under 400, 401 or 500.  Only a 500 in development
    carries details. *)
Theorem X6_responses (w : World) :
  exists r,
    reply_of w = Ok r /\
    match r with
    | StreamResponse => True
    | JsonResponse status (ErrorBody error details) =>
        error <> EmptyString /\
        (status = 400 \/ status = 401 \/ status = 500) /\
        (details <> None -> status = 500 /\ development w = true)
    | JsonResponse status _ => status = 200
    end.
Proof.
  assert (Hie : forall e,
    match internal_error w e with
    | StreamResponse => True
    | JsonResponse status (ErrorBody error details) =>
        error <> EmptyString /\
        (status = 400 \/ status = 401 \/ status = 500) /\
        (details <> None -> status = 500 /\ development w = true)
    | JsonResponse status _ => status = 200
    end).
  { intros e. unfold internal_error.
    split; [destruct (exn_message e); discriminate |].
    split; [auto |].
    destruct (development w); [auto | congruence]. }
  unfold reply_of.
  destruct (POST_gates w)
    as [[_ ->] | [(e & _ & ->) | [(u & _ & _ & ->) | [(u & e & _ & _ & _ & ->)
       | [(u & body & m & _ & _ & _ & _ & _ & ->) | (u & body & message & Hacc)]]]]];
    cbn [fst]; try (eexists; split; [reflexivity |]).
  - repeat split; auto; try discriminate; try congruence.
  - apply Hie.
  - repeat split; auto; try discriminate; try congruence.
  - apply Hie.
  - repeat split; auto; try discriminate; try congruence.
  - destruct (accepted_outcome w u body message Hacc)
      as [(entry & _ & _ & ->) | [(pre & e & _ & _ & ->)
         | (pre & model & p & q & rows & c & _ & _ & _ & ->)]];
      cbn [fst]; eexists; (split; [reflexivity |]).
    + reflexivity.
    + apply Hie.
    + destruct (fst (synthesize w model p (id u) message
                       (useStreaming_of body) q rows c)) as [r | e] eqn:Hr.
      * destruct (synthesize_outcome w _ _ _ _ _ _ _ _ _ Hr)
          as [-> | (reply & -> & _)]; [exact I | reflexivity].
      * apply Hie.
Qed.

(** X6, on a request without a message. *)
Lemma X6_responses_witness :
  exists r,
    reply_of (world (JObj []) obedient) = Ok r /\
    match r with
    | StreamResponse => True
    | JsonResponse status (ErrorBody error details) =>
        error <> EmptyString /\
        (status = 400 \/ status = 401 \/ status = 500) /\
        (details <> None ->
         status = 500 /\ development (world (JObj []) obedient) = true)
    | JsonResponse status _ => status = 200
    end.
Proof.
  exact (X6_responses (world (JObj []) obedient)).
Defined.

(** X7. The handler answers 401 exactly when Clerk reports nobody signed
    in; it has then made no other call.  The request body is read exactly
    when somebody is signed in and the API key is set. *)
Theorem X7_identity_first (w : World) :
  ((exists body, reply_of w = Ok (JsonResponse 401 body))
   <-> currentUser w = Ok None) /\
  (currentUser w = Ok None ->
   reply_of w = Ok (JsonResponse 401 (ErrorBody "Unauthorized" None)) /\
   trace w = [EvCurrentUser]) /\
  (In EvRequestJson (trace w)
   <-> (exists u, currentUser w = Ok (Some u)) /\
       env_set (GEMINI_API_KEY w) = true).
Proof.
  assert (Hie : forall e body, internal_error w e <> JsonResponse 401 body)
    by (intros e body; unfold internal_error; congruence).
  unfold reply_of, trace.
  destruct (POST_gates w)
    as [[Hu Hrun] | [(e & Hu & Hrun) | [(u & Hu & Hk & Hrun)
       | [(u & e & Hu & Hk & _ & Hrun)
       | [(u & body & m & Hu & Hk & _ & _ & _ & Hrun)
       | (u & body & message & Hacc)]]]]].
  - rewrite Hrun. cbn [fst snd]. split; [| split].
    + split; [auto | eauto].
    + auto.
    + split.
      * intros [H | []]. discriminate.
      * intros [[u Hu'] _]. congruence.
  - rewrite Hrun. cbn [fst snd]. split; [| split].
    + split; [| congruence]. intros [b H]. exfalso. apply (Hie e b). congruence.
    + congruence.
    + split.
      * intros [H | []]. discriminate.
      * intros [[u Hu'] _]. congruence.
  - rewrite Hrun. cbn [fst snd]. split; [| split].
    + split; [| congruence]. intros [body H]. discriminate.
    + congruence.
    + split.
      * intros [H | []]. discriminate.
      * intros [_ Hk']. congruence.
  - rewrite Hrun. cbn [fst snd]. split; [| split].
    + split; [| congruence]. intros [b H]. exfalso. apply (Hie e b). congruence.
    + congruence.
    + split; [eauto | intros _; right; left; reflexivity].
  - rewrite Hrun. cbn [fst snd]. split; [| split].
    + split; [| congruence]. intros [b H]. discriminate.
    + congruence.
    + split; [eauto | intros _; right; left; reflexivity].
  - pose proof Hacc as (Hu & Hk & _).
    assert (Hin : forall l, In EvRequestJson (gate_calls u body message ++ l))
      by (intros l; right; left; reflexivity).
    destruct (accepted_outcome w u body message Hacc)
      as [(entry & _ & _ & Hrun) | [(pre & e & _ & _ & Hrun)
         | (pre & model & p & q & rows & c & _ & _ & _ & Hrun)]];
      rewrite Hrun; cbn [fst snd]; (split; [| split]);
      try congruence;
      try (split; [eauto | intros _; first [apply Hin
                                          | right; left; reflexivity]]).
    + split; [| congruence]. intros [b H]. discriminate.
    + split; [| congruence]. intros [b H]. exfalso. apply (Hie e b). congruence.
    + split; [| congruence]. intros [b H].
      destruct (fst (synthesize w model p (id u) message
                       (useStreaming_of body) q rows c)) as [r | e] eqn:Hr.
      * destruct (synthesize_outcome w _ _ _ _ _ _ _ _ _ Hr)
          as [-> | (reply & -> & _)]; discriminate.
      * exfalso. apply (Hie e b). congruence.
Qed.

(** X7, with nobody signed in. *)
Lemma X7_identity_first_witness :
  reply_of (signed_out (world buffered_request obedient))
  = Ok (JsonResponse 401 (ErrorBody "Unauthorized" None)) /\
  trace (signed_out (world buffered_request obedient)) = [EvCurrentUser].
Proof.
  assert (Hu : currentUser (signed_out (world buffered_request obedient))
               = Ok None) by reflexivity.
  destruct (X7_identity_first (signed_out (world buffered_request obedient)))
    as (_ & H & _).
  exact (H Hu).
Defined.

(** X8. An API key that is unset or empty stops a signed-in request with
    500 and the configuration message, before the body is read. *)
Theorem X8_key_required (w : World) (u : User) :
  currentUser w = Ok (Some u) ->
  env_set (GEMINI_API_KEY w) = false ->
  reply_of w = Ok (JsonResponse 500 (ErrorBody key_missing None)) /\
  trace w = [EvCurrentUser].
Proof.
  intros Hu Hk. unfold reply_of, trace.
  destruct (POST_gates w)
    as [[Hu' _] | [(e & Hu' & _) | [(u' & _ & _ & ->)
       | [(u' & e & _ & Hk' & _)
       | [(u' & body & m & _ & Hk' & _)
       | (u' & body & message & _ & Hk' & _)]]]]];
    try congruence.
  split; reflexivity.
Qed.

(** X8, with the key set to the empty text. *)
Lemma X8_key_required_witness :
  reply_of (keyless (world buffered_request obedient))
  = Ok (JsonResponse 500 (ErrorBody key_missing None)) /\
  trace (keyless (world buffered_request obedient)) = [EvCurrentUser].
Proof.
  assert (Hu : currentUser (keyless (world buffered_request obedient))
               = Ok (Some alice)) by reflexivity.
  assert (Hk : env_set (GEMINI_API_KEY
                          (keyless (world buffered_request obedient)))
               = false) by reflexivity.
  exact (X8_key_required _ _ Hu Hk).
Defined.

(** X9. Once the body is read, the handler answers 400 exactly when the
    message is not a non-empty string: a missing message, the empty
    string and a value of another type are refused alike, and nothing
    after the check answers 400. *)
Theorem X9_message_check (w : World) (u : User) (body m : JsValue) :
  currentUser w = Ok (Some u) ->
  env_set (GEMINI_API_KEY w) = true ->
  request_json w = Ok body ->
  get body "message" = Ok m ->
  ((exists b, reply_of w = Ok (JsonResponse 400 b))
   <-> forall a s, m <> JStr (String a s)).
Proof.
  intros Hu Hk Hb Hm.
  assert (Hie : forall e b, internal_error w e <> JsonResponse 400 b)
    by (intros e b; unfold internal_error; congruence).
  unfold reply_of.
  destruct (POST_gates w)
    as [[Hu' _] | [(e & Hu' & _) | [(u' & _ & Hk' & _)
       | [(u' & e & _ & _ & Hbad & Hrun)
       | [(u' & body' & m' & _ & _ & Hb' & Hm' & Hne & Hrun)
       | (u' & body' & message & Hacc)]]]]];
    try congruence.
  - destruct Hbad as [Hbad | (body' & Hb' & Hd)]; [congruence |].
    assert (body' = body) as -> by congruence.
    destruct body; discriminate.
  - rewrite Hrun. cbn [fst].
    assert (body' = body) as -> by congruence.
    assert (m' = m) as -> by congruence.
    split; [intros _; exact Hne | eauto].
  - pose proof Hacc as (_ & _ & Hb' & Hm' & Hne).
    assert (body' = body) as -> by congruence.
    assert (Em : m = JStr message) by congruence.
    split.
    + intros [b H]. exfalso.
      destruct (accepted_outcome w u' body message Hacc)
        as [(entry & _ & _ & Hrun) | [(pre & e & _ & _ & Hrun)
           | (pre & model & p & q & rows & c & _ & _ & _ & Hrun)]];
        rewrite Hrun in H; cbn [fst] in H.
      * discriminate.
      * apply (Hie e b). congruence.
      * destruct (fst (synthesize w model p (id u') message
                         (useStreaming_of body) q rows c))
          as [r | e] eqn:Hr.
        -- destruct (synthesize_outcome w _ _ _ _ _ _ _ _ _ Hr)
             as [-> | (reply & -> & _)]; discriminate.
        -- apply (Hie e b). congruence.
    + intros Hall. exfalso. destruct message as [| a s]; [congruence |].
      apply (Hall a s). exact Em.
Qed.

(** X9, on an empty message. *)
Lemma X9_message_check_witness :
  (exists b,
     reply_of (world (ask EmptyString [("stream", JBool false)]) obedient)
     = Ok (JsonResponse 400 b))
  <-> forall a s, JStr EmptyString <> JStr (String a s).
Proof.
  assert (Hu : currentUser
                 (world (ask EmptyString [("stream", JBool false)]) obedient)
               = Ok (Some alice)) by reflexivity.
  assert (Hk : env_set (GEMINI_API_KEY
                 (world (ask EmptyString [("stream", JBool false)]) obedient))
               = true) by reflexivity.
  assert (Hb : request_json
                 (world (ask EmptyString [("stream", JBool false)]) obedient)
               = Ok (ask EmptyString [("stream", JBool false)]))
    by reflexivity.
  assert (Hm : get (ask EmptyString [("stream", JBool false)]) "message"
               = Ok (JStr EmptyString)) by reflexivity.
  exact (X9_message_check _ _ _ _ Hu Hk Hb Hm).
Defined.

(** X10. A body that cannot be read, or that reads as [null], is not a
    bad request: the handler answers 500 from its outer [catch], with the
    message of the error when it has one, and makes no further call. *)
Theorem X10_unreadable_body (w : World) (u : User) :
  currentUser w = Ok (Some u) ->
  env_set (GEMINI_API_KEY w) = true ->
  (exists e, request_json w = Throw e) \/ request_json w = Ok JNull ->
  (exists e,
     reply_of w = Ok (internal_error w e) /\
     (forall e', request_json w = Throw e' -> e = e')) /\
  trace w = [EvCurrentUser; EvRequestJson].
Proof.
  intros Hu Hk Hbody. unfold reply_of, trace.
  destruct (POST_gates w)
    as [[Hu' _] | [(e & Hu' & _) | [(u' & _ & Hk' & _)
       | [(u' & e & _ & _ & Hbad & Hrun)
       | [(u' & body' & m' & _ & _ & Hb' & Hm' & _)
       | (u' & body' & message & _ & _ & Hb' & Hm' & _)]]]]];
    try congruence.
  - rewrite Hrun. cbn [fst snd]. split; [| reflexivity].
    exists e. split; [reflexivity |]. intros e' He'.
    destruct Hbad as [Hbad | (body' & Hb' & _)]; congruence.
  - exfalso. destruct Hbody as [[e He] | Hn]; [congruence |].
    rewrite Hn in Hb'. injection Hb' as <-. discriminate.
  - exfalso. destruct Hbody as [[e He] | Hn]; [congruence |].
    rewrite Hn in Hb'. injection Hb' as <-. discriminate.
Qed.

(** X10, on the body [null]. *)
Lemma X10_unreadable_body_witness :
  (exists e,
     reply_of (reading (Ok JNull) (world buffered_request obedient))
     = Ok (internal_error
             (reading (Ok JNull) (world buffered_request obedient)) e) /\
     (forall e',
        request_json (reading (Ok JNull) (world buffered_request obedient))
        = Throw e' -> e = e')) /\
  trace (reading (Ok JNull) (world buffered_request obedient))
  = [EvCurrentUser; EvRequestJson].
Proof.
  assert (Hu : currentUser
                 (reading (Ok JNull) (world buffered_request obedient))
               = Ok (Some alice)) by reflexivity.
  assert (Hk : env_set (GEMINI_API_KEY
                 (reading (Ok JNull) (world buffered_request obedient)))
               = true) by reflexivity.
  assert (Hb : (exists e,
                  request_json
                    (reading (Ok JNull) (world buffered_request obedient))
                  = Throw e) \/
               request_json
                 (reading (Ok JNull) (world buffered_request obedient))
               = Ok JNull) by (right; reflexivity).
  exact (X10_unreadable_body _ _ Hu Hk Hb).
Defined.

End Responses.

(** ** The page context, the cache and the query information *)

Section Accepted.

Import JsString Js Examples.

(** X11. A page context that is neither falsy nor a string fails the
    request after the queries: the handler answers 500, the synthesis is
    never asked and the cache is not written.  When the page context
    converts to text the model was asked for the page query with it; when
    it does not, building the page prompt throws, and neither the page
    generation nor an auxiliary query is made. *)
Theorem X11_page_context_not_text (w : World) (u : User) (body : JsValue)
  (message : string) :
  accepted w u body message ->
  cache_missed w u body message ->
  page_typed (pageContext_of body) = false ->
  (exists e, reply_of w = Ok (internal_error w e)) /\
  (convertible (pageContext_of body) = true ->
   exists model,
     In (EvGenerate model
           (AutoQueryPrompt (pageContext_of body) (getDatabaseSchema w)
              (id u)))
        (trace w)) /\
  (convertible (pageContext_of body) = false ->
   Forall (fun e => page_call e = false) (trace w)) /\
  Forall (fun e => is_synthesis e = false) (trace w) /\
  (forall e, In e (trace w) -> cache_key e = None \/
                               e = EvCacheGet (id u) message).
Proof.
  intros Hacc Hmiss Hpage. unfold reply_of, trace.
  destruct (accepted_stages w u body message Hacc Hmiss)
    as (model & l0 & q & rows & l1 & aq & arows & l2
        & R0 & R1 & R2 & Hpre & _ & Hrun).
  cbv zeta in Hrun.
  destruct (analysisPrompt_untyped w message (pageContext_of body)
              (pageData_of body) rows arows q aq Hpage) as [e He].
  rewrite He in Hrun. rewrite Hrun. cbn [fst snd].
  assert (Ht : truthy (pageContext_of body) = true).
  { unfold page_typed in Hpage. apply orb_false_iff in Hpage.
    destruct Hpage as [Ht _]. apply negb_false_iff in Ht. exact Ht. }
  split; [eauto |]. split; [| split; [| split]].
  - intros Hc. exists model.
    destruct (context_query_asks w model (id u) (pageContext_of body)
                (List.length (gate_calls u body message)
                 + List.length l0 + List.length l1) Ht Hc) as [l Hl].
    rewrite R2 in Hl. cbn [snd] in Hl. subst l2.
    apply in_or_app. right. apply in_or_app. right.
    apply in_or_app. right. left. reflexivity.
  - intros Hc.
    rewrite (context_query_silent w model (id u) (pageContext_of body) _ Hc)
      in R2.
    injection R2 as _ _ <-. rewrite app_nil_r.
    apply Forall_app. split.
    + unfold gate_calls. destruct (truthy (useStreaming_of body));
        repeat constructor.
    + exact (before_page_calls w u message _ _ _ _ _ _ R0 R1).
  - apply Forall_app. split; [apply gate_calls_no_synthesis |].
    eapply Forall_impl; [| exact Hpre].
    intros ev. apply gathering_no_synthesis.
  - intros ev Hev. apply in_app_or in Hev. destruct Hev as [Hev | Hev].
    + unfold gate_calls in Hev.
      destruct Hev as [<- | [<- | Hev]]; auto.
      destruct (truthy (useStreaming_of body)); [destruct Hev |].
      destruct Hev as [<- | []]. auto.
    + left. apply gathering_no_cache.
      rewrite Forall_forall in Hpre. auto.
Qed.

(** X11, on a page context that is a number and on one that is an object
    with a [toString] entry. *)
Lemma X11_page_context_not_text_witness :
  ((exists e,
      reply_of (world numbered_page obedient)
      = Ok (internal_error (world numbered_page obedient) e)) /\
   (exists model,
      In (EvGenerate model
            (AutoQueryPrompt (pageContext_of numbered_page)
               (getDatabaseSchema (world numbered_page obedient))
               (id alice)))
         (trace (world numbered_page obedient)))) /\
  ((exists e,
      reply_of (world opaque_page obedient)
      = Ok (internal_error (world opaque_page obedient) e)) /\
   Forall (fun e => page_call e = false)
     (trace (world opaque_page obedient)) /\
   Forall (fun e => is_synthesis e = false)
     (trace (world opaque_page obedient))).
Proof.
  split.
  - assert (Hacc : accepted (world numbered_page obedient) alice
                     numbered_page count_question)
      by (repeat split; discriminate).
    assert (Hmiss : cache_missed (world numbered_page obedient) alice
                      numbered_page count_question)
      by (right; reflexivity).
    assert (Hpage : page_typed (pageContext_of numbered_page) = false)
      by reflexivity.
    destruct (X11_page_context_not_text _ _ _ _ Hacc Hmiss Hpage)
      as (H1 & H2 & _).
    split; [exact H1 | exact (H2 eq_refl)].
  - assert (Hacc : accepted (world opaque_page obedient) alice
                     opaque_page count_question)
      by (repeat split; discriminate).
    assert (Hmiss : cache_missed (world opaque_page obedient) alice
                      opaque_page count_question)
      by (right; reflexivity).
    assert (Hpage : page_typed (pageContext_of opaque_page) = false)
      by reflexivity.
    destruct (X11_page_context_not_text _ _ _ _ Hacc Hmiss Hpage)
      as (H1 & _ & H3 & H4 & _).
    split; [exact H1 |]. split; [exact (H3 eq_refl) | exact H4].
Defined.

(** X12. Every cache call of a request is on the entry of the signed-in
    user and the message of the request.  A write records the statement
    that the primary query step of this request returned, or [undefined]
    when that is falsy, never another falsy value, and the number of rows
    that step returned. *)
Theorem X12_cache_entries (w : World) (e : Event) (k : string * string) :
  In e (trace w) ->
  cache_key e = Some k ->
  exists u body message,
    accepted w u body message /\
    k = (id u, message) /\
    forall a b reply sql n,
      e = EvCacheSet a b reply sql n ->
      (sql = JUndefined \/ truthy sql = true) /\
      exists model l0 q rows l1 rest,
        modelName w (List.length (gate_calls u body message))
        = (Ok model, l0) /\
        primary_query w model (id u) message
          (List.length (gate_calls u body message) + List.length l0)
        = (Ok (q, rows), l1) /\
        trace w = (gate_calls u body message ++ l0 ++ l1 ++ rest)%list /\
        sql = or_else q JUndefined /\
        n = List.length rows.
Proof.
  unfold trace.
  destruct (POST_gates w)
    as [[_ ->] | [(e0 & _ & ->) | [(u & _ & _ & ->) | [(u & e0 & _ & _ & _ & ->)
       | [(u & body & m & _ & _ & _ & _ & _ & ->)
       | (u & body & message & Hacc)]]]]];
    cbn [snd];
    try (intros Hin Hk; exfalso;
         repeat (destruct Hin as [<- | Hin]; [discriminate Hk |]);
         destruct Hin; fail).
  intros Hin Hk. exists u, body, message. split; [exact Hacc |].
  assert (Hgate : In e (gate_calls u body message) ->
                  k = (id u, message) /\
                  forall a b reply sql n, e <> EvCacheSet a b reply sql n).
  { intros Hg. split; [exact (gate_calls_keys u body message e k Hg Hk) |].
    intros a b reply sql n ->. unfold gate_calls in Hg.
    destruct Hg as [Hg | [Hg | Hg]]; try discriminate.
    destruct (truthy (useStreaming_of body)); [destruct Hg |].
    destruct Hg as [Hg | []]. discriminate. }
  destruct (POST_accepted w u body message Hacc)
    as [(entry & _ & _ & Hrun) | (Hmiss & _)].
  - rewrite Hrun in Hin. cbn [snd] in Hin.
    repeat (destruct Hin as [<- | Hin]; try discriminate Hk).
    + simpl in Hk. split; [congruence | intros; discriminate].
    + destruct Hin.
  - destruct (accepted_stages w u body message Hacc Hmiss)
      as (model & l0 & q & rows & l1 & aq & arows & l2
          & R0 & R1 & _ & Hpre & _ & Hrun).
    cbv zeta in Hrun.
    destruct (analysisPrompt w message (pageContext_of body)
                (pageData_of body) rows arows q aq) as [p | e0];
      rewrite Hrun in Hin |- *; cbn [snd] in Hin |- *;
      apply in_app_or in Hin; destruct Hin as [Hin | Hin];
      try (destruct (Hgate Hin) as [-> Hno]; split; [reflexivity |];
           intros a b reply sql n E; destruct (Hno _ _ _ _ _ E); fail).
    + apply in_app_or in Hin. destruct Hin as [Hin | Hin].
      * rewrite Forall_forall in Hpre.
        rewrite (gathering_no_cache e (Hpre e Hin)) in Hk. discriminate.
      * match type of Hin with
        | In _ (snd (synthesize _ _ _ _ _ _ _ _ ?c)) =>
            pose proof (synthesize_writes w model p (id u) message
                          (useStreaming_of body) q rows c) as Hw
        end.
        rewrite Forall_forall in Hw. specialize (Hw e Hin).
        destruct e; try discriminate Hk; simpl in Hw, Hk.
        -- destruct Hw.
        -- destruct Hw as (-> & -> & -> & ->).
           split; [congruence |].
           intros a b r s' n' [= _ _ _ <- <-].
           split.
           { unfold or_else. destruct (truthy q) eqn:Hq; auto. }
           exists model, l0, q, rows, l1. eexists.
           split; [exact R0 |]. split; [exact R1 |].
           split; [| split; reflexivity].
           rewrite <- !app_assoc. reflexivity.
    + rewrite Forall_forall in Hpre.
      rewrite (gathering_no_cache e (Hpre e Hin)) in Hk. discriminate.
Qed.

(** X12, on the cache write of a buffered request. *)
Lemma X12_cache_entries_witness :
  exists u body message,
    accepted (world buffered_request obedient) u body message /\
    (id alice, count_question) = (id u, message) /\
    forall a b reply sql n,
      EvCacheSet (id alice) count_question three (JStr filtered_count_sql) 1
      = EvCacheSet a b reply sql n ->
      (sql = JUndefined \/ truthy sql = true) /\
      exists model l0 q rows l1 rest,
        modelName (world buffered_request obedient)
          (List.length (gate_calls u body message))
        = (Ok model, l0) /\
        primary_query (world buffered_request obedient) model (id u) message
          (List.length (gate_calls u body message) + List.length l0)
        = (Ok (q, rows), l1) /\
        trace (world buffered_request obedient)
        = (gate_calls u body message ++ l0 ++ l1 ++ rest)%list /\
        sql = or_else q JUndefined /\
        n = List.length rows.
Proof.
  assert (Hin : In (EvCacheSet (id alice) count_question three
                      (JStr filtered_count_sql) 1)
                  (trace (world buffered_request obedient)))
    by (vm_compute; repeat (try (left; reflexivity); right)).
  assert (Hk : cache_key (EvCacheSet (id alice) count_question three
                            (JStr filtered_count_sql) 1)
               = Some (id alice, count_question)) by reflexivity.
  exact (X12_cache_entries _ _ _ Hin Hk).
Defined.

(** A fresh reply comes from the synthesis of an accepted request. *)
Lemma fresh_reply (w : World) (reply : string) (info : DataInfo) :
  reply_of w = Ok (JsonResponse 200 (ReplyBody reply info)) ->
  exists u body message q rows,
    accepted w u body message /\
    fetched w rows /\
    info = dataInfo_of q rows /\
    In (EvCacheSet (id u) message reply (or_else q JUndefined)
          (List.length rows))
       (trace w).
Proof.
  assert (Hie : forall e, internal_error w e
                          <> JsonResponse 200 (ReplyBody reply info))
    by (intros e; unfold internal_error; congruence).
  unfold reply_of, trace.
  destruct (POST_gates w)
    as [[_ ->] | [(e0 & _ & ->) | [(u & _ & _ & ->) | [(u & e0 & _ & _ & _ & ->)
       | [(u & body & m & _ & _ & _ & _ & _ & ->)
       | (u & body & message & Hacc)]]]]];
    cbn [fst snd]; try discriminate;
    try (intros H; exfalso; apply (Hie e0); congruence).
  destruct (accepted_outcome w u body message Hacc)
    as [(entry & _ & _ & ->)
       | [(pre & e0 & _ & _ & ->)
       | (pre & model & p & q & rows & c & _ & _ & Hf & ->)]];
    cbn [fst snd]; try discriminate;
    try (intros H; exfalso; apply (Hie e0); congruence).
  destruct (fst (synthesize w model p (id u) message
                   (useStreaming_of body) q rows c)) as [r | e] eqn:Hr;
    [| intros H; exfalso; apply (Hie e); congruence].
  destruct (synthesize_outcome w _ _ _ _ _ _ _ _ _ Hr)
    as [-> | (reply' & -> & Hin)]; [discriminate |].
  intros [= <- <-].
  exists u, body, message, q, rows.
  split; [exact Hacc |]. split; [exact Hf |]. split; [reflexivity |].
  apply in_or_app. right. apply in_or_app. right. exact Hin.
Qed.

(** X13. A reply that did not come from the cache was written to it
    before the response was built: under the user and the message of the
    request, with the number of rows the response reports, and with the
    statement the response reports unless there is none, where the entry
    holds [undefined] and the response a placeholder. *)
Theorem X13_reply_is_cached (w : World) (reply : string) (info : DataInfo) :
  reply_of w = Ok (JsonResponse 200 (ReplyBody reply info)) ->
  exists u body message sql,
    accepted w u body message /\
    In (EvCacheSet (id u) message reply sql (info_resultCount info))
       (trace w) /\
    (truthy sql = true /\ info_sqlQuery info = sql \/
     sql = JUndefined /\ info_sqlQuery info = JStr "No SQL generated").
Proof.
  intros H.
  destruct (fresh_reply w reply info H)
    as (u & body & message & q & rows & Hacc & _ & -> & Hin).
  exists u, body, message, (or_else q JUndefined).
  split; [exact Hacc |]. split; [exact Hin |].
  unfold dataInfo_of, or_else. cbn [info_sqlQuery].
  destruct (truthy q) eqn:Hq; auto.
Qed.

(** X13, on the buffered request. *)
Lemma X13_reply_is_cached_witness :
  exists u body message sql,
    accepted (world buffered_request obedient) u body message /\
    In (EvCacheSet (id u) message three sql (info_resultCount one_row_info))
       (trace (world buffered_request obedient)) /\
    (truthy sql = true /\ info_sqlQuery one_row_info = sql \/
     sql = JUndefined /\
     info_sqlQuery one_row_info = JStr "No SQL generated").
Proof.
  assert (H : reply_of (world buffered_request obedient)
              = Ok (JsonResponse 200 (ReplyBody three one_row_info)))
    by (vm_compute; reflexivity).
  exact (X13_reply_is_cached _ _ _ H).
Defined.

(** X14. The query information of a fresh reply is consistent: the
    statement is never empty, the flag says whether rows were counted,
    and the sample is absent exactly when there are no rows and else
    holds the first three rows at most of a result the pool returned. *)
Theorem X14_data_info (w : World) (reply : string) (info : DataInfo) :
  reply_of w = Ok (JsonResponse 200 (ReplyBody reply info)) ->
  truthy (info_sqlQuery info) = true /\
  hasData info = negb (info_resultCount info =? 0) /\
  match sampleData info with
  | None => info_resultCount info = 0
  | Some sample =>
      List.length sample = Nat.min 3 (info_resultCount info) /\
      0 < info_resultCount info /\
      configured w = true /\
      exists c sql rows,
        pool_query w c sql = Ok rows /\
        List.length rows = info_resultCount info /\
        sample = firstn 3 rows
  end.
Proof.
  intros H.
  destruct (fresh_reply w reply info H)
    as (u & body & message & q & rows & _ & Hf & -> & _).
  unfold dataInfo_of.
  cbn [info_sqlQuery info_resultCount hasData sampleData].
  split; [| split].
  - unfold or_else. destruct (truthy q) eqn:Hq; [exact Hq | reflexivity].
  - destruct rows; reflexivity.
  - destruct rows as [| row rows]; [reflexivity |].
    split; [apply length_firstn |].
    split; [simpl; lia |].
    destruct Hf as [Hf | (Hc & c & sql & Hp)]; [discriminate |].
    split; [exact Hc |]. exists c, sql, (row :: rows). auto.
Qed.

(** X14, on the buffered request. *)
Lemma X14_data_info_witness :
  truthy (info_sqlQuery one_row_info) = true /\
  hasData one_row_info = negb (info_resultCount one_row_info =? 0) /\
  match sampleData one_row_info with
  | None => info_resultCount one_row_info = 0
  | Some sample =>
      List.length sample = Nat.min 3 (info_resultCount one_row_info) /\
      0 < info_resultCount one_row_info /\
      configured (world buffered_request obedient) = true /\
      exists c sql rows,
        pool_query (world buffered_request obedient) c sql = Ok rows /\
        List.length rows = info_resultCount one_row_info /\
        sample = firstn 3 rows
  end.
Proof.
  assert (H : reply_of (world buffered_request obedient)
              = Ok (JsonResponse 200 (ReplyBody three one_row_info)))
    by (vm_compute; reflexivity).
  exact (X14_data_info _ _ _ H).
Defined.

End Accepted.

(** ** The executor, the model listing and the primary query *)

Section Stages2.

Import JsString Js Examples.

(** X15. With either connection variable set to a non-empty text,
    [runSupabaseQuery] hands the statement to the pool unchanged and once,
    returns the rows as they are, and rethrows a failure of the pool as
    an error that keeps only its message, under a fixed prefix. *)
Theorem X15_executor (w : World) (site : Site) (sql : string) (c : nat) :
  env_set (DATABASE_URL w) = true \/ env_set (SUPABASE_DB_URL w) = true ->
  runSupabaseQuery w site sql c
  = (match pool_query w (c + 1) sql with
     | Ok rows => Ok rows
     | Throw e =>
         Throw (Error ("Failed to execute SQL query: " ++ exn_message e))
     end,
     [EvQuery site sql; EvPoolQuery sql]).
Proof.
  intros Hset.
  assert (Hc : env_set (env_or (DATABASE_URL w) (SUPABASE_DB_URL w)) = true).
  { unfold env_or, env_set in *.
    destruct (DATABASE_URL w) as [[| a s] |]; try reflexivity;
      destruct Hset as [H | H]; try discriminate H; exact H. }
  unfold runSupabaseQuery, bind, emit, try_catch, call, throw.
  rewrite Hc. cbn [negb fst snd List.length app].
  destruct (pool_query w (c + 1) sql); reflexivity.
Qed.

(** X15, with the second variable only and a pool that refuses. *)
Lemma X15_executor_witness :
  runSupabaseQuery
    (supabase_only (offline (world buffered_request obedient)))
    Primary count_sql 0
  = (Throw (Error "Failed to execute SQL query: connect ECONNREFUSED"),
     [EvQuery Primary count_sql; EvPoolQuery count_sql]).
Proof.
  assert (H : env_set (DATABASE_URL
                (supabase_only (offline (world buffered_request obedient))))
              = true \/
              env_set (SUPABASE_DB_URL
                (supabase_only (offline (world buffered_request obedient))))
              = true) by (right; reflexivity).
  exact (X15_executor _ Primary count_sql 0 H).
Defined.

Lemma find_first_supporting pre m post :
  Forall unsupporting pre ->
  supporting m ->
  find_generateContent (pre ++ m :: post) = Ok m.
Proof.
  intros Hpre Hm. induction Hpre as [| x pre [H1 H2] _ IH].
  - cbn [app find_generateContent].
    destruct Hm as [-> | [-> ->]]; reflexivity.
  - cbn [app find_generateContent]. rewrite H1, H2. exact IH.
Qed.

(** X16. The model name is never empty and costs one call of the
    listing: when the listing fails, is refused or cannot be read the
    name is the default one. *)
Theorem X16_model_name (w : World) (c : nat) :
  exists name,
    modelName w c = (Ok name, [EvListModels]) /\
    name <> EmptyString /\
    ((forall r, fetch_models w = Ok r ->
                ok r = false \/ exists e, json r = Throw e) ->
     name = "gemini-pro").
Proof.
  unfold modelName, availableModel, bind at 1, try_catch, bind at 1, call.
  destruct (fetch_models w) as [r | e] eqn:Hf.
  - cbn [fst snd List.length].
    destruct (ok r) eqn:Hok.
    + rewrite bind_lift.
      destruct (json r) as [data | e] eqn:Hj.
      * unfold lift.
        destruct (model_of_listing data) as [[[| a s] |] | e];
          cbn [ret fst snd app List.length];
          eexists; (split; [reflexivity |]);
          (split; [discriminate |]);
          intros H; destruct (H r eq_refl) as [H' | [e' H']];
          congruence.
      * cbn [ret fst snd app List.length].
        eexists. split; [reflexivity |]. split; [discriminate | reflexivity].
    + cbn [ret fst snd app List.length].
      eexists. split; [reflexivity |]. split; [discriminate | reflexivity].
  - cbn [ret fst snd app List.length].
    eexists. split; [reflexivity |]. split; [discriminate | reflexivity].
Qed.

(** X16, when the listing cannot be fetched. *)
Lemma X16_model_name_witness :
  exists name,
    modelName (world buffered_request obedient) 0
    = (Ok name, [EvListModels]) /\
    name <> EmptyString /\
    ((forall r, fetch_models (world buffered_request obedient) = Ok r ->
                ok r = false \/ exists e, json r = Throw e) ->
     name = "gemini-pro").
Proof.
  exact (X16_model_name (world buffered_request obedient) 0).
Defined.

(** X17. The model of the request is the first entry of the listing that
    supports generation under either spelling, whatever comes after it;
    its name loses its first [models/], and a name that is empty after
    that gives the default model. *)
Theorem X17_first_supporting_model (w : World) (r : FetchResponse)
  (data m : JsValue) (pre post : list JsValue) (name : string) (c : nat) :
  fetch_models w = Ok r ->
  ok r = true ->
  json r = Ok data ->
  get data "models" = Ok (JArr (pre ++ m :: post)) ->
  Forall unsupporting pre ->
  supporting m ->
  get m "name" = Ok (JStr name) ->
  modelName w c
  = (Ok (match remove_first "models/" name with
         | EmptyString => "gemini-pro"
         | chosen => chosen
         end),
     [EvListModels]).
Proof.
  intros Hf Hok Hj Hms Hpre Hm Hname.
  unfold modelName, availableModel, bind at 1, try_catch, bind at 1, call.
  rewrite Hf. cbn [fst snd List.length]. rewrite Hok, bind_lift, Hj.
  unfold lift, model_of_listing. rewrite Hms.
  cbn [or_else truthy]. rewrite (find_first_supporting pre m post Hpre Hm).
  destruct m; try discriminate Hname; rewrite Hname;
    cbn [ret fst snd app List.length];
    destruct (remove_first "models/" name); reflexivity.
Qed.

(** X17, on a listing whose first entry only embeds. *)
Lemma X17_first_supporting_model_witness :
  modelName
    (listing
       (JObj [("models",
               JArr [model_entry "models/embedding-001" ["embedContent"];
                     model_entry "models/gemini-1.5-flash"
                       ["generateContent"; "countTokens"];
                     model_entry "models/gemini-1.5-pro" ["generateContent"]])])
       (world buffered_request obedient)) 0
  = (Ok "gemini-1.5-flash", [EvListModels]).
Proof.
  set (data :=
         JObj [("models",
                JArr [model_entry "models/embedding-001" ["embedContent"];
                      model_entry "models/gemini-1.5-flash"
                        ["generateContent"; "countTokens"];
                      model_entry "models/gemini-1.5-pro" ["generateContent"]])]).
  assert (Hf : fetch_models (listing data (world buffered_request obedient))
               = Ok (mkFetch true (Ok data))) by reflexivity.
  assert (Hok : ok (mkFetch true (Ok data)) = true) by reflexivity.
  assert (Hj : json (mkFetch true (Ok data)) = Ok data) by reflexivity.
  assert (Hms : get data "models"
                = Ok (JArr ([model_entry "models/embedding-001"
                               ["embedContent"]]
                            ++ model_entry "models/gemini-1.5-flash"
                                 ["generateContent"; "countTokens"]
                            :: [model_entry "models/gemini-1.5-pro"
                                  ["generateContent"]])))
    by reflexivity.
  assert (Hpre : Forall unsupporting
                   [model_entry "models/embedding-001" ["embedContent"]])
    by (repeat constructor).
  assert (Hm : supporting (model_entry "models/gemini-1.5-flash"
                             ["generateContent"; "countTokens"]))
    by (left; reflexivity).
  assert (Hname : get (model_entry "models/gemini-1.5-flash"
                         ["generateContent"; "countTokens"]) "name"
                  = Ok (JStr "models/gemini-1.5-flash")) by reflexivity.
  exact (X17_first_supporting_model _ _ _ _ _ _ _ 0 Hf Hok Hj Hms Hpre Hm
           Hname).
Defined.

(** X18. The primary query has no test on the statement.  When the
    model answers the SQL prompt, the text the filter returns is handed
    to [runSupabaseQuery] as it is, whatever it says; a parsed statement
    that is not a string is kept as the statement of the request and no
    query runs. *)
Theorem X18_primary_runs_filter_output (w : World)
  (model userId message t : string) (c : nat) :
  generateContent w c model
    (SqlGenerationPrompt (getDatabaseSchema w) message userId) = Ok t ->
  (forall sql,
     ensure_user_filter userId (extract_sql t) = Ok sql ->
     primary_query w model userId message c
     = (Ok (JStr sql,
            if configured w
            then match pool_query w (c + 2) sql with
                 | Ok rows => rows
                 | Throw _ => []
                 end
            else []),
        EvGenerate model
          (SqlGenerationPrompt (getDatabaseSchema w) message userId)
        :: EvQuery Primary sql
        :: (if configured w then [EvPoolQuery sql] else []))) /\
  (forall e,
     ensure_user_filter userId (extract_sql t) = Throw e ->
     primary_query w model userId message c
     = (Ok (extract_sql t, []),
        [EvGenerate model
           (SqlGenerationPrompt (getDatabaseSchema w) message userId)])).
Proof.
  intros Hgen.
  set (p := SqlGenerationPrompt (getDatabaseSchema w) message userId) in *.
  assert (Hg : try_catch
                 (sqlResponse <- generate_sql w model p ;;
                  ret (Some sqlResponse))
                 (fun _ => ret None) c
               = (Ok (Some t), [EvGenerate model p])).
  { unfold generate_sql, try_catch, bind, generate, call, ret.
    rewrite Hgen. reflexivity. }
  split.
  - intros sql Hsql. unfold primary_query. fold p.
    rewrite (bind_ok _ _ Hg). rewrite Hsql.
    cbn [List.length fst snd app].
    unfold runSupabaseQuery, bind, emit, try_catch, call, throw, ret.
    fold (configured w).
    destruct (configured w); cbn [negb fst snd List.length app].
    + replace (c + 1 + 1) with (c + 2) by lia.
      destruct (pool_query w (c + 2) sql); reflexivity.
    + reflexivity.
  - intros e He. unfold primary_query. fold p.
    rewrite (bind_ok _ _ Hg). rewrite He. reflexivity.
Qed.

(** X18, on an answer that is a bare [DELETE]. *)
Lemma X18_primary_runs_filter_output_witness :
  primary_query (world buffered_request destructive) "gemini-pro"
    (id alice) count_question 0
  = (Ok (JStr purge_sql, [[("address", JStr "12 Elm St")]]),
     [EvGenerate "gemini-pro"
        (SqlGenerationPrompt "properties(id, user_id, address)"
           count_question (id alice));
      EvQuery Primary purge_sql; EvPoolQuery purge_sql]).
Proof.
  assert (Hgen : generateContent (world buffered_request destructive) 0
                   "gemini-pro"
                   (SqlGenerationPrompt
                      (getDatabaseSchema
                         (world buffered_request destructive))
                      count_question (id alice))
                 = Ok purge_sql) by reflexivity.
  assert (Hsql : ensure_user_filter (id alice) (extract_sql purge_sql)
                 = Ok purge_sql) by (vm_compute; reflexivity).
  destruct (X18_primary_runs_filter_output
              (world buffered_request destructive) "gemini-pro" (id alice)
              count_question purge_sql 0 Hgen) as [H _].
  exact (H purge_sql Hsql).
Defined.

(** X20. When the page context converts to text, so that the page prompt
    is built, the page-context statement is run as the model wrote it: the
    user filter of the primary query is not applied to it, and the only
    test is the one on the three words. *)
Theorem X20_auxiliary_runs_unfiltered (w : World)
  (model userId : string) (pageContext : JsValue) (t sql : string)
  (c : nat) :
  truthy pageContext = true ->
  convertible pageContext = true ->
  generateContent w c model
    (AutoQueryPrompt pageContext (getDatabaseSchema w) userId) = Ok t ->
  auxiliary_sql t = JStr sql ->
  sql <> EmptyString ->
  reads_only (toLowerCase sql) = true ->
  context_query w model userId pageContext c
  = (Ok (JStr sql,
         if configured w
         then match pool_query w (c + 2) sql with
              | Ok rows => rows
              | Throw _ => []
              end
         else []),
     EvGenerate model
       (AutoQueryPrompt pageContext (getDatabaseSchema w) userId)
     :: EvQuery Auxiliary sql
     :: (if configured w then [EvPoolQuery sql] else [])).
Proof.
  intros Hpc Hconv Hgen Hsql Hne Hro.
  assert (Hg : try_catch
                 (page <- lift (ToString pageContext) ;;
                  autoQueryText <- generate w model
                    (AutoQueryPrompt page (getDatabaseSchema w) userId) ;;
                  ret (Some autoQueryText))
                 (fun _ => ret None) c
               = (Ok (Some t),
                  [EvGenerate model
                     (AutoQueryPrompt pageContext (getDatabaseSchema w)
                        userId)])).
  { unfold try_catch. rewrite bind_lift. unfold ToString. rewrite Hconv.
    unfold bind, generate, call, ret. rewrite Hgen. reflexivity. }
  unfold context_query. rewrite Hpc.
  rewrite (bind_ok _ _ Hg). rewrite Hsql.
  assert (Ht : truthy (JStr sql) = true)
    by (destruct sql; [congruence | reflexivity]).
  rewrite Ht. cbn [receiver]. rewrite Hro.
  cbn [List.length fst snd app].
  unfold runSupabaseQuery, bind, emit, try_catch, call, throw, ret.
  fold (configured w).
  destruct (configured w); cbn [negb fst snd List.length app].
  - replace (c + 1 + 1) with (c + 2) by lia.
    destruct (pool_query w (c + 2) sql); reflexivity.
  - reflexivity.
Qed.

(** X20, on a page-context answer without any filter. *)
Lemma X20_auxiliary_runs_unfiltered_witness :
  context_query (world page_request forgetful) "gemini-pro" (id alice)
    (JStr "properties") 0
  = (Ok (JStr unfiltered_sql, [[("address", JStr "12 Elm St")]]),
     [EvGenerate "gemini-pro"
        (AutoQueryPrompt (JStr "properties")
           "properties(id, user_id, address)" (id alice));
      EvQuery Auxiliary unfiltered_sql; EvPoolQuery unfiltered_sql]).
Proof.
  assert (Hpc : truthy (JStr "properties") = true) by reflexivity.
  assert (Hconv : convertible (JStr "properties") = true) by reflexivity.
  assert (Hgen : generateContent (world page_request forgetful) 0
                   "gemini-pro"
                   (AutoQueryPrompt (JStr "properties")
                      (getDatabaseSchema (world page_request forgetful))
                      (id alice))
                 = Ok (envelope unfiltered_sql)) by reflexivity.
  assert (Hsql : auxiliary_sql (envelope unfiltered_sql)
                 = JStr unfiltered_sql) by (vm_compute; reflexivity).
  assert (Hne : unfiltered_sql <> EmptyString) by discriminate.
  assert (Hro : reads_only (toLowerCase unfiltered_sql) = true)
    by reflexivity.
  exact (X20_auxiliary_runs_unfiltered (world page_request forgetful)
           "gemini-pro" (id alice) (JStr "properties")
           (envelope unfiltered_sql) unfiltered_sql 0
           Hpc Hconv Hgen Hsql Hne Hro).
Defined.

End Stages2.

(** ** Reading the statement out of the answer *)

Section Envelope.

Import JsString Js Patterns Examples.

Lemma length_append (a b : string) :
  String.length (a ++ b) = String.length a + String.length b.
Proof. induction a as [| c a IH]; simpl; [| rewrite IH]; reflexivity. Qed.

(** A run of plain characters up to a quote is a string literal. *)
Lemma string_body_plain (sql rest : string) :
  forall fuel,
    all_plain sql = true ->
    String.length sql < fuel ->
    Json.string_body fuel (sql ++ String dquote rest) = Some (sql, rest).
Proof.
  unfold all_plain.
  induction sql as [| c sql IH]; intros fuel Hp Hf.
  - destruct fuel; [inversion Hf |]. reflexivity.
  - destruct fuel; [inversion Hf |].
    simpl in Hp. apply negb_true_iff in Hp. apply orb_false_iff in Hp.
    destruct Hp as [Hc Hs].
    assert (IH' : Json.string_body fuel (sql ++ String dquote rest)
                  = Some (sql, rest)).
    { apply IH; [rewrite Hs; reflexivity | simpl in Hf; lia]. }
    clear IH.
    change ((String c sql) ++ String dquote rest)
      with (String c (sql ++ String dquote rest)).
    set (tail := sql ++ String dquote rest) in *.
    destruct c as [[] [] [] [] [] [] [] []];
      try discriminate Hc;
      cbn [Json.string_body]; rewrite ?IH'; reflexivity.
Qed.

Lemma envelope_split (sql : string) :
  envelope sql = String "{" (envelope_inner sql ++ "}").
Proof.
  unfold envelope, envelope_inner, quoted. cbn [append].
  rewrite !append_assoc. reflexivity.
Qed.

Lemma skip_json_ws_space (c : ascii) (r : string) :
  Json.skip_json_ws (String " " (String c r)) = Json.skip_json_ws (String c r).
Proof. reflexivity. Qed.

Lemma value_envelope (sql : string) (f : nat) :
  all_plain sql = true ->
  Json.value (S (S (S f))) (envelope sql)
  = Some (JObj [("sql_query", JStr sql)], EmptyString).
Proof.
  intros Hp. unfold envelope, quoted. cbn [append].
  rewrite !append_assoc. cbn [append].
  assert (Hlit : Json.string_lit (sql ++ String dquote " }")
                 = Some (sql, " }")).
  { unfold Json.string_lit. apply string_body_plain; [exact Hp |].
    rewrite length_append. simpl. lia. }
  assert (Hkey : forall r,
            Json.string_lit ("sql_query" ++ String dquote r)
            = Some ("sql_query", r)).
  { intros r. unfold Json.string_lit.
    apply string_body_plain;
      [reflexivity | rewrite length_append; simpl; lia]. }
  assert (Hb : forall r, Json.skip_json_ws (String "{" r) = String "{" r)
    by reflexivity.
  assert (Hq : forall r,
            Json.skip_json_ws (String dquote r) = String dquote r)
    by reflexivity.
  assert (Hc : forall r, Json.skip_json_ws (String ":" r) = String ":" r)
    by reflexivity.
  assert (He : Json.skip_json_ws " }" = "}") by reflexivity.
  cbn [append] in Hkey.
  cbn [Json.value]. rewrite Hb. rewrite skip_json_ws_space, Hq.
  cbn [Json.members]. rewrite Hq, Hkey, Hc.
  cbn [Json.value]. rewrite skip_json_ws_space, Hq, Hlit, He.
  reflexivity.
Qed.

Lemma parse_envelope (sql : string) :
  all_plain sql = true ->
  Json.parse (envelope sql) = Some (JObj [("sql_query", JStr sql)]).
Proof.
  intros Hp. unfold Json.parse.
  assert (Hf : exists f,
            2 * String.length (envelope sql) + 2 = S (S (S f))).
  { exists (2 * String.length (envelope sql) - 1).
    rewrite envelope_split. simpl. lia. }
  destruct Hf as [f ->]. rewrite (value_envelope sql f Hp). reflexivity.
Qed.

Lemma search_brace (pre r : string) :
  has_char is_brace pre = false ->
  search (strip_prefix "{") (pre ++ String "{" r) = Some (pre, r).
Proof.
  induction pre as [| c pre IH]; intros H.
  - destruct r; reflexivity.
  - simpl in H. apply orb_false_iff in H. destruct H as [Hc Hs].
    change ((String c pre) ++ String "{" r)
      with (String c (pre ++ String "{" r)).
    cbn [search]. rewrite (IH Hs).
    destruct c as [[] [] [] [] [] [] [] []];
      try discriminate Hc; reflexivity.
Qed.

Lemma before_last_none (post : string) :
  has_char is_closing_brace post = false -> before_last "}" post = None.
Proof.
  induction post as [| c post IH]; intros H; [reflexivity |].
  simpl in H. apply orb_false_iff in H. destruct H as [Hc Hs].
  cbn [before_last]. rewrite (IH Hs).
  unfold is_closing_brace in Hc. rewrite Hc. reflexivity.
Qed.

Lemma before_last_app (x post : string) :
  has_char is_closing_brace post = false ->
  before_last "}" (x ++ String "}" post) = Some x.
Proof.
  intros H. induction x as [| c x IH].
  - cbn [append before_last]. rewrite (before_last_none post H).
    reflexivity.
  - change ((String c x) ++ String "}" post)
      with (String c (x ++ String "}" post)).
    cbn [before_last]. rewrite IH. reflexivity.
Qed.

(** The expression finds the envelope in its surroundings. *)
Lemma json_envelope_found (pre sql post : string) :
  has_char is_brace pre = false ->
  has_char is_closing_brace post = false ->
  json_envelope (pre ++ envelope sql ++ post) = Some (envelope sql).
Proof.
  intros Hpre Hpost. unfold json_envelope.
  rewrite envelope_split.
  change (String "{" (envelope_inner sql ++ "}") ++ post)
    with (String "{" ((envelope_inner sql ++ "}") ++ post)).
  rewrite (search_brace pre _ Hpre).
  rewrite append_assoc.
  change ("}" ++ post) with (String "}" post).
  rewrite (before_last_app _ post Hpost).
  unfold envelope_inner at 1.
  change (" " ++ quoted "sql_query" ++ ": " ++ quoted sql ++ " ")
    with (" " ++ quoted "sql_query" ++ (": " ++ quoted sql ++ " ")).
  rewrite includes_middle. reflexivity.
Qed.

(** X19. Both parsers read the statement back from the envelope the
    prompts ask for, whatever surrounds the envelope, as long as no brace
    opens before it and none closes after it: a non-empty statement of
    characters that need no escape comes out as it went in. *)
Theorem X19_envelope_round_trip (pre sql post : string) :
  sql <> EmptyString ->
  all_plain sql = true ->
  has_char is_brace pre = false ->
  has_char is_closing_brace post = false ->
  extract_sql (pre ++ envelope sql ++ post) = JStr sql /\
  auxiliary_sql (pre ++ envelope sql ++ post) = JStr sql.
Proof.
  intros Hne Hp Hpre Hpost.
  assert (He : envelope_sql (pre ++ envelope sql ++ post)
               = Some (JStr sql)).
  { unfold envelope_sql.
    rewrite (json_envelope_found pre sql post Hpre Hpost).
    rewrite (parse_envelope sql Hp).
    destruct sql as [| a s]; [congruence |]. reflexivity. }
  unfold extract_sql, auxiliary_sql. rewrite He. split; reflexivity.
Qed.

(** X19, on an envelope inside a fenced block. *)
Lemma X19_envelope_round_trip_witness :
  extract_sql (("```json" ++ newline) ++ envelope count_sql ++ newline ++ "```")
  = JStr count_sql /\
  auxiliary_sql
    (("```json" ++ newline) ++ envelope count_sql ++ newline ++ "```")
  = JStr count_sql.
Proof.
  assert (Hne : count_sql <> EmptyString) by discriminate.
  assert (Hp : all_plain count_sql = true) by reflexivity.
  assert (Hpre : has_char is_brace ("```json" ++ newline) = false)
    by reflexivity.
  assert (Hpost : has_char is_closing_brace (newline ++ "```") = false)
    by reflexivity.
  exact (X19_envelope_round_trip _ _ _ Hne Hp Hpre Hpost).
Defined.

End Envelope.
